(** * Loom MCP adapter: credential resolution, request classification and
      response adaptation (src/types/env.ts, src/client.ts)

    The adapter is TypeScript running on a JavaScript engine.  The embedding
    keeps the dynamic typing of the runtime: wire data are JavaScript values,
    property reads on [undefined]/[null] throw, [||], [!!] and [?:] go through
    [ToBoolean], template literals through [ToString].  Effects are explicit:
    an operation is a function of the network (which answers each [fetch])
    and of the log of requests issued so far, and returns a value or a thrown
    error together with the extended log. *)

From Stdlib Require Import ZArith List String Ascii Bool Lia DecimalString.
Import ListNotations.

Set Warnings "-register-all".

Local Open Scope Z_scope.
Local Open Scope list_scope.
Local Open Scope string_scope.

(* ===================================================================== *)
(** * The JavaScript runtime: values and conversions *)
(* ===================================================================== *)

Module JS.

(** Strings are sequences of 8-bit units.  A header value is the byte
    string that [Headers.get] returns (one code unit per byte); other text
    is taken in its UTF-8 encoding, the one [URLSearchParams] serialises. *)

(** Numbers.  [Int z] is the number with integer value [z]; [Dec m e] is
    the non-integer [m / 10^e] with [m] not a multiple of ten.  Values are
    exact: the rounding of IEEE doubles (beyond 2^53, or more than 17
    digits), the infinities and the sign of zero are not represented. *)
Inductive number : Type :=
| NaN
| Int (z : Z)
| Dec (m : Z) (e : positive).

Inductive Value : Type :=
| Undefined
| Null
| Bool (b : bool)
| Number (n : number)
| Str (s : string)
| Array (elements : list Value)
| Object (properties : list (string * Value)).

(** ** ToBoolean: the test behind [if], [?:], [||], [!] *)

Definition number_truthy (n : number) : bool :=
  match n with
  | NaN => false
  | Int z => negb (Z.eqb z 0)
  | Dec m _ => negb (Z.eqb m 0)
  end.

Definition string_truthy (s : string) : bool :=
  match s with
  | EmptyString => false
  | String _ _ => true
  end.

Definition ToBoolean (v : Value) : bool :=
  match v with
  | Undefined | Null => false
  | Bool b => b
  | Number n => number_truthy n
  | Str s => string_truthy s
  | Array _ | Object _ => true
  end.

(** [a || b] on values. *)
Definition or_else (a b : Value) : Value :=
  if ToBoolean a then a else b.

(** An optional parameter ([x?: T]) is [None] when [undefined]. *)
Definition opt_string_truthy (o : option string) : bool :=
  match o with
  | Some s => string_truthy s
  | None => false
  end.

Definition opt_number_truthy (o : option number) : bool :=
  match o with
  | Some n => number_truthy n
  | None => false
  end.

(** ** ToString *)

Definition string_of_Z (z : Z) : string :=
  NilZero.string_of_int (Z.to_int z).

Fixpoint zeros (n : nat) : string :=
  match n with
  | O => EmptyString
  | S k => String "0" (zeros k)
  end.

(** Decimal point notation of [m / 10^e]; the engine's choice for values
    between 1e-6 and 1e21 in magnitude. *)
Definition string_of_Dec (m : Z) (e : positive) : string :=
  let digits := string_of_Z (Z.abs m) in
  let places := Pos.to_nat e in
  let padded := zeros (S places - String.length digits) ++ digits in
  let cut := (String.length padded - places)%nat in
  (if Z.ltb m 0 then "-" else "")
    ++ substring 0 cut padded ++ "." ++ substring cut places padded.

Definition number_to_string (n : number) : string :=
  match n with
  | NaN => "NaN"
  | Int z => string_of_Z z
  | Dec m e => string_of_Dec m e
  end.

(** The string that [String(v)], or the conversion inside a template
    literal, gives when it completes; [converts] below tells whether it
    does.  An array is its elements joined by commas, where [undefined] and
    [null] count as the empty string. *)
Fixpoint ToString (v : Value) : string :=
  match v with
  | Undefined => "undefined"
  | Null => "null"
  | Bool true => "true"
  | Bool false => "false"
  | Number n => number_to_string n
  | Str s => s
  | Array l =>
      String.concat ","
        (List.map (fun x => match x with
                            | Undefined | Null => ""
                            | _ => ToString x
                            end) l)
  | Object _ => "[object Object]"
  end.

(** What [Array.prototype.join] gives when it completes: [undefined] and
    [null] elements contribute the empty string, every other element its
    [ToString]. *)
Definition join_item (v : Value) : string :=
  match v with
  | Undefined | Null => ""
  | _ => ToString v
  end.

Definition Array_join (l : list Value) (sep : string) : string :=
  String.concat sep (List.map join_item l).

(** ** Own properties of an object, in insertion order *)

Fixpoint lookup {A : Type} (k : string) (ps : list (string * A)) : option A :=
  match ps with
  | [] => None
  | (k', v) :: rest => if String.eqb k k' then Some v else lookup k rest
  end.

(** Whether the conversion of a value to a string completes.  An object is
    converted by its [toString]: the one of [Object.prototype], unless the
    object has a property of that name of its own, which in data is never a
    function, and then the runtime throws a TypeError ([valueOf] gives the
    object back and does not help).  An array is converted by joining its
    elements, [undefined] and [null] apart. *)
Fixpoint converts (v : Value) : bool :=
  match v with
  | Object ps =>
      match lookup "toString" ps with
      | Some _ => false
      | None => true
      end
  | Array l =>
      forallb (fun x => match x with
                        | Undefined | Null => true
                        | _ => converts x
                        end) l
  | _ => true
  end.

(** Assignment keeps the position of an existing key and appends a new one. *)
Fixpoint assign {A : Type} (k : string) (v : A) (ps : list (string * A))
  : list (string * A) :=
  match ps with
  | [] => [(k, v)]
  | (k', v') :: rest =>
      if String.eqb k k' then (k, v) :: rest else (k', v') :: assign k v rest
  end.

(** Object spread [{...a, ...b}]. *)
Definition spread {A : Type} (a b : list (string * A)) : list (string * A) :=
  fold_left (fun acc kv => assign (fst kv) (snd kv) acc) b a.

(** ** Number.parseInt(s, 10) *)

(** White space among 8-bit units: tab, line feed, vertical tab, form
    feed, carriage return, space and the no-break space of a header value.
    The white space from U+0100 on is not told, nor the no-break space of a
    text in UTF-8, where it is two units. *)
Definition is_StrWhiteSpaceChar (c : ascii) : bool :=
  let n := nat_of_ascii c in
  (Nat.eqb n 9 || Nat.eqb n 10 || Nat.eqb n 11 || Nat.eqb n 12
   || Nat.eqb n 13 || Nat.eqb n 32 || Nat.eqb n 160)%bool.

Fixpoint trim_start (s : string) : string :=
  match s with
  | String c rest => if is_StrWhiteSpaceChar c then trim_start rest else s
  | EmptyString => EmptyString
  end.

Definition digit_value (c : ascii) : option Z :=
  let n := nat_of_ascii c in
  if (Nat.leb 48 n && Nat.leb n 57)%bool then Some (Z.of_nat n - 48) else None.

(** The value of the longest prefix of decimal digits; [None] when the
    prefix is empty. *)
Fixpoint digits_prefix (s : string) (acc : option Z) : option Z :=
  match s with
  | String c rest =>
      match digit_value c with
      | Some d =>
          digits_prefix rest
            (Some (10 * (match acc with Some a => a | None => 0 end) + d))
      | None => acc
      end
  | EmptyString => acc
  end.

(** White space is skipped, a sign is read and removed, and the digits in
    front give the integer; there is [NaN] when no digit is in front.  The
    integer is the one that the digits denote: beyond 2^53, where the
    runtime rounds it or gives an infinity, it stands for that result. *)
Definition parseInt (input : string) : number :=
  let s := trim_start input in
  let negative :=
    match s with
    | String c _ => Ascii.eqb c "-"
    | EmptyString => false
    end in
  let s :=
    match s with
    | String c rest =>
        if (Ascii.eqb c "+" || Ascii.eqb c "-")%bool then rest else s
    | EmptyString => s
    end in
  match digits_prefix s None with
  | None => NaN
  | Some mathInt => Int (if negative then - mathInt else mathInt)
  end.

(** [Number.isNaN] *)
Definition Number_isNaN (n : number) : bool :=
  match n with
  | NaN => true
  | _ => false
  end.

End JS.

(* ===================================================================== *)
(** * JSON.parse and JSON.stringify *)
(* ===================================================================== *)

Module Json.
Import JS.

Definition dquote : ascii := ascii_of_nat 34.
Definition backslash : ascii := ascii_of_nat 92.

Definition code (c : ascii) : nat := nat_of_ascii c.

Definition is_ws (c : ascii) : bool :=
  (Nat.eqb (code c) 32 || Nat.eqb (code c) 9
   || Nat.eqb (code c) 10 || Nat.eqb (code c) 13)%bool.

Fixpoint skip_ws (s : string) : string :=
  match s with
  | String c rest => if is_ws c then skip_ws rest else s
  | EmptyString => EmptyString
  end.

Fixpoint strip_prefix (p s : string) : option string :=
  match p, s with
  | EmptyString, _ => Some s
  | String a p', String b s' => if Ascii.eqb a b then strip_prefix p' s' else None
  | String _ _, EmptyString => None
  end.

(** ** String literals *)

Definition hex_value (c : ascii) : option N :=
  let n := code c in
  if (Nat.leb 48 n && Nat.leb n 57)%bool then Some (N.of_nat (n - 48))
  else if (Nat.leb 65 n && Nat.leb n 70)%bool then Some (N.of_nat (n - 55))
  else if (Nat.leb 97 n && Nat.leb n 102)%bool then Some (N.of_nat (n - 87))
  else None.

Definition hex4 (a b c d : ascii) : option N :=
  match hex_value a, hex_value b, hex_value c, hex_value d with
  | Some x, Some y, Some z, Some w => Some (((x * 16 + y) * 16 + z) * 16 + w)%N
  | _, _, _, _ => None
  end.

Definition byte (n : N) : string := String (ascii_of_N n) EmptyString.

(** UTF-8 encoding of a code point. *)
Definition utf8 (cp : N) : string :=
  (if cp <? 128 then byte cp
   else if cp <? 2048 then byte (192 + cp / 64) ++ byte (128 + cp mod 64)
   else if cp <? 65536 then
     byte (224 + cp / 4096) ++ byte (128 + (cp / 64) mod 64)
       ++ byte (128 + cp mod 64)
   else
     byte (240 + cp / 262144) ++ byte (128 + (cp / 4096) mod 64)
       ++ byte (128 + (cp / 64) mod 64) ++ byte (128 + cp mod 64))%N.

Definition is_high_surrogate (u : N) : bool := ((55296 <=? u) && (u <=? 56319))%N.
Definition is_low_surrogate (u : N) : bool := ((56320 <=? u) && (u <=? 57343))%N.

Definition flush (pending : option N) : string :=
  match pending with
  | Some hi => utf8 hi
  | None => EmptyString
  end.

Definition prepend (p : string) (r : option (string * string))
  : option (string * string) :=
  match r with
  | Some (s, rest) => Some (p ++ s, rest)
  | None => None
  end.

Definition simple_escape (e : ascii) : option string :=
  let n := code e in
  if Nat.eqb n 34 then Some (byte 34)
  else if Nat.eqb n 92 then Some (byte 92)
  else if Nat.eqb n 47 then Some (byte 47)
  else if Nat.eqb n 98 then Some (byte 8)
  else if Nat.eqb n 102 then Some (byte 12)
  else if Nat.eqb n 110 then Some (byte 10)
  else if Nat.eqb n 114 then Some (byte 13)
  else if Nat.eqb n 116 then Some (byte 9)
  else None.

(** The characters of a string literal after its opening quote, up to the
    closing quote; [pending] is a high surrogate waiting for its partner. *)
Fixpoint string_body (s : string) (pending : option N)
  : option (string * string) :=
  match s with
  | EmptyString => None
  | String c rest =>
      if Ascii.eqb c dquote then Some (flush pending, rest)
      else if Ascii.eqb c backslash then
        match rest with
        | EmptyString => None
        | String e rest' =>
            if Nat.eqb (code e) 117 then
              match rest' with
              | String h1 (String h2 (String h3 (String h4 rest''))) =>
                  match hex4 h1 h2 h3 h4 with
                  | None => None
                  | Some u =>
                      match pending with
                      | Some hi =>
                          if is_low_surrogate u then
                            prepend
                              (utf8 (65536 + (hi - 55296) * 1024 + (u - 56320))%N)
                              (string_body rest'' None)
                          else if is_high_surrogate u then
                            prepend (utf8 hi) (string_body rest'' (Some u))
                          else prepend (utf8 hi ++ utf8 u) (string_body rest'' None)
                      | None =>
                          if is_high_surrogate u then string_body rest'' (Some u)
                          else prepend (utf8 u) (string_body rest'' None)
                      end
                  end
              | _ => None
              end
            else
              match simple_escape e with
              | Some ch => prepend (flush pending ++ ch) (string_body rest' None)
              | None => None
              end
        end
      else if Nat.ltb (code c) 32 then None
      else prepend (flush pending ++ String c EmptyString) (string_body rest None)
  end.

(** ** Number literals *)

Fixpoint span_digits (s : string) : string * string :=
  match s with
  | String c rest =>
      match digit_value c with
      | Some _ => let '(ds, r) := span_digits rest in (String c ds, r)
      | None => (EmptyString, s)
      end
  | EmptyString => (EmptyString, EmptyString)
  end.

Fixpoint digits_value (ds : string) (acc : Z) : Z :=
  match ds with
  | String c rest =>
      digits_value rest
        (10 * acc + match digit_value c with Some d => d | None => 0 end)
  | EmptyString => acc
  end.

(** [m / 10^places] in lowest decimal terms. *)
Fixpoint reduce (places : nat) (m : Z) : number :=
  match places with
  | O => Int m
  | S k =>
      if Z.eqb (m mod 10) 0 then reduce k (m / 10)
      else Dec m (Pos.of_nat places)
  end.

Definition decimal (negative : bool) (mantissa exponent : Z) : number :=
  let m := if negative then - mantissa else mantissa in
  if Z.eqb mantissa 0 then Int 0
  else if (0 <=? exponent)%Z then Int (m * 10 ^ exponent)
  else reduce (Z.to_nat (- exponent)) m.

(** The rest of [s] after the character [c], when [s] starts with it. *)
Definition starts_with (c : ascii) (s : string) : option string :=
  match s with
  | String x rest => if Ascii.eqb x c then Some rest else None
  | EmptyString => None
  end.

(** The integer part is a single zero or starts with another digit. *)
Definition int_part_ok (ip : string) : bool :=
  match ip with
  | EmptyString => false
  | String c (String _ _) => negb (Ascii.eqb c "0")
  | String _ EmptyString => true
  end.

(** An optional fraction: its digits and what follows. *)
Definition fraction (s : string) : option (string * string) :=
  match starts_with "." s with
  | Some r =>
      let '(fp, r') := span_digits r in
      match fp with
      | EmptyString => None
      | String _ _ => Some (fp, r')
      end
  | None => Some (EmptyString, s)
  end.

(** An optional exponent: its value and what follows. *)
Definition exponent (s : string) : option (Z * string) :=
  match s with
  | String c r =>
      if (Nat.eqb (code c) 101 || Nat.eqb (code c) 69)%bool then
        let '(eneg, r1) :=
          match starts_with "-" r, starts_with "+" r with
          | Some r', _ => (true, r')
          | None, Some r' => (false, r')
          | None, None => (false, r)
          end in
        let '(ep, r2) := span_digits r1 in
        match ep with
        | EmptyString => None
        | String _ _ =>
            let e := digits_value ep 0 in
            Some ((if eneg then - e else e), r2)
        end
      else Some (0, s)
  | EmptyString => Some (0, s)
  end.

Definition number_literal (s : string) : option (number * string) :=
  let '(negative, s1) :=
    match starts_with "-" s with
    | Some r => (true, r)
    | None => (false, s)
    end in
  let '(ip, s2) := span_digits s1 in
  if negb (int_part_ok ip) then None
  else
    match fraction s2 with
    | None => None
    | Some (fp, s3) =>
        match exponent s3 with
        | None => None
        | Some (e, s4) =>
            Some (decimal negative (digits_value (ip ++ fp) 0)
                    (e - Z.of_nat (String.length fp)), s4)
        end
    end.

(** ** Values *)

(** The outcome of reading a value from a text: the value and the rest of
    the text, a syntax error, or no fuel left. *)
Inductive Reading : Type :=
| Read (v : Value) (rest : string)
| Malformed
| Exhausted.

Definition literal (s : string) : Reading :=
  match strip_prefix "true" s, strip_prefix "false" s,
        strip_prefix "null" s with
  | Some r, _, _ => Read (Bool true) r
  | None, Some r, _ => Read (Bool false) r
  | None, None, Some r => Read Null r
  | None, None, None =>
      match number_literal s with
      | Some (n, r) => Read (Number n) r
      | None => Malformed
      end
  end.

Fixpoint value (fuel : nat) (s : string) : Reading :=
  match fuel with
  | O => Exhausted
  | S fuel' =>
      match skip_ws s with
      | EmptyString => Malformed
      | String c rest as s0 =>
          if Nat.eqb (code c) 123 then
            match starts_with "}" (skip_ws rest) with
            | Some r => Read (Object []) r
            | None => members fuel' (skip_ws rest) []
            end
          else if Nat.eqb (code c) 91 then
            match starts_with "]" (skip_ws rest) with
            | Some r => Read (Array []) r
            | None => elements fuel' (skip_ws rest) []
            end
          else if Ascii.eqb c dquote then
            match string_body rest None with
            | Some (str, r) => Read (Str str) r
            | None => Malformed
            end
          else literal s0
      end
  end

with elements (fuel : nat) (s : string) (acc : list Value) : Reading :=
  match fuel with
  | O => Exhausted
  | S fuel' =>
      match value fuel' s with
      | Read v rest =>
          match starts_with "," (skip_ws rest),
                starts_with "]" (skip_ws rest) with
          | Some r, _ => elements fuel' r (v :: acc)
          | None, Some r => Read (Array (rev (v :: acc))) r
          | None, None => Malformed
          end
      | Malformed => Malformed
      | Exhausted => Exhausted
      end
  end

with members (fuel : nat) (s : string) (acc : list (string * Value))
  : Reading :=
  match fuel with
  | O => Exhausted
  | S fuel' =>
      match starts_with dquote (skip_ws s) with
      | None => Malformed
      | Some r0 =>
          match string_body r0 None with
          | None => Malformed
          | Some (key, r1) =>
              match starts_with ":" (skip_ws r1) with
              | None => Malformed
              | Some r2 =>
                  match value fuel' r2 with
                  | Read v r3 =>
                      match starts_with "," (skip_ws r3),
                            starts_with "}" (skip_ws r3) with
                      | Some r4, _ => members fuel' r4 (assign key v acc)
                      | None, Some r4 => Read (Object (assign key v acc)) r4
                      | None, None => Malformed
                      end
                  | Malformed => Malformed
                  | Exhausted => Exhausted
                  end
              end
          end
      end
  end.

(** The fuel that [parse] gives for a text. *)
Definition fuel_for (text : string) : nat := 2 * String.length text + 2.

(** [JSON.parse]: [None] stands for the SyntaxError.  A later duplicate of
    a key overwrites the earlier value. *)
Definition parse (text : string) : option Value :=
  match value (fuel_for text) text with
  | Read v rest =>
      match skip_ws rest with
      | EmptyString => Some v
      | String _ _ => None
      end
  | Malformed => None
  | Exhausted => None
  end.

(** ** JSON.stringify *)

Definition hex_digit (n : nat) : ascii :=
  ascii_of_nat (if Nat.ltb n 10 then 48 + n else 87 + n).

Definition quote_char (c : ascii) : string :=
  let n := code c in
  if Nat.eqb n 34 then String backslash (byte 34)
  else if Nat.eqb n 92 then String backslash (byte 92)
  else if Nat.eqb n 8 then String backslash "b"
  else if Nat.eqb n 12 then String backslash "f"
  else if Nat.eqb n 10 then String backslash "n"
  else if Nat.eqb n 13 then String backslash "r"
  else if Nat.eqb n 9 then String backslash "t"
  else if Nat.ltb n 32 then
    String backslash
      ("u00" ++ String (hex_digit (n / 16)) (String (hex_digit (n mod 16)) ""))
  else String c EmptyString.

Fixpoint quote_chars (s : string) : string :=
  match s with
  | String c rest => quote_char c ++ quote_chars rest
  | EmptyString => EmptyString
  end.

Definition quote (s : string) : string :=
  String dquote (quote_chars s ++ String dquote EmptyString).

(** [None] is the [undefined] that [JSON.stringify(undefined)] returns;
    an [undefined] property is left out, an [undefined] element is
    written [null]. *)
Fixpoint stringify (v : Value) : option string :=
  match v with
  | Undefined => None
  | Null => Some "null"
  | Bool true => Some "true"
  | Bool false => Some "false"
  | Number NaN => Some "null"
  | Number n => Some (number_to_string n)
  | Str s => Some (quote s)
  | Array l =>
      Some ("[" ++ String.concat ","
                     (List.map (fun x => match stringify x with
                                         | Some t => t
                                         | None => "null"
                                         end) l) ++ "]")
  | Object ps =>
      Some ("{" ++ String.concat ","
                     (List.flat_map
                        (fun kv => match stringify (snd kv) with
                                   | Some t => [quote (fst kv) ++ ":" ++ t]
                                   | None => []
                                   end) ps) ++ "}")
  end.

Definition newline : string := String (ascii_of_nat 10) EmptyString.

(** [JSON.stringify(v, null, gap)] for a gap that is not empty; [indent]
    is the indentation of the enclosing value. *)
Fixpoint stringify_gap (gap indent : string) (v : Value) : option string :=
  match v with
  | Undefined => None
  | Null => Some "null"
  | Bool true => Some "true"
  | Bool false => Some "false"
  | Number NaN => Some "null"
  | Number n => Some (number_to_string n)
  | Str s => Some (quote s)
  | Array l =>
      let stepback := indent in
      let indent := indent ++ gap in
      let partial :=
        List.map (fun x => match stringify_gap gap indent x with
                           | Some t => t
                           | None => "null"
                           end) l in
      match partial with
      | [] => Some "[]"
      | _ :: _ =>
          Some ("[" ++ newline ++ indent
                ++ String.concat ("," ++ newline ++ indent) partial
                ++ newline ++ stepback ++ "]")
      end
  | Object ps =>
      let stepback := indent in
      let indent := indent ++ gap in
      let partial :=
        List.flat_map
          (fun kv => match stringify_gap gap indent (snd kv) with
                     | Some t => [quote (fst kv) ++ ": " ++ t]
                     | None => []
                     end) ps in
      match partial with
      | [] => Some "{}"
      | _ :: _ =>
          Some ("{" ++ newline ++ indent
                ++ String.concat ("," ++ newline ++ indent) partial
                ++ newline ++ stepback ++ "}")
      end
  end.

(** Test fixtures write the double quote as an apostrophe. *)
Fixpoint wire (s : string) : string :=
  match s with
  | String c rest =>
      String (if Nat.eqb (code c) 39 then dquote else c) (wire rest)
  | EmptyString => EmptyString
  end.

End Json.

(* ===================================================================== *)
(** * The Web platform: Headers, URLSearchParams, fetch *)
(* ===================================================================== *)

Module Web.
Import JS.

(** A header list, in order; names compare without regard to ASCII case. *)
Definition Headers : Type := list (string * string).

Definition lower (c : ascii) : ascii :=
  let n := nat_of_ascii c in
  if (Nat.leb 65 n && Nat.leb n 90)%bool then ascii_of_nat (n + 32) else c.

Fixpoint lowercase (s : string) : string :=
  match s with
  | String c rest => String (lower c) (lowercase rest)
  | EmptyString => EmptyString
  end.

Definition same_name (a b : string) : bool :=
  String.eqb (lowercase a) (lowercase b).

(** [headers.get(name)]: [None] is [null]; the values of repeated headers
    are joined by a comma and a space. *)
Definition Headers_get (h : Headers) (name : string) : option string :=
  match List.filter (fun kv => same_name (fst kv) name) h with
  | [] => None
  | found => Some (String.concat ", " (List.map snd found))
  end.

(** ** URLSearchParams *)

Definition URLSearchParams : Type := list (string * string).

Fixpoint without (name : string) (q : URLSearchParams) : URLSearchParams :=
  match q with
  | [] => []
  | (k, v) :: rest =>
      if String.eqb k name then without name rest else (k, v) :: without name rest
  end.

(** [set]: the first pair of that name takes the value and the others are
    removed; a new name is appended. *)
Fixpoint URLSearchParams_set (name value : string) (q : URLSearchParams)
  : URLSearchParams :=
  match q with
  | [] => [(name, value)]
  | (k, v) :: rest =>
      if String.eqb k name then (name, value) :: without name rest
      else (k, v) :: URLSearchParams_set name value rest
  end.

Definition hex_upper (n : nat) : ascii :=
  ascii_of_nat (if Nat.ltb n 10 then 48 + n else 55 + n).

(** application/x-www-form-urlencoded byte serialisation. *)
Definition urlencode_byte (c : ascii) : string :=
  let n := nat_of_ascii c in
  if Nat.eqb n 32 then "+"
  else if (Nat.eqb n 42 || Nat.eqb n 45 || Nat.eqb n 46 || Nat.eqb n 95
           || (Nat.leb 48 n && Nat.leb n 57)
           || (Nat.leb 65 n && Nat.leb n 90)
           || (Nat.leb 97 n && Nat.leb n 122))%bool
  then String c EmptyString
  else String "%" (String (hex_upper (n / 16)) (String (hex_upper (n mod 16)) "")).

Fixpoint urlencode (s : string) : string :=
  match s with
  | String c rest => urlencode_byte c ++ urlencode rest
  | EmptyString => EmptyString
  end.

Definition URLSearchParams_toString (q : URLSearchParams) : string :=
  String.concat "&"
    (List.map (fun kv => urlencode (fst kv) ++ "=" ++ urlencode (snd kv)) q).

(** ** fetch *)

Record Response : Type := {
  status : Z;
  headers : Headers;
  body : string
}.

(** [response.ok] *)
Definition ok (r : Response) : bool :=
  ((200 <=? status r)%Z && (status r <=? 299)%Z)%bool.

(** The second argument of [request]; a field that is [None] is not set. *)
Record RequestInit : Type := {
  init_method : option string;
  init_headers : option (list (string * string));
  init_body : option string
}.

Definition no_options : RequestInit :=
  {| init_method := None; init_headers := None; init_body := None |}.

(** One call of [fetch(url, init)].  A method that is [None] is fetch's
    default, GET. *)
Record FetchCall : Type := {
  url : string;
  method : option string;
  request_headers : list (string * string);
  request_body : option string
}.

End Web.

(* ===================================================================== *)
(** * Errors (src/utils/errors.ts) *)
(* ===================================================================== *)

Module Errors.
Import JS.

(** Modelled from the spec: the error classes of src/utils/errors.ts are
    imported by client.ts but are not among the sources.  The taxonomy is
    Authentication, RateLimit (carrying the retry-after seconds), NotFound
    and generic API error (carrying the status code and a message); each
    constructor below holds the arguments that client.ts passes to [new].
    [Error], [TypeError] and [SyntaxError] are the built-in errors of the
    runtime, with the wording of V8. *)
Inductive Thrown : Type :=
| AuthenticationError (message : string)
| RateLimitError (message : string) (retryAfter : number)
| LoomApiError (message : Value) (statusCode : Z) (code : option string)
| Error (message : string)
| TypeError (message : string)
| SyntaxError (message : string).

(** Modelled from the spec: [error.message].  The classes extend [Error]
    and hand their first argument to it, which stores its [ToString]. *)
Definition message (e : Thrown) : string :=
  match e with
  | AuthenticationError m => m
  | RateLimitError m _ => m
  | LoomApiError m _ _ => ToString m
  | Error m => m
  | TypeError m => m
  | SyntaxError m => m
  end.

(** Modelled from the spec: [error instanceof Error]; every failure of the
    taxonomy, like every built-in error, is an [Error]. *)
Definition instanceof_Error (e : Thrown) : bool :=
  match e with
  | AuthenticationError _ | RateLimitError _ _ | LoomApiError _ _ _
  | Error _ | TypeError _ | SyntaxError _ => true
  end.

(** The completion of an evaluation: a value, or a thrown error. *)
Inductive Completion (A : Type) : Type :=
| Return (a : A)
| Throw (e : Thrown).
Arguments Return {A} a.
Arguments Throw {A} e.

Definition andThen {A B : Type} (c : Completion A) (k : A -> Completion B)
  : Completion B :=
  match c with
  | Return a => k a
  | Throw e => Throw e
  end.

Fixpoint mapC {A B : Type} (f : A -> Completion B) (l : list A)
  : Completion (list B) :=
  match l with
  | [] => Return []
  | x :: rest =>
      andThen (f x) (fun y =>
      andThen (mapC f rest) (fun ys => Return (y :: ys)))
  end.

End Errors.

(* ===================================================================== *)
(** * Tenant credentials (src/types/env.ts) *)
(* ===================================================================== *)

Module Env.
Import JS Web Errors.

Record TenantCredentials : Type := {
  accessToken : option string;
  baseUrl : option string
}.

(** [x || undefined] on the result of [headers.get]. *)
Definition or_undefined (x : option string) : option string :=
  if opt_string_truthy x then x else None.

(** The inbound request is read through its headers only. *)
Definition parseTenantCredentials (request : Headers) : TenantCredentials :=
  let headers := request in
  {| accessToken := or_undefined (Headers_get headers "X-Loom-Access-Token");
     baseUrl := or_undefined (Headers_get headers "X-Loom-Base-URL") |}.

Definition validateCredentials (credentials : TenantCredentials)
  : Completion unit :=
  if negb (opt_string_truthy (accessToken credentials)) then
    Throw (Error "Missing credentials. Provide X-Loom-Access-Token header.")
  else Return tt.

(** The keys of the [Env] interface: three variables, then three
    bindings. *)
Inductive EnvKey : Type :=
| CHARACTER_LIMIT
| DEFAULT_PAGE_SIZE
| MAX_PAGE_SIZE
| OAUTH_KV
| MCP_SESSIONS
| AI.

(** The environment of the worker, read by key.  A variable that is set
    holds a string, a binding holds an object, and what is not configured
    is [undefined]. *)
Definition Env : Type := EnvKey -> Value.

Definition getEnvNumber (env : Env) (key : EnvKey) (defaultValue : number)
  : number :=
  let value := env key in
  match value with
  | Str text =>
      let parsed := parseInt text in
      if Number_isNaN parsed then defaultValue else parsed
  | _ => defaultValue
  end.

Definition getCharacterLimit (env : Env) : number :=
  getEnvNumber env CHARACTER_LIMIT (Int 50000).

Definition getDefaultPageSize (env : Env) : number :=
  getEnvNumber env DEFAULT_PAGE_SIZE (Int 20).

Definition getMaxPageSize (env : Env) : number :=
  getEnvNumber env MAX_PAGE_SIZE (Int 100).

End Env.

(* ===================================================================== *)
(** * The API client (src/client.ts) *)
(* ===================================================================== *)

Module Client.
Import JS Web Errors.

Definition API_BASE_URL : string := "https://api.loom.com/v1".

(** ** Effects *)

(** The promise that [fetch] returns either fulfils with a response or
    rejects with an error. *)
Inductive Settled : Type :=
| Fulfilled (response : Response)
| Rejected (reason : Thrown).

Definition Network : Type := FetchCall -> Settled.

(** An asynchronous computation: it reads the network, extends the log of
    the calls of [fetch] made so far, and completes. *)
Definition M (A : Type) : Type :=
  Network -> list FetchCall -> Completion A * list FetchCall.

Definition ret {A : Type} (a : A) : M A :=
  fun _ log => (Return a, log).

Definition throw {A : Type} (e : Thrown) : M A :=
  fun _ log => (Throw e, log).

Definition bind {A B : Type} (m : M A) (k : A -> M B) : M B :=
  fun net log =>
    match m net log with
    | (Return a, log') => k a net log'
    | (Throw e, log') => (Throw e, log')
    end.

Definition lift {A : Type} (c : Completion A) : M A :=
  fun _ log => (c, log).

Definition try_catch {A : Type} (m : M A) (handler : Thrown -> M A) : M A :=
  fun net log =>
    match m net log with
    | (Return a, log') => (Return a, log')
    | (Throw e, log') => handler e net log'
    end.

Definition fetch (call : FetchCall) : M Response :=
  fun net log =>
    match net call with
    | Fulfilled response => (Return response, (log ++ [call])%list)
    | Rejected reason => (Throw reason, (log ++ [call])%list)
    end.

Notation "x <- m ;; k" := (bind m (fun x => k))
  (at level 61, m at next level, right associativity).
Notation "x <~ c ;; k" := (andThen c (fun x => k))
  (at level 61, c at next level, right associativity).

(** ** Reading wire data *)

(** [v.k] for the property names that the client reads; none of them is
    defined on the prototypes of strings, numbers, booleans or arrays. *)
Definition get (v : Value) (k : string) : Completion Value :=
  match v with
  | Undefined =>
      Throw (TypeError
               ("Cannot read properties of undefined (reading '" ++ k ++ "')"))
  | Null =>
      Throw (TypeError
               ("Cannot read properties of null (reading '" ++ k ++ "')"))
  | Object ps =>
      Return (match lookup k ps with Some x => x | None => Undefined end)
  | _ => Return Undefined
  end.

(** [receiver.map(f)], where [expr] is the source text of the receiver;
    the result is the list of the elements of the new array. *)
Definition Array_map (receiver : Value) (expr : string)
           (f : Value -> Completion Value) : Completion (list Value) :=
  match receiver with
  | Array l => mapC f l
  | Undefined =>
      Throw (TypeError "Cannot read properties of undefined (reading 'map')")
  | Null => Throw (TypeError "Cannot read properties of null (reading 'map')")
  | _ => Throw (TypeError (expr ++ ".map is not a function"))
  end.

(** The conversion to a string that a template literal and [String(v)]
    perform: it throws for a value that cannot be converted. *)
Definition interpolate (v : Value) : Completion string :=
  if converts v then Return (ToString v)
  else Throw (TypeError "Cannot convert object to primitive value").

(** [elements.join(sep)]: it throws when an element cannot be converted. *)
Definition join (elements : list Value) (sep : string)
  : Completion string :=
  if converts (Array elements) then Return (Array_join elements sep)
  else Throw (TypeError "Cannot convert object to primitive value").

(** The object literal [{ name1: src.key1, name2: src.key2, ... }], given
    as the list of its [(name, key)] pairs. *)
Definition pick (fields : list (string * string)) (src : Value)
  : Completion Value :=
  props <~ mapC (fun f => v <~ get src (snd f) ;; Return (fst f, v)) fields ;;
  Return (Object props).

(** ** LoomClientImpl *)

Record LoomClientImpl : Type := {
  credentials : Env.TenantCredentials;
  baseUrl : string
}.

Definition constructor (credentials : Env.TenantCredentials) : LoomClientImpl :=
  {| credentials := credentials;
     baseUrl := match Env.baseUrl credentials with
                | Some u => if string_truthy u then u else API_BASE_URL
                | None => API_BASE_URL
                end |}.

Definition getAuthHeaders (this : LoomClientImpl)
  : Completion (list (string * string)) :=
  match Env.accessToken (credentials this) with
  | Some token =>
      if negb (string_truthy token) then
        Throw (AuthenticationError
                 "No credentials provided. Include X-Loom-Access-Token header.")
      else
        Return [("Authorization", "Bearer " ++ token);
                ("Content-Type", "application/json")]
  | None =>
      Throw (AuthenticationError
               "No credentials provided. Include X-Loom-Access-Token header.")
  end.

(** The part of [request] that computes the failure text of a response that
    is not ok: the body's [message], else its [error], else the default;
    the [try] block covers the parse and the property reads. *)
Definition error_message (response : Response) : Value :=
  let errorBody := body response in
  let message := Str ("API error: " ++ number_to_string (Int (status response))) in
  let attempt :=
    errorJson <~ match Json.parse errorBody with
                 | Some v => Return v
                 | None => Throw (SyntaxError "Unexpected token in JSON")
                 end ;;
    m <~ get errorJson "message" ;;
    if ToBoolean m then Return m
    else e <~ get errorJson "error" ;; Return (or_else e message) in
  match attempt with
  | Return v => v
  | Throw _ => message
  end.

Definition request (this : LoomClientImpl) (endpoint : string)
           (options : RequestInit) : M Value :=
  let url := baseUrl this ++ endpoint in
  auth <- lift (getAuthHeaders this) ;;
  response <- fetch {| url := url;
                       method := init_method options;
                       request_headers :=
                         spread auth (match init_headers options with
                                      | Some h => h
                                      | None => []
                                      end);
                       request_body := init_body options |} ;;
  if (status response =? 429)%Z then
    let retryAfter := Headers_get (headers response) "Retry-After" in
    throw (RateLimitError "Rate limit exceeded"
             (match retryAfter with
              | Some v => if string_truthy v then parseInt v else Int 60
              | None => Int 60
              end))
  else if ((status response =? 401)%Z || (status response =? 403)%Z)%bool then
    throw (AuthenticationError
             "Authentication failed. Check your Loom access token.")
  else if (status response =? 404)%Z then
    throw (LoomApiError (Str "Resource not found") 404 (Some "NOT_FOUND"))
  else if negb (ok response) then
    throw (LoomApiError (error_message response) (status response) None)
  else if (status response =? 204)%Z then ret Undefined
  else
    match Json.parse (body response) with
    | Some data => ret data
    | None => throw (SyntaxError "Unexpected token in JSON")
    end.

(** ** Parameters of the operations *)

(** [{ perPage?: number; nextCursor?: string }] *)
Record ListParams : Type := {
  perPage : option number;
  nextCursor : option string
}.

(** [{ maxWidth?: number; maxHeight?: number }] *)
Record OEmbedParams : Type := {
  maxWidth : option number;
  maxHeight : option number
}.

(** [{ title?: string; folderId?: string; expiresInMinutes?: number }] *)
Record RecordLinkParams : Type := {
  title : option string;
  folderId : option string;
  expiresInMinutes : option number
}.

(** [{ width?: number; height?: number; autoplay?: boolean }] *)
Record EmbedParams : Type := {
  width : option number;
  height : option number;
  autoplay : option bool
}.

(** [params?.field] *)
Definition opt {P A : Type} (field : P -> option A) (params : option P)
  : option A :=
  match params with
  | Some p => field p
  | None => None
  end.

(** [if (n) queryParams.set(name, String(n))] *)
Definition set_number (name : string) (n : option number)
           (q : URLSearchParams) : URLSearchParams :=
  match n with
  | Some x =>
      if number_truthy x then URLSearchParams_set name (number_to_string x) q
      else q
  | None => q
  end.

(** [if (s) queryParams.set(name, s)] *)
Definition set_string (name : string) (s : option string)
           (q : URLSearchParams) : URLSearchParams :=
  match s with
  | Some x => if string_truthy x then URLSearchParams_set name x q else q
  | None => q
  end.

Definition pagination (params : option ListParams) (q : URLSearchParams)
  : URLSearchParams :=
  set_string "next_cursor" (opt nextCursor params)
    (set_number "per_page" (opt perPage params) q).

(** [queryString ? `${path}?${queryString}` : path] *)
Definition with_query (path : string) (q : URLSearchParams) : string :=
  let queryString := URLSearchParams_toString q in
  if string_truthy queryString then path ++ "?" ++ queryString else path.

Definition with_method (m : string) : RequestInit :=
  {| init_method := Some m; init_headers := None; init_body := None |}.

Definition with_body (m : string) (payload : Value) : RequestInit :=
  {| init_method := Some m; init_headers := None;
     init_body := Json.stringify payload |}.

(** ** Field tables: internal name, wire name *)

Definition user_fields : list (string * string) :=
  [("id", "id"); ("email", "email"); ("name", "name");
   ("avatarUrl", "avatar_url")].

Definition video_fields : list (string * string) :=
  [("id", "id"); ("title", "title"); ("description", "description");
   ("status", "status"); ("duration", "duration");
   ("thumbnailUrl", "thumbnail_url"); ("embedUrl", "embed_url");
   ("shareUrl", "share_url"); ("downloadUrl", "download_url");
   ("viewCount", "view_count"); ("privacy", "privacy");
   ("createdAt", "created_at"); ("updatedAt", "updated_at");
   ("owner", "owner"); ("workspace", "workspace");
   ("folderId", "folder_id")].

Definition space_video_fields : list (string * string) :=
  [("id", "id"); ("title", "title"); ("description", "description");
   ("status", "status"); ("duration", "duration");
   ("thumbnailUrl", "thumbnail_url"); ("shareUrl", "share_url");
   ("viewCount", "view_count"); ("privacy", "privacy");
   ("createdAt", "created_at")].

Definition search_video_fields : list (string * string) :=
  [("id", "id"); ("title", "title"); ("description", "description");
   ("status", "status"); ("duration", "duration");
   ("thumbnailUrl", "thumbnail_url"); ("shareUrl", "share_url");
   ("viewCount", "view_count"); ("createdAt", "created_at")].

Definition duplicate_fields : list (string * string) :=
  [("id", "id"); ("title", "title"); ("description", "description");
   ("status", "status"); ("createdAt", "created_at")].

Definition segment_fields : list (string * string) :=
  [("startTime", "start_time"); ("endTime", "end_time"); ("text", "text")].

Definition analytics_fields : list (string * string) :=
  [("totalViews", "total_views"); ("uniqueViewers", "unique_viewers");
   ("averagePercentWatched", "average_percent_watched");
   ("totalWatchTime", "total_watch_time")].

Definition comment_fields : list (string * string) :=
  [("id", "id"); ("text", "text"); ("timestamp", "timestamp");
   ("author", "author"); ("createdAt", "created_at")].

Definition folder_fields : list (string * string) :=
  [("id", "id"); ("name", "name"); ("videoCount", "video_count");
   ("createdAt", "created_at"); ("updatedAt", "updated_at");
   ("parentId", "parent_id")].

Definition workspace_fields : list (string * string) :=
  [("id", "id"); ("name", "name"); ("memberCount", "member_count");
   ("createdAt", "created_at")].

Definition space_fields : list (string * string) :=
  [("id", "id"); ("name", "name"); ("description", "description");
   ("memberCount", "member_count"); ("videoCount", "video_count");
   ("createdAt", "created_at")].

Definition oembed_fields : list (string * string) :=
  [("version", "version"); ("type", "type"); ("html", "html");
   ("width", "width"); ("height", "height"); ("title", "title");
   ("thumbnailUrl", "thumbnail_url"); ("thumbnailWidth", "thumbnail_width");
   ("thumbnailHeight", "thumbnail_height");
   ("providerName", "provider_name"); ("providerUrl", "provider_url");
   ("duration", "duration")].

Definition record_link_fields : list (string * string) :=
  [("id", "id"); ("url", "url"); ("title", "title");
   ("expiresAt", "expires_at")].

(** [{ items: data[key].map(...), nextCursor: data.next_cursor,
       hasMore: !!data.next_cursor }] *)
Definition paginated (key : string) (fields : list (string * string))
           (data : Value) : Completion Value :=
  list <~ get data key ;;
  items <~ Array_map list ("data." ++ key) (pick fields) ;;
  cursor <~ get data "next_cursor" ;;
  again <~ get data "next_cursor" ;;
  Return (Object [("items", Array items); ("nextCursor", cursor);
                  ("hasMore", Bool (ToBoolean again))]).

(** ** The operations *)

Section Operations.

Variable this : LoomClientImpl.

Definition getCurrentUser : M Value :=
  data <- request this "/me" no_options ;;
  lift (pick user_fields data).

Definition testConnection : M Value :=
  try_catch
    (user <- getCurrentUser ;;
     name <- lift (get user "name") ;;
     text <- lift (interpolate name) ;;
     ret (Object [("connected", Bool true);
                  ("message", Str ("Connected as " ++ text))]))
    (fun error =>
       ret (Object [("connected", Bool false);
                    ("message",
                      Str (if instanceof_Error error then message error
                           else "Connection failed"))])).

Definition listVideos (params : option ListParams) : M Value :=
  let queryParams := pagination params [] in
  let endpoint := with_query "/videos" queryParams in
  data <- request this endpoint no_options ;;
  lift (paginated "videos" video_fields data).

Definition getVideo (videoId : string) : M Value :=
  data <- request this ("/videos/" ++ videoId) no_options ;;
  lift (pick video_fields data).

Definition updateVideo (videoId : string) (params : Value) : M Value :=
  request this ("/videos/" ++ videoId) (with_body "PATCH" params).

Definition deleteVideo (videoId : string) : M Value :=
  _ <- request this ("/videos/" ++ videoId) (with_method "DELETE") ;;
  ret Undefined.

Definition getTranscript (videoId : string) : M Value :=
  data <- request this ("/videos/" ++ videoId ++ "/transcript") no_options ;;
  lift (segments <~ get data "transcript" ;;
        transcript <~ Array_map segments "data.transcript"
                        (pick segment_fields) ;;
        texts <~ mapC (fun t => get t "text") transcript ;;
        fullText <~ join texts " " ;;
        Return (Object [("transcript", Array transcript);
                        ("fullText", Str fullText)])).

Definition getVideoAnalytics (videoId : string) : M Value :=
  data <- request this ("/videos/" ++ videoId ++ "/analytics") no_options ;;
  lift (pick analytics_fields data).

Definition listComments (videoId : string) : M Value :=
  data <- request this ("/videos/" ++ videoId ++ "/comments") no_options ;;
  lift (comments <~ get data "comments" ;;
        items <~ Array_map comments "data.comments" (pick comment_fields) ;;
        Return (Array items)).

Definition createComment (videoId : string) (params : Value) : M Value :=
  data <- request this ("/videos/" ++ videoId ++ "/comments")
            (with_body "POST" params) ;;
  lift (pick comment_fields data).

Definition listFolders (params : option ListParams) : M Value :=
  let queryParams := pagination params [] in
  let endpoint := with_query "/folders" queryParams in
  data <- request this endpoint no_options ;;
  lift (paginated "folders" folder_fields data).

Definition createFolder (name : string) (parentId : option string)
  : M Value :=
  let body :=
    ([("name", Str name)]
       ++ match parentId with
          | Some p => if string_truthy p then [("parent_id", Str p)] else []
          | None => []
          end)%list in
  data <- request this "/folders" (with_body "POST" (Object body)) ;;
  lift (pick folder_fields data).

Definition getFolder (folderId : string) : M Value :=
  data <- request this ("/folders/" ++ folderId) no_options ;;
  lift (pick folder_fields data).

Definition updateFolder (folderId : string) (params : Value) : M Value :=
  data <- request this ("/folders/" ++ folderId) (with_body "PATCH" params) ;;
  lift (pick folder_fields data).

Definition deleteFolder (folderId : string) : M Value :=
  _ <- request this ("/folders/" ++ folderId) (with_method "DELETE") ;;
  ret Undefined.

Definition listWorkspaces : M Value :=
  data <- request this "/workspaces" no_options ;;
  lift (workspaces <~ get data "workspaces" ;;
        items <~ Array_map workspaces "data.workspaces"
                   (pick workspace_fields) ;;
        Return (Array items)).

Definition getWorkspace (workspaceId : string) : M Value :=
  data <- request this ("/workspaces/" ++ workspaceId) no_options ;;
  lift (pick workspace_fields data).

Definition listSpaces (params : option ListParams) : M Value :=
  let queryParams := pagination params [] in
  let endpoint := with_query "/spaces" queryParams in
  data <- request this endpoint no_options ;;
  lift (paginated "spaces" space_fields data).

Definition getSpace (spaceId : string) : M Value :=
  data <- request this ("/spaces/" ++ spaceId) no_options ;;
  lift (pick space_fields data).

Definition listSpaceVideos (spaceId : string) (params : option ListParams)
  : M Value :=
  let queryParams := pagination params [] in
  let endpoint := with_query ("/spaces/" ++ spaceId ++ "/videos") queryParams in
  data <- request this endpoint no_options ;;
  lift (paginated "videos" space_video_fields data).

Definition addVideoToSpace (spaceId videoId : string) : M Value :=
  _ <- request this ("/spaces/" ++ spaceId ++ "/videos")
         (with_body "POST" (Object [("video_id", Str videoId)])) ;;
  ret Undefined.

Definition removeVideoFromSpace (spaceId videoId : string) : M Value :=
  _ <- request this ("/spaces/" ++ spaceId ++ "/videos/" ++ videoId)
         (with_method "DELETE") ;;
  ret Undefined.

Definition getOEmbed (url : string) (params : option OEmbedParams)
  : M Value :=
  let queryParams :=
    set_number "maxheight" (opt maxHeight params)
      (set_number "maxwidth" (opt maxWidth params)
         (URLSearchParams_set "url" url [])) in
  data <- request this ("/oembed?" ++ URLSearchParams_toString queryParams)
            no_options ;;
  lift (pick oembed_fields data).

Definition createRecordLink (params : option RecordLinkParams) : M Value :=
  let body :=
    (match opt title params with
     | Some t => if string_truthy t then [("title", Str t)] else []
     | None => []
     end
     ++ match opt folderId params with
        | Some f => if string_truthy f then [("folder_id", Str f)] else []
        | None => []
        end
     ++ match opt expiresInMinutes params with
        | Some n =>
            if number_truthy n then [("expires_in_minutes", Number n)] else []
        | None => []
        end)%list in
  data <- request this "/record-links" (with_body "POST" (Object body)) ;;
  lift (pick record_link_fields data).

Definition getEmbedHtml (videoId : string) (params : option EmbedParams)
  : M Value :=
  video <- getVideo videoId ;;
  let width :=
    match opt width params with
    | Some w => if number_truthy w then w else Int 640
    | None => Int 640
    end in
  let height :=
    match opt height params with
    | Some h => if number_truthy h then h else Int 360
    | None => Int 360
    end in
  let autoplay :=
    match opt autoplay params with
    | Some true => "?autoplay=1"
    | _ => ""
    end in
  known <- lift (get video "embedUrl") ;;
  let embedUrl := or_else known (Str ("https://www.loom.com/embed/" ++ videoId)) in
  let q := String Json.dquote "" in
  src <- lift (interpolate embedUrl) ;;
  ret (Object
         [("html",
            Str ("<iframe src=" ++ q ++ src ++ autoplay ++ q
                 ++ " width=" ++ q ++ number_to_string width ++ q
                 ++ " height=" ++ q ++ number_to_string height ++ q
                 ++ " frameborder=" ++ q ++ "0" ++ q
                 ++ " webkitallowfullscreen mozallowfullscreen allowfullscreen></iframe>"))]).

Definition moveVideoToFolder (videoId folderId : string) : M Value :=
  _ <- request this ("/videos/" ++ videoId)
         (with_body "PATCH" (Object [("folder_id", Str folderId)])) ;;
  ret Undefined.

Definition duplicateVideo (videoId : string) : M Value :=
  data <- request this ("/videos/" ++ videoId ++ "/duplicate")
            (with_method "POST") ;;
  lift (pick duplicate_fields data).

Definition searchVideos (query : string) (params : option ListParams)
  : M Value :=
  let queryParams := pagination params (URLSearchParams_set "q" query []) in
  data <- request this
            ("/videos/search?" ++ URLSearchParams_toString queryParams)
            no_options ;;
  lift (paginated "videos" search_video_fields data).

End Operations.

(** ** The LoomClient interface *)

Inductive Call : Type :=
| TestConnection
| GetCurrentUser
| ListVideos (params : option ListParams)
| GetVideo (videoId : string)
| UpdateVideo (videoId : string) (params : Value)
| DeleteVideo (videoId : string)
| GetTranscript (videoId : string)
| GetVideoAnalytics (videoId : string)
| ListComments (videoId : string)
| CreateComment (videoId : string) (params : Value)
| ListFolders (params : option ListParams)
| CreateFolder (name : string) (parentId : option string)
| GetFolder (folderId : string)
| UpdateFolder (folderId : string) (params : Value)
| DeleteFolder (folderId : string)
| ListWorkspaces
| GetWorkspace (workspaceId : string)
| ListSpaces (params : option ListParams)
| GetSpace (spaceId : string)
| ListSpaceVideos (spaceId : string) (params : option ListParams)
| AddVideoToSpace (spaceId videoId : string)
| RemoveVideoFromSpace (spaceId videoId : string)
| GetOEmbed (url : string) (params : option OEmbedParams)
| CreateRecordLink (params : option RecordLinkParams)
| GetEmbedHtml (videoId : string) (params : option EmbedParams)
| MoveVideoToFolder (videoId folderId : string)
| DuplicateVideo (videoId : string)
| SearchVideos (query : string) (params : option ListParams).

Definition invoke (this : LoomClientImpl) (call : Call) : M Value :=
  match call with
  | TestConnection => testConnection this
  | GetCurrentUser => getCurrentUser this
  | ListVideos params => listVideos this params
  | GetVideo videoId => getVideo this videoId
  | UpdateVideo videoId params => updateVideo this videoId params
  | DeleteVideo videoId => deleteVideo this videoId
  | GetTranscript videoId => getTranscript this videoId
  | GetVideoAnalytics videoId => getVideoAnalytics this videoId
  | ListComments videoId => listComments this videoId
  | CreateComment videoId params => createComment this videoId params
  | ListFolders params => listFolders this params
  | CreateFolder name parentId => createFolder this name parentId
  | GetFolder folderId => getFolder this folderId
  | UpdateFolder folderId params => updateFolder this folderId params
  | DeleteFolder folderId => deleteFolder this folderId
  | ListWorkspaces => listWorkspaces this
  | GetWorkspace workspaceId => getWorkspace this workspaceId
  | ListSpaces params => listSpaces this params
  | GetSpace spaceId => getSpace this spaceId
  | ListSpaceVideos spaceId params => listSpaceVideos this spaceId params
  | AddVideoToSpace spaceId videoId => addVideoToSpace this spaceId videoId
  | RemoveVideoFromSpace spaceId videoId =>
      removeVideoFromSpace this spaceId videoId
  | GetOEmbed url params => getOEmbed this url params
  | CreateRecordLink params => createRecordLink this params
  | GetEmbedHtml videoId params => getEmbedHtml this videoId params
  | MoveVideoToFolder videoId folderId => moveVideoToFolder this videoId folderId
  | DuplicateVideo videoId => duplicateVideo this videoId
  | SearchVideos query params => searchVideos this query params
  end.

(** [createLoomClient(credentials)] followed by one call, on a fresh log. *)
Definition createLoomClient (credentials : Env.TenantCredentials)
  : LoomClientImpl :=
  constructor credentials.

Definition is_listing (call : Call) : bool :=
  match call with
  | ListVideos _ | ListFolders _ | ListSpaces _ | ListSpaceVideos _ _
  | SearchVideos _ _ => true
  | _ => false
  end.

End Client.

(* ===================================================================== *)
(** * The tools (second part of src/client.ts) *)
(* ===================================================================== *)

Module Tools.
Import JS Web Errors Client.

(** [x] in an object literal, for an optional argument. *)
Definition optional_string (x : option string) : Value :=
  match x with
  | Some s => Str s
  | None => Undefined
  end.

Definition optional_number (x : option number) : Value :=
  match x with
  | Some n => Number n
  | None => Undefined
  end.

(** [JSON.stringify(value, null, 2)] *)
Definition pretty (value : Value) : Value :=
  match Json.stringify_gap "  " "" value with
  | Some text => Str text
  | None => Undefined
  end.

(** [{ content: [{ type: 'text', text }] }] *)
Definition text_result (text : Value) : Value :=
  Object [("content", Array [Object [("type", Str "text"); ("text", text)]])].

Section Handlers.

(** Modelled from the spec: [formatError] of src/utils/errors.ts is imported
    by the tools but is not among the sources; it gives the text of a
    failure, and is a parameter of what follows. *)
Variable formatError : Thrown -> string.

Variable client : LoomClientImpl.

(** The [catch] clause, which every handler has. *)
Definition caught (error : Thrown) : M Value :=
  ret (Object [("content",
                 Array [Object [("type", Str "text");
                                ("text", Str ("Error: " ++ formatError error))]]);
               ("isError", Bool true)]).

Definition loom_get_current_user : M Value :=
  try_catch
    (user <- getCurrentUser client ;;
     ret (text_result (pretty user)))
    caught.

Definition loom_list_videos (perPage : option number)
           (nextCursor : option string) : M Value :=
  try_catch
    (result <- listVideos client
                 (Some {| perPage := perPage; nextCursor := nextCursor |}) ;;
     ret (text_result (pretty result)))
    caught.

Definition loom_get_video (videoId : string) : M Value :=
  try_catch
    (video <- getVideo client videoId ;;
     ret (text_result (pretty video)))
    caught.

Definition loom_delete_video (videoId : string) : M Value :=
  try_catch
    (_ <- deleteVideo client videoId ;;
     ret (text_result
            (pretty (Object [("success", Bool true);
                             ("message",
                               Str ("Video " ++ videoId ++ " deleted"))]))))
    caught.

Definition loom_search_videos (query : string) (perPage : option number)
           (nextCursor : option string) : M Value :=
  try_catch
    (result <- searchVideos client query
                 (Some {| perPage := perPage; nextCursor := nextCursor |}) ;;
     ret (text_result (pretty result)))
    caught.

Definition loom_move_video_to_folder (videoId folderId : string) : M Value :=
  try_catch
    (_ <- moveVideoToFolder client videoId folderId ;;
     ret (text_result
            (pretty (Object [("success", Bool true);
                             ("message",
                               Str ("Video moved to folder " ++ folderId))]))))
    caught.

Definition loom_duplicate_video (videoId : string) : M Value :=
  try_catch
    (video <- duplicateVideo client videoId ;;
     ret (text_result
            (pretty (Object [("success", Bool true);
                             ("message", Str "Video duplicated");
                             ("video", video)]))))
    caught.

Definition loom_get_transcript (videoId : string) : M Value :=
  try_catch
    (transcript <- getTranscript client videoId ;;
     ret (text_result (pretty transcript)))
    caught.

Definition loom_get_video_analytics (videoId : string) : M Value :=
  try_catch
    (analytics <- getVideoAnalytics client videoId ;;
     ret (text_result (pretty analytics)))
    caught.

Definition loom_list_comments (videoId : string) : M Value :=
  try_catch
    (comments <- listComments client videoId ;;
     ret (text_result (pretty comments)))
    caught.

Definition loom_create_comment (videoId text : string)
           (timestamp : option number) : M Value :=
  try_catch
    (comment <- createComment client videoId
                  (Object [("text", Str text);
                           ("timestamp", optional_number timestamp)]) ;;
     ret (text_result
            (pretty (Object [("success", Bool true);
                             ("message", Str "Comment created");
                             ("comment", comment)]))))
    caught.

Definition loom_list_folders (perPage : option number)
           (nextCursor : option string) : M Value :=
  try_catch
    (result <- listFolders client
                 (Some {| perPage := perPage; nextCursor := nextCursor |}) ;;
     ret (text_result (pretty result)))
    caught.

Definition loom_create_folder (name : string) (parentId : option string)
  : M Value :=
  try_catch
    (folder <- createFolder client name parentId ;;
     ret (text_result
            (pretty (Object [("success", Bool true);
                             ("message", Str "Folder created");
                             ("folder", folder)]))))
    caught.

Definition loom_get_folder (folderId : string) : M Value :=
  try_catch
    (folder <- getFolder client folderId ;;
     ret (text_result (pretty folder)))
    caught.

Definition loom_update_folder (folderId name : string) : M Value :=
  try_catch
    (folder <- updateFolder client folderId (Object [("name", Str name)]) ;;
     ret (text_result
            (pretty (Object [("success", Bool true);
                             ("message", Str "Folder updated");
                             ("folder", folder)]))))
    caught.

Definition loom_delete_folder (folderId : string) : M Value :=
  try_catch
    (_ <- deleteFolder client folderId ;;
     ret (text_result
            (pretty (Object [("success", Bool true);
                             ("message",
                               Str ("Folder " ++ folderId ++ " deleted"))]))))
    caught.

Definition loom_list_workspaces : M Value :=
  try_catch
    (workspaces <- listWorkspaces client ;;
     ret (text_result (pretty workspaces)))
    caught.

Definition loom_get_workspace (workspaceId : string) : M Value :=
  try_catch
    (workspace <- getWorkspace client workspaceId ;;
     ret (text_result (pretty workspace)))
    caught.

Definition loom_list_spaces (perPage : option number)
           (nextCursor : option string) : M Value :=
  try_catch
    (result <- listSpaces client
                 (Some {| perPage := perPage; nextCursor := nextCursor |}) ;;
     ret (text_result (pretty result)))
    caught.

Definition loom_get_space (spaceId : string) : M Value :=
  try_catch
    (space <- getSpace client spaceId ;;
     ret (text_result (pretty space)))
    caught.

Definition loom_list_space_videos (spaceId : string)
           (perPage : option number) (nextCursor : option string) : M Value :=
  try_catch
    (result <- listSpaceVideos client spaceId
                 (Some {| perPage := perPage; nextCursor := nextCursor |}) ;;
     ret (text_result (pretty result)))
    caught.

Definition loom_add_video_to_space (spaceId videoId : string) : M Value :=
  try_catch
    (_ <- addVideoToSpace client spaceId videoId ;;
     ret (text_result
            (pretty (Object [("success", Bool true);
                             ("message",
                               Str ("Video " ++ videoId ++ " added to space "
                                    ++ spaceId))]))))
    caught.

Definition loom_remove_video_from_space (spaceId videoId : string)
  : M Value :=
  try_catch
    (_ <- removeVideoFromSpace client spaceId videoId ;;
     ret (text_result
            (pretty (Object [("success", Bool true);
                             ("message",
                               Str ("Video " ++ videoId
                                    ++ " removed from space " ++ spaceId))]))))
    caught.

Definition loom_get_oembed (url : string) (maxWidth maxHeight : option number)
  : M Value :=
  try_catch
    (oembed <- getOEmbed client url
                 (Some {| maxWidth := maxWidth; maxHeight := maxHeight |}) ;;
     ret (text_result (pretty oembed)))
    caught.

Definition loom_get_embed_html (videoId : string)
           (width height : option number) (autoplay : option bool)
  : M Value :=
  try_catch
    (result <- getEmbedHtml client videoId
                 (Some {| width := width; height := height;
                          autoplay := autoplay |}) ;;
     ret (text_result (pretty result)))
    caught.

Definition loom_create_record_link (title folderId : option string)
           (expiresInMinutes : option number) : M Value :=
  try_catch
    (link <- createRecordLink client
               (Some {| title := title; folderId := folderId;
                        expiresInMinutes := expiresInMinutes |}) ;;
     ret (text_result
            (pretty (Object [("success", Bool true);
                             ("message", Str "Record link created");
                             ("link", link)]))))
    caught.

End Handlers.

(** A call of a registered tool: its name and the arguments that passed
    its schema.  loom_update_video is left out: its handler spreads the
    parsed response, whatever it is, into its result, and what that gives
    for a response that is not a plain record rests on the property order
    and the code units of the runtime. *)
Inductive ToolCall : Type :=
| Loom_get_current_user
| Loom_list_videos (perPage : option number) (nextCursor : option string)
| Loom_get_video (videoId : string)
| Loom_delete_video (videoId : string)
| Loom_search_videos (query : string) (perPage : option number)
    (nextCursor : option string)
| Loom_move_video_to_folder (videoId folderId : string)
| Loom_duplicate_video (videoId : string)
| Loom_get_transcript (videoId : string)
| Loom_get_video_analytics (videoId : string)
| Loom_list_comments (videoId : string)
| Loom_create_comment (videoId text : string) (timestamp : option number)
| Loom_list_folders (perPage : option number) (nextCursor : option string)
| Loom_create_folder (name : string) (parentId : option string)
| Loom_get_folder (folderId : string)
| Loom_update_folder (folderId name : string)
| Loom_delete_folder (folderId : string)
| Loom_list_workspaces
| Loom_get_workspace (workspaceId : string)
| Loom_list_spaces (perPage : option number) (nextCursor : option string)
| Loom_get_space (spaceId : string)
| Loom_list_space_videos (spaceId : string) (perPage : option number)
    (nextCursor : option string)
| Loom_add_video_to_space (spaceId videoId : string)
| Loom_remove_video_from_space (spaceId videoId : string)
| Loom_get_oembed (url : string) (maxWidth maxHeight : option number)
| Loom_get_embed_html (videoId : string) (width height : option number)
    (autoplay : option bool)
| Loom_create_record_link (title folderId : option string)
    (expiresInMinutes : option number).

(** [registerLoomTools(server, client)]: the handler that the server runs
    for a call. *)
Definition registerLoomTools (formatError : Thrown -> string)
           (client : LoomClientImpl) (call : ToolCall) : M Value :=
  match call with
  | Loom_get_current_user => loom_get_current_user formatError client
  | Loom_list_videos perPage nextCursor =>
      loom_list_videos formatError client perPage nextCursor
  | Loom_get_video videoId => loom_get_video formatError client videoId
  | Loom_delete_video videoId => loom_delete_video formatError client videoId
  | Loom_search_videos query perPage nextCursor =>
      loom_search_videos formatError client query perPage nextCursor
  | Loom_move_video_to_folder videoId folderId =>
      loom_move_video_to_folder formatError client videoId folderId
  | Loom_duplicate_video videoId =>
      loom_duplicate_video formatError client videoId
  | Loom_get_transcript videoId =>
      loom_get_transcript formatError client videoId
  | Loom_get_video_analytics videoId =>
      loom_get_video_analytics formatError client videoId
  | Loom_list_comments videoId => loom_list_comments formatError client videoId
  | Loom_create_comment videoId text timestamp =>
      loom_create_comment formatError client videoId text timestamp
  | Loom_list_folders perPage nextCursor =>
      loom_list_folders formatError client perPage nextCursor
  | Loom_create_folder name parentId =>
      loom_create_folder formatError client name parentId
  | Loom_get_folder folderId => loom_get_folder formatError client folderId
  | Loom_update_folder folderId name =>
      loom_update_folder formatError client folderId name
  | Loom_delete_folder folderId =>
      loom_delete_folder formatError client folderId
  | Loom_list_workspaces => loom_list_workspaces formatError client
  | Loom_get_workspace workspaceId =>
      loom_get_workspace formatError client workspaceId
  | Loom_list_spaces perPage nextCursor =>
      loom_list_spaces formatError client perPage nextCursor
  | Loom_get_space spaceId => loom_get_space formatError client spaceId
  | Loom_list_space_videos spaceId perPage nextCursor =>
      loom_list_space_videos formatError client spaceId perPage nextCursor
  | Loom_add_video_to_space spaceId videoId =>
      loom_add_video_to_space formatError client spaceId videoId
  | Loom_remove_video_from_space spaceId videoId =>
      loom_remove_video_from_space formatError client spaceId videoId
  | Loom_get_oembed url maxWidth maxHeight =>
      loom_get_oembed formatError client url maxWidth maxHeight
  | Loom_get_embed_html videoId width height autoplay =>
      loom_get_embed_html formatError client videoId width height autoplay
  | Loom_create_record_link title folderId expiresInMinutes =>
      loom_create_record_link formatError client title folderId
        expiresInMinutes
  end.

End Tools.

(* ===================================================================== *)
(** * Vocabulary of the specification *)
(* ===================================================================== *)

Module Spec.
Import JS Web Errors Client.

(** The failure of a call made without a usable access token. *)
Definition no_credentials : Thrown :=
  AuthenticationError
    "No credentials provided. Include X-Loom-Access-Token header.".

(** The two headers of an authenticated request. *)
Definition auth_headers (token : string) : list (string * string) :=
  [("Authorization", "Bearer " ++ token);
   ("Content-Type", "application/json")].

(** The call of [fetch] that [request] makes when the token is [token]. *)
Definition issued (this : LoomClientImpl) (endpoint : string)
           (options : RequestInit) (token : string) : FetchCall :=
  {| url := baseUrl this ++ endpoint;
     method := init_method options;
     request_headers :=
       spread (auth_headers token)
         (match init_headers options with Some h => h | None => [] end);
     request_body := init_body options |}.

(** The two shapes of the result of testConnection. *)
Definition connected_as (name : string) : Value :=
  Object [("connected", Bool true);
          ("message", Str ("Connected as " ++ name))].

Definition not_connected (text : string) : Value :=
  Object [("connected", Bool false); ("message", Str text)].

(** A network that gives the same answer to every request, and one that
    is unreachable. *)
Definition answers (r : Response) : Network := fun _ => Fulfilled r.

Definition offline : Network := fun _ => Rejected (TypeError "fetch failed").

Definition respond (code : Z) (hs : Headers) (text : string) : Response :=
  {| status := code; headers := hs; body := Json.wire text |}.

(** The value of a field of parsed wire data, [Undefined] when there is
    no such field. *)
Definition field (data : Value) (k : string) : Value :=
  match data with
  | Object ps => match lookup k ps with Some x => x | None => Undefined end
  | _ => Undefined
  end.

(** A value whose properties can be read: anything but [undefined] and
    [null]. *)
Definition readable (v : Value) : Prop := v <> Undefined /\ v <> Null.

(** A PaginatedResponse. *)
Definition page (items : list Value) (cursor : Value) (more : bool) : Value :=
  Object [("items", Array items); ("nextCursor", cursor);
          ("hasMore", Bool more)].

(** The declared wire type of the cursor, [next_cursor?: string]: a
    string, or nothing ([null] in JSON, or no field). *)
Definition cursor_typed (v : Value) : Prop :=
  v = Undefined \/ v = Null \/ exists s, v = Str s.

Definition nonempty_cursor (v : Value) : Prop :=
  exists s, v = Str s /\ s <> "".

(** A listing call with other pagination parameters. *)
Definition with_params (call : Call) (p : option ListParams) : Call :=
  match call with
  | ListVideos _ => ListVideos p
  | ListFolders _ => ListFolders p
  | ListSpaces _ => ListSpaces p
  | ListSpaceVideos spaceId _ => ListSpaceVideos spaceId p
  | SearchVideos query _ => SearchVideos query p
  | other => other
  end.

(** What is left of the parameters once the falsy ones are dropped. *)
Definition sent (p : option ListParams) : ListParams :=
  {| perPage := match opt perPage p with
                | Some n => if number_truthy n then Some n else None
                | None => None
                end;
     nextCursor := match opt nextCursor p with
                   | Some c => if string_truthy c then Some c else None
                   | None => None
                   end |}.

(** The path and query of a listing call that sends no pagination
    parameter (the table of endpoints of the specification). *)
Definition first_page (call : Call) : string :=
  match call with
  | ListVideos _ => "/videos"
  | ListFolders _ => "/folders"
  | ListSpaces _ => "/spaces"
  | ListSpaceVideos spaceId _ => "/spaces/" ++ spaceId ++ "/videos"
  | SearchVideos query _ => "/videos/search?q=" ++ urlencode query
  | _ => ""
  end.

(** The character that comes before the pagination parameters of a
    listing: the search has its text in front. *)
Definition lead (call : Call) : string :=
  match call with
  | SearchVideos _ _ => "&"
  | _ => "?"
  end.

(** The part of the query string that the pagination parameters make
    once the falsy ones are dropped: the page size, then the cursor, each
    only if it is there. *)
Definition page_query (lead : string) (p : ListParams) : string :=
  match perPage p, nextCursor p with
  | None, None => ""
  | Some n, None => lead ++ "per_page=" ++ urlencode (number_to_string n)
  | None, Some c => lead ++ "next_cursor=" ++ urlencode c
  | Some n, Some c =>
      lead ++ "per_page=" ++ urlencode (number_to_string n)
        ++ "&next_cursor=" ++ urlencode c
  end.

(** The iframe of getEmbedHtml, with its three attributes. *)
Definition iframe (src w h : string) : string :=
  let q := String Json.dquote "" in
  "<iframe src=" ++ q ++ src ++ q ++ " width=" ++ q ++ w ++ q
    ++ " height=" ++ q ++ h ++ q ++ " frameborder=" ++ q ++ "0" ++ q
    ++ " webkitallowfullscreen mozallowfullscreen allowfullscreen></iframe>".

(** [needle] occurs in [text]. *)
Fixpoint occurs (needle text : string) : bool :=
  if String.prefix needle text then true
  else match text with
       | String _ rest => occurs needle rest
       | EmptyString => false
       end.

(** A unit below 128.  A text that has only such units is the same in
    every encoding, and its white space is the tab, the line ends and the
    space. *)
Definition seven_bit (c : ascii) : bool := Nat.ltb (nat_of_ascii c) 128.

Fixpoint plain (text : string) : bool :=
  match text with
  | String c rest => (seven_bit c && plain rest)%bool
  | EmptyString => true
  end.

(** The text has a decimal integer in front: optional white space, an
    optional sign, then a digit. *)
Definition integer_in_front (text : string) : bool :=
  match trim_start text with
  | String c rest =>
      match digit_value c with
      | Some _ => true
      | None =>
          if (Ascii.eqb c "-" || Ascii.eqb c "+")%bool then
            match rest with
            | String d _ =>
                match digit_value d with Some _ => true | None => false end
            | EmptyString => false
            end
          else false
      end
  | EmptyString => false
  end.

(** The one operation of the client that the handler of a tool calls. *)
Definition operation (tool : Tools.ToolCall) : Call :=
  match tool with
  | Tools.Loom_get_current_user => GetCurrentUser
  | Tools.Loom_list_videos perPage nextCursor =>
      ListVideos (Some {| perPage := perPage; nextCursor := nextCursor |})
  | Tools.Loom_get_video videoId => GetVideo videoId
  | Tools.Loom_delete_video videoId => DeleteVideo videoId
  | Tools.Loom_search_videos query perPage nextCursor =>
      SearchVideos query
        (Some {| perPage := perPage; nextCursor := nextCursor |})
  | Tools.Loom_move_video_to_folder videoId folderId =>
      MoveVideoToFolder videoId folderId
  | Tools.Loom_duplicate_video videoId => DuplicateVideo videoId
  | Tools.Loom_get_transcript videoId => GetTranscript videoId
  | Tools.Loom_get_video_analytics videoId => GetVideoAnalytics videoId
  | Tools.Loom_list_comments videoId => ListComments videoId
  | Tools.Loom_create_comment videoId text timestamp =>
      CreateComment videoId
        (Object [("text", Str text);
                 ("timestamp", Tools.optional_number timestamp)])
  | Tools.Loom_list_folders perPage nextCursor =>
      ListFolders (Some {| perPage := perPage; nextCursor := nextCursor |})
  | Tools.Loom_create_folder name parentId => CreateFolder name parentId
  | Tools.Loom_get_folder folderId => GetFolder folderId
  | Tools.Loom_update_folder folderId name =>
      UpdateFolder folderId (Object [("name", Str name)])
  | Tools.Loom_delete_folder folderId => DeleteFolder folderId
  | Tools.Loom_list_workspaces => ListWorkspaces
  | Tools.Loom_get_workspace workspaceId => GetWorkspace workspaceId
  | Tools.Loom_list_spaces perPage nextCursor =>
      ListSpaces (Some {| perPage := perPage; nextCursor := nextCursor |})
  | Tools.Loom_get_space spaceId => GetSpace spaceId
  | Tools.Loom_list_space_videos spaceId perPage nextCursor =>
      ListSpaceVideos spaceId
        (Some {| perPage := perPage; nextCursor := nextCursor |})
  | Tools.Loom_add_video_to_space spaceId videoId =>
      AddVideoToSpace spaceId videoId
  | Tools.Loom_remove_video_from_space spaceId videoId =>
      RemoveVideoFromSpace spaceId videoId
  | Tools.Loom_get_oembed url maxWidth maxHeight =>
      GetOEmbed url (Some {| maxWidth := maxWidth; maxHeight := maxHeight |})
  | Tools.Loom_get_embed_html videoId width height autoplay =>
      GetEmbedHtml videoId
        (Some {| width := width; height := height; autoplay := autoplay |})
  | Tools.Loom_create_record_link title folderId expiresInMinutes =>
      CreateRecordLink
        (Some {| title := title; folderId := folderId;
                 expiresInMinutes := expiresInMinutes |})
  end.

(** The failure result of a tool. *)
Definition failure (text : string) : Value :=
  Object [("content",
            Array [Object [("type", Str "text");
                           ("text", Str ("Error: " ++ text))]]);
          ("isError", Bool true)].

(** The success result of a tool. *)
Definition success (text : Value) : Value :=
  Object [("content", Array [Object [("type", Str "text"); ("text", text)]])].

(** The operations declared [Promise<void>]. *)
Definition returns_nothing (call : Call) : bool :=
  match call with
  | DeleteVideo _ | DeleteFolder _ | AddVideoToSpace _ _
  | RemoveVideoFromSpace _ _ | MoveVideoToFolder _ _ => true
  | _ => false
  end.

(** The operations that return one record, with the table of its fields. *)
Definition record_of (call : Call) : option (list (string * string)) :=
  match call with
  | GetCurrentUser => Some user_fields
  | GetVideo _ => Some video_fields
  | GetVideoAnalytics _ => Some analytics_fields
  | CreateComment _ _ => Some comment_fields
  | CreateFolder _ _ | GetFolder _ | UpdateFolder _ _ => Some folder_fields
  | GetWorkspace _ => Some workspace_fields
  | GetSpace _ => Some space_fields
  | GetOEmbed _ _ => Some oembed_fields
  | CreateRecordLink _ => Some record_link_fields
  | DuplicateVideo _ => Some duplicate_fields
  | _ => None
  end.

(** The operations that return a collection: the field of the response
    that holds it, and the table of the fields of an item. *)
Definition collection_of (call : Call)
  : option (string * list (string * string)) :=
  match call with
  | ListVideos _ => Some ("videos", video_fields)
  | ListFolders _ => Some ("folders", folder_fields)
  | ListSpaces _ => Some ("spaces", space_fields)
  | ListSpaceVideos _ _ => Some ("videos", space_video_fields)
  | SearchVideos _ _ => Some ("videos", search_video_fields)
  | ListComments _ => Some ("comments", comment_fields)
  | ListWorkspaces => Some ("workspaces", workspace_fields)
  | GetTranscript _ => Some ("transcript", segment_fields)
  | _ => None
  end.

(** Where the collection is in the result of such an operation. *)
Definition items_of (call : Call) (result : Value) : Value :=
  match call with
  | ListComments _ | ListWorkspaces => result
  | GetTranscript _ => field result "transcript"
  | _ => field result "items"
  end.

(** A wire record under its internal names. *)
Definition renamed (fields : list (string * string)) (src : Value) : Value :=
  Object (List.map (fun f => (fst f, field src (snd f))) fields).

(** The method that the name of an operation calls for; [None] is the
    default of [fetch]. *)
Definition verb (call : Call) : option string :=
  match call with
  | CreateComment _ _ | CreateFolder _ _ | AddVideoToSpace _ _
  | CreateRecordLink _ | DuplicateVideo _ => Some "POST"
  | UpdateVideo _ _ | UpdateFolder _ _ | MoveVideoToFolder _ _ => Some "PATCH"
  | DeleteVideo _ | DeleteFolder _ | RemoveVideoFromSpace _ _ => Some "DELETE"
  | _ => None
  end.

(** The characters of a urlencoded component: the unreserved ones, the
    plus sign and the percent sign. *)
Definition form_safe (c : ascii) : bool :=
  let n := nat_of_ascii c in
  (Nat.eqb n 42 || Nat.eqb n 45 || Nat.eqb n 46 || Nat.eqb n 95
   || (Nat.leb 48 n && Nat.leb n 57)
   || (Nat.leb 65 n && Nat.leb n 90)
   || (Nat.leb 97 n && Nat.leb n 122)
   || Nat.eqb n 43 || Nat.eqb n 37)%bool.

Fixpoint every (p : ascii -> bool) (s : string) : bool :=
  match s with
  | String c rest => (p c && every p rest)%bool
  | EmptyString => true
  end.

(** The decoding of a urlencoded component on the receiving side. *)
Fixpoint urldecode (s : string) : string :=
  match s with
  | String c rest =>
      if Ascii.eqb c "+" then String " " (urldecode rest)
      else if Ascii.eqb c "%" then
        match rest with
        | String a (String b rest') =>
            match Json.hex_value a, Json.hex_value b with
            | Some x, Some y =>
                String (ascii_of_N (x * 16 + y)) (urldecode rest')
            | _, _ => String c (urldecode rest)
            end
        | _ => String c (urldecode rest)
        end
      else String c (urldecode rest)
  | EmptyString => EmptyString
  end.

(** The properties that [JSON.stringify] writes: those that are not
    [undefined]. *)
Definition defined (ps : list (string * Value)) : list (string * Value) :=
  List.filter (fun kv => match snd kv with Undefined => false | _ => true end)
    ps.

(** The properties that hold a string, with their strings. *)
Definition texts (ps : list (string * Value)) : list (string * string) :=
  List.flat_map (fun kv => match snd kv with
                           | Str s => [(fst kv, s)]
                           | _ => []
                           end) ps.

(** The members of the JSON text of an object whose values are strings. *)
Definition members_text (ps : list (string * string)) : string :=
  String.concat ","
    (List.map (fun kv => Json.quote (fst kv) ++ ":" ++ Json.quote (snd kv)) ps).

(** A string, or nothing. *)
Definition text_or_absent (v : Value) : bool :=
  match v with
  | Str _ | Undefined => true
  | _ => false
  end.

(** The part of the query string that a size of getOEmbed makes: the
    parameter behind an ampersand when the size is truthy, nothing when it
    is absent, 0 or NaN. *)
Definition size_parameter (name : string) (size : option number) : string :=
  match size with
  | Some n =>
      if number_truthy n
      then "&" ++ name ++ "=" ++ urlencode (number_to_string n)
      else ""
  | None => ""
  end.

(** What is left of the parameters of a record link once the falsy ones
    are dropped. *)
Definition sent_link (p : option RecordLinkParams) : RecordLinkParams :=
  {| title := match opt title p with
              | Some t => if string_truthy t then Some t else None
              | None => None
              end;
     folderId := match opt folderId p with
                 | Some f => if string_truthy f then Some f else None
                 | None => None
                 end;
     expiresInMinutes := match opt expiresInMinutes p with
                         | Some n => if number_truthy n then Some n else None
                         | None => None
                         end |}.

(** The fields of the body of a record link: one for each parameter that
    is there, in the order title, folder, expiry. *)
Definition link_fields (p : RecordLinkParams) : list (string * Value) :=
  (match title p with
   | Some t => [("title", Str t)]
   | None => []
   end
   ++ match folderId p with
      | Some f => [("folder_id", Str f)]
      | None => []
      end
   ++ match expiresInMinutes p with
      | Some n => [("expires_in_minutes", Number n)]
      | None => []
      end)%list.

End Spec.

(* ===================================================================== *)
(** * Proof automation *)
(* ===================================================================== *)

Import JS Web Errors Client.

(** Unfolds an operation down to its call of [request]. *)
Ltac open_operation :=
  cbv [invoke getCurrentUser listVideos getVideo updateVideo deleteVideo
       getTranscript getVideoAnalytics listComments createComment listFolders
       createFolder getFolder updateFolder deleteFolder listWorkspaces
       getWorkspace listSpaces getSpace listSpaceVideos addVideoToSpace
       removeVideoFromSpace getOEmbed createRecordLink getEmbedHtml
       moveVideoToFolder duplicateVideo searchVideos bind].

(** Case analysis on every scrutinee left in the goal. *)
Ltac split_matches :=
  repeat match goal with
         | |- context [match ?c with _ => _ end] =>
             lazymatch c with
             | (_, _) => fail
             | _ => destruct c
             end
         end.

(* ===================================================================== *)
(** * Properties *)
(* ===================================================================== *)

(** ** The runtime at work *)

Example parseInt_samples :
  parseInt "30" = Int 30 /\ parseInt "  120 seconds" = Int 120
  /\ parseInt "-5" = Int (-5) /\ parseInt "+7.9" = Int 7
  /\ parseInt "abc" = NaN /\ parseInt "" = NaN /\ parseInt "-" = NaN.
Proof. repeat split. Qed.

Example number_to_string_samples :
  number_to_string (Int 640) = "640" /\ number_to_string (Int (-5)) = "-5"
  /\ number_to_string (Int 0) = "0" /\ number_to_string (Dec 565 1) = "56.5"
  /\ number_to_string NaN = "NaN".
Proof. repeat split. Qed.

Example parse_samples :
  Json.parse (Json.wire "{'a': [1, 2.50, -3e2, true, null], 'b': {'c': 'x\ny'}}")
  = Some (Object
            [("a", Array [Number (Int 1); Number (Dec 25 1);
                          Number (Int (-300)); Bool true; Null]);
             ("b", Object [("c", Str (String "x" (String (ascii_of_nat 10) "y")))])])
  /\ Json.parse (Json.wire "{'a':1,'b':2,'a':3}")
     = Some (Object [("a", Number (Int 3)); ("b", Number (Int 2))])
  /\ Json.parse "<html>Bad Gateway</html>" = None
  /\ Json.parse "" = None
  /\ Json.parse "01" = None
  /\ Json.parse "[1,]" = None
  /\ Json.parse " null " = Some Null.
Proof. repeat split; vm_compute; reflexivity. Qed.

Example stringify_samples :
  Json.stringify
    (Object [("title", Str "Q3 review"); ("description", Undefined);
             ("n", Number (Int 5))])
  = Some (Json.wire "{'title':'Q3 review','n':5}")
  /\ Json.stringify Undefined = None.
Proof. split; vm_compute; reflexivity. Qed.

Example Headers_get_samples :
  Headers_get [("content-type", "text/plain"); ("retry-after", "30")]
    "Retry-After" = Some "30"
  /\ Headers_get [("Retry-After", "30"); ("Retry-After", "40")] "Retry-After"
     = Some "30, 40"
  /\ Headers_get [("content-type", "text/plain")] "Retry-After" = None.
Proof. repeat split. Qed.

Example listVideos_request :
  snd (invoke
         (createLoomClient
            {| Env.accessToken := Some "tok"; Env.baseUrl := Some "" |})
         (ListVideos (Some {| perPage := Some (Int 5);
                              nextCursor := Some "a b&c" |}))
         Spec.offline [])
  = [{| url := "https://api.loom.com/v1/videos?per_page=5&next_cursor=a+b%26c";
        method := None;
        request_headers := [("Authorization", "Bearer tok");
                            ("Content-Type", "application/json")];
        request_body := None |}].
Proof. vm_compute. reflexivity. Qed.

Example createRecordLink_request :
  snd (invoke
         (createLoomClient
            {| Env.accessToken := Some "tok";
               Env.baseUrl := Some "https://loom.test/api" |})
         (CreateRecordLink
            (Some {| title := Some "Standup"; folderId := Some "";
                     expiresInMinutes := Some (Int 30) |}))
         Spec.offline [])
  = [{| url := "https://loom.test/api/record-links";
        method := Some "POST";
        request_headers := [("Authorization", "Bearer tok");
                            ("Content-Type", "application/json")];
        request_body :=
          Some (Json.wire "{'title':'Standup','expires_in_minutes':30}") |}].
Proof. vm_compute. reflexivity. Qed.

Example no_content_is_undefined :
  fst (invoke
         (createLoomClient
            {| Env.accessToken := Some "tok"; Env.baseUrl := None |})
         (DeleteVideo "v1") (Spec.answers (Spec.respond 204 [] "")) [])
  = Return Undefined.
Proof. vm_compute. reflexivity. Qed.

Example not_found :
  fst (invoke
         (createLoomClient
            {| Env.accessToken := Some "tok"; Env.baseUrl := None |})
         (GetFolder "f1")
         (Spec.answers (Spec.respond 404 [] "{'message':'no such folder'}")) [])
  = Throw (LoomApiError (Str "Resource not found") 404 (Some "NOT_FOUND")).
Proof. vm_compute. reflexivity. Qed.

(** ** JSON.parse has fuel enough *)

Lemma skip_ws_length (s : string) :
  (String.length (Json.skip_ws s) <= String.length s)%nat.
Proof.
  induction s as [|c s IH]; simpl; [lia|].
  destruct (Json.is_ws c); simpl; lia.
Qed.

Lemma starts_with_length (c : ascii) (s r : string) :
  Json.starts_with c s = Some r -> String.length s = S (String.length r).
Proof.
  destruct s as [|x s]; simpl; [discriminate|].
  destruct (Ascii.eqb x c); [|discriminate].
  intro H. injection H as <-. reflexivity.
Qed.

Lemma strip_prefix_length (p s r : string) :
  Json.strip_prefix p s = Some r ->
  String.length s = (String.length p + String.length r)%nat.
Proof.
  revert s. induction p as [|a p IH]; intros s H; simpl in H.
  - injection H as <-. reflexivity.
  - destruct s as [|b s]; [discriminate|].
    destruct (Ascii.eqb a b); [|discriminate].
    simpl. rewrite (IH s H). reflexivity.
Qed.

Lemma span_digits_length (s ds r : string) :
  Json.span_digits s = (ds, r) ->
  String.length s = (String.length ds + String.length r)%nat.
Proof.
  revert ds r. induction s as [|c s IH]; intros ds r H; simpl in H.
  - injection H as <- <-. reflexivity.
  - destruct (digit_value c).
    + destruct (Json.span_digits s) as [ds' r'] eqn:E.
      injection H as <- <-. simpl. rewrite (IH ds' r' eq_refl). reflexivity.
    + injection H as <- <-. reflexivity.
Qed.

Lemma prepend_rest (p : string) (x : option (string * string))
      (str r : string) :
  Json.prepend p x = Some (str, r) -> exists str', x = Some (str', r).
Proof.
  destruct x as [[s' r']|]; simpl; [|discriminate].
  intro H. injection H as _ <-. eexists; reflexivity.
Qed.

Lemma string_body_length (n : nat) :
  forall s pending str r,
    (String.length s <= n)%nat ->
    Json.string_body s pending = Some (str, r) ->
    (String.length r < String.length s)%nat.
Proof.
  induction n as [|n IH]; intros s pending str r Hn H.
  - destruct s; simpl in *; [discriminate|lia].
  - destruct s as [|c s]; [discriminate|].
    cbn [Json.string_body] in H.
    destruct (Ascii.eqb c Json.dquote).
    { injection H as _ <-. simpl. lia. }
    destruct (Ascii.eqb c Json.backslash).
    { destruct s as [|e s]; [discriminate|].
      destruct (Nat.eqb (Json.code e) 117).
      - destruct s as [|h1 [|h2 [|h3 [|h4 s]]]]; try discriminate.
        destruct (Json.hex4 h1 h2 h3 h4) as [u|]; [|discriminate].
        assert (Hs : (String.length s <= n)%nat) by (simpl in Hn; lia).
        assert (Hgoal : forall pending' str',
                   Json.string_body s pending' = Some (str', r) ->
                   (String.length r
                    < String.length
                        (String c (String e (String h1 (String h2
                           (String h3 (String h4 s)))))))%nat).
        { intros pending' str' H'. pose proof (IH s pending' str' r Hs H').
          simpl. lia. }
        destruct pending as [hi|];
          repeat match type of H with
                 | context [if ?b then _ else _] => destruct b
                 end;
          try (apply prepend_rest in H; destruct H as (str' & H));
          eapply Hgoal; eassumption.
      - destruct (Json.simple_escape e); [|discriminate].
        apply prepend_rest in H. destruct H as (str' & H).
        assert (Hs : (String.length s <= n)%nat) by (simpl in Hn; lia).
        pose proof (IH s None str' r Hs H). simpl. lia. }
    destruct (Nat.ltb (Json.code c) 32); [discriminate|].
    apply prepend_rest in H. destruct H as (str' & H).
    assert (Hs : (String.length s <= n)%nat) by (simpl in Hn; lia).
    pose proof (IH s None str' r Hs H). simpl. lia.
Qed.

Lemma fraction_length (s fp r : string) :
  Json.fraction s = Some (fp, r) -> (String.length r <= String.length s)%nat.
Proof.
  unfold Json.fraction.
  destruct (Json.starts_with "." s) as [t|] eqn:E.
  - destruct (Json.span_digits t) as [ds r'] eqn:Ed.
    destruct ds; [discriminate|]. intro H. injection H as _ <-.
    apply starts_with_length in E. apply span_digits_length in Ed. lia.
  - intro H. injection H as _ <-. lia.
Qed.

Lemma exponent_length (s : string) (e : Z) (r : string) :
  Json.exponent s = Some (e, r) -> (String.length r <= String.length s)%nat.
Proof.
  unfold Json.exponent. destruct s as [|c s].
  - intro H. injection H as _ <-. lia.
  - destruct (Nat.eqb (Json.code c) 101 || Nat.eqb (Json.code c) 69)%bool.
    + destruct (Json.starts_with "-" s) as [t|] eqn:Em;
        [|destruct (Json.starts_with "+" s) as [t|] eqn:Ep];
        match goal with
        | |- context [Json.span_digits ?x] =>
            destruct (Json.span_digits x) as [ds r'] eqn:Ed
        end;
        (destruct ds; [discriminate|]); intro H; injection H as _ <-;
        apply span_digits_length in Ed;
        try apply starts_with_length in Em;
        try apply starts_with_length in Ep; simpl in *; lia.
    + intro H. injection H as _ <-. lia.
Qed.

Lemma number_literal_length (s : string) (n : number) (r : string) :
  Json.number_literal s = Some (n, r) ->
  (String.length r < String.length s)%nat.
Proof.
  unfold Json.number_literal.
  destruct (Json.starts_with "-" s) as [t|] eqn:Em.
  - destruct (Json.span_digits t) as [ip s2] eqn:Ed.
    destruct (Json.int_part_ok ip) eqn:Eip; simpl; [|discriminate].
    destruct (Json.fraction s2) as [[fp s3]|] eqn:Ef; [|discriminate].
    destruct (Json.exponent s3) as [[e s4]|] eqn:Ee; [|discriminate].
    intro H. injection H as _ <-.
    apply starts_with_length in Em. apply span_digits_length in Ed.
    apply fraction_length in Ef. apply exponent_length in Ee. lia.
  - destruct (Json.span_digits s) as [ip s2] eqn:Ed.
    destruct (Json.int_part_ok ip) eqn:Eip; simpl; [|discriminate].
    destruct (Json.fraction s2) as [[fp s3]|] eqn:Ef; [|discriminate].
    destruct (Json.exponent s3) as [[e s4]|] eqn:Ee; [|discriminate].
    intro H. injection H as _ <-.
    apply span_digits_length in Ed.
    apply fraction_length in Ef. apply exponent_length in Ee.
    destruct ip; [discriminate|]. simpl in Ed. lia.
Qed.

Lemma literal_length (s : string) (v : Value) (r : string) :
  Json.literal s = Json.Read v r -> (String.length r < String.length s)%nat.
Proof.
  unfold Json.literal.
  destruct (Json.strip_prefix "true" s) as [t|] eqn:E1.
  { intro H. injection H as _ <-. apply strip_prefix_length in E1.
    simpl in E1. lia. }
  destruct (Json.strip_prefix "false" s) as [t|] eqn:E2.
  { intro H. injection H as _ <-. apply strip_prefix_length in E2.
    simpl in E2. lia. }
  destruct (Json.strip_prefix "null" s) as [t|] eqn:E3.
  { intro H. injection H as _ <-. apply strip_prefix_length in E3.
    simpl in E3. lia. }
  destruct (Json.number_literal s) as [[n t]|] eqn:E4; [|discriminate].
  intro H. injection H as _ <-. eapply number_literal_length; eassumption.
Qed.

Lemma literal_not_exhausted (s : string) : Json.literal s <> Json.Exhausted.
Proof.
  unfold Json.literal.
  destruct (Json.strip_prefix "true" s); [discriminate|].
  destruct (Json.strip_prefix "false" s); [discriminate|].
  destruct (Json.strip_prefix "null" s); [discriminate|].
  destruct (Json.number_literal s) as [[n t]|]; discriminate.
Qed.

Lemma value_step (fuel : nat) (s : string) :
  Json.value (S fuel) s
  = match Json.skip_ws s with
    | EmptyString => Json.Malformed
    | String c rest as s0 =>
        if Nat.eqb (Json.code c) 123 then
          match Json.starts_with "}" (Json.skip_ws rest) with
          | Some r => Json.Read (Object []) r
          | None => Json.members fuel (Json.skip_ws rest) []
          end
        else if Nat.eqb (Json.code c) 91 then
          match Json.starts_with "]" (Json.skip_ws rest) with
          | Some r => Json.Read (Array []) r
          | None => Json.elements fuel (Json.skip_ws rest) []
          end
        else if Ascii.eqb c Json.dquote then
          match Json.string_body rest None with
          | Some (str, r) => Json.Read (Str str) r
          | None => Json.Malformed
          end
        else Json.literal s0
    end.
Proof. reflexivity. Qed.

Lemma elements_step (fuel : nat) (s : string) (acc : list Value) :
  Json.elements (S fuel) s acc
  = match Json.value fuel s with
    | Json.Read v rest =>
        match Json.starts_with "," (Json.skip_ws rest),
              Json.starts_with "]" (Json.skip_ws rest) with
        | Some r, _ => Json.elements fuel r (v :: acc)
        | None, Some r => Json.Read (Array (rev (v :: acc))) r
        | None, None => Json.Malformed
        end
    | Json.Malformed => Json.Malformed
    | Json.Exhausted => Json.Exhausted
    end.
Proof. reflexivity. Qed.

Lemma members_step (fuel : nat) (s : string) (acc : list (string * Value)) :
  Json.members (S fuel) s acc
  = match Json.starts_with Json.dquote (Json.skip_ws s) with
    | None => Json.Malformed
    | Some r0 =>
        match Json.string_body r0 None with
        | None => Json.Malformed
        | Some (key, r1) =>
            match Json.starts_with ":" (Json.skip_ws r1) with
            | None => Json.Malformed
            | Some r2 =>
                match Json.value fuel r2 with
                | Json.Read v r3 =>
                    match Json.starts_with "," (Json.skip_ws r3),
                          Json.starts_with "}" (Json.skip_ws r3) with
                    | Some r4, _ => Json.members fuel r4 (assign key v acc)
                    | None, Some r4 => Json.Read (Object (assign key v acc)) r4
                    | None, None => Json.Malformed
                    end
                | Json.Malformed => Json.Malformed
                | Json.Exhausted => Json.Exhausted
                end
            end
        end
    end.
Proof. reflexivity. Qed.

(** Reading takes characters away: what is left is shorter. *)
Lemma reading_shortens (fuel : nat) :
  (forall s v r,
      Json.value fuel s = Json.Read v r ->
      (String.length r < String.length s)%nat)
  /\ (forall s acc v r,
         Json.elements fuel s acc = Json.Read v r ->
         (String.length r < String.length s)%nat)
  /\ (forall s acc v r,
         Json.members fuel s acc = Json.Read v r ->
         (String.length r < String.length s)%nat).
Proof.
  induction fuel as [|fuel (IHv & IHe & IHm)].
  { repeat split; intros; discriminate. }
  repeat split.
  - intros s v r H. rewrite value_step in H.
    pose proof (skip_ws_length s) as Hs.
    destruct (Json.skip_ws s) as [|c rest]; [discriminate|].
    pose proof (skip_ws_length rest) as Hrest. simpl in Hs.
    destruct (Nat.eqb (Json.code c) 123).
    { destruct (Json.starts_with "}" (Json.skip_ws rest)) as [t|] eqn:E.
      - injection H as _ <-. apply starts_with_length in E. lia.
      - apply IHm in H. lia. }
    destruct (Nat.eqb (Json.code c) 91).
    { destruct (Json.starts_with "]" (Json.skip_ws rest)) as [t|] eqn:E.
      - injection H as _ <-. apply starts_with_length in E. lia.
      - apply IHe in H. lia. }
    destruct (Ascii.eqb c Json.dquote).
    { destruct (Json.string_body rest None) as [[str t]|] eqn:E; [|discriminate].
      injection H as _ <-.
      apply (string_body_length (String.length rest)) in E; lia. }
    apply literal_length in H. simpl in H. lia.
  - intros s acc v r H. rewrite elements_step in H.
    destruct (Json.value fuel s) as [x rest| |] eqn:Ev; try discriminate.
    apply IHv in Ev. pose proof (skip_ws_length rest) as Hrest.
    destruct (Json.starts_with "," (Json.skip_ws rest)) as [t|] eqn:E1.
    { apply IHe in H. apply starts_with_length in E1. lia. }
    destruct (Json.starts_with "]" (Json.skip_ws rest)) as [t|] eqn:E2;
      [|discriminate].
    injection H as _ <-. apply starts_with_length in E2. lia.
  - intros s acc v r H. rewrite members_step in H.
    pose proof (skip_ws_length s) as Hs.
    destruct (Json.starts_with Json.dquote (Json.skip_ws s)) as [r0|] eqn:E0;
      [|discriminate].
    apply starts_with_length in E0.
    destruct (Json.string_body r0 None) as [[key r1]|] eqn:Ek; [|discriminate].
    apply (string_body_length (String.length r0)) in Ek; [|lia].
    pose proof (skip_ws_length r1) as Hr1.
    destruct (Json.starts_with ":" (Json.skip_ws r1)) as [r2|] eqn:Ec;
      [|discriminate].
    apply starts_with_length in Ec.
    destruct (Json.value fuel r2) as [x r3| |] eqn:Ev; try discriminate.
    apply IHv in Ev. pose proof (skip_ws_length r3) as Hr3.
    destruct (Json.starts_with "," (Json.skip_ws r3)) as [t|] eqn:E1.
    { apply IHm in H. apply starts_with_length in E1. lia. }
    destruct (Json.starts_with "}" (Json.skip_ws r3)) as [t|] eqn:E2;
      [|discriminate].
    injection H as _ <-. apply starts_with_length in E2. lia.
Qed.

(** Two units of fuel for every character are enough. *)
Lemma fuel_suffices (fuel : nat) :
  (forall s,
      (2 * String.length s + 1 <= fuel)%nat ->
      Json.value fuel s <> Json.Exhausted)
  /\ (forall s acc,
         (2 * String.length s + 2 <= fuel)%nat ->
         Json.elements fuel s acc <> Json.Exhausted)
  /\ (forall s acc,
         (2 * String.length s + 2 <= fuel)%nat ->
         Json.members fuel s acc <> Json.Exhausted).
Proof.
  induction fuel as [|fuel (IHv & IHe & IHm)].
  { repeat split; intros; lia. }
  destruct (reading_shortens fuel) as (Sv & _ & _).
  repeat split.
  - intros s Hf. rewrite value_step.
    pose proof (skip_ws_length s) as Hs.
    destruct (Json.skip_ws s) as [|c rest]; [discriminate|].
    pose proof (skip_ws_length rest) as Hrest. simpl in Hs.
    destruct (Nat.eqb (Json.code c) 123).
    { destruct (Json.starts_with "}" (Json.skip_ws rest)); [discriminate|].
      apply IHm. lia. }
    destruct (Nat.eqb (Json.code c) 91).
    { destruct (Json.starts_with "]" (Json.skip_ws rest)); [discriminate|].
      apply IHe. lia. }
    destruct (Ascii.eqb c Json.dquote).
    { destruct (Json.string_body rest None) as [[str t]|]; discriminate. }
    apply literal_not_exhausted.
  - intros s acc Hf. rewrite elements_step.
    destruct (Json.value fuel s) as [x rest| |] eqn:Ev.
    + apply Sv in Ev. pose proof (skip_ws_length rest) as Hrest.
      destruct (Json.starts_with "," (Json.skip_ws rest)) as [t|] eqn:E1.
      { apply starts_with_length in E1. apply IHe. lia. }
      destruct (Json.starts_with "]" (Json.skip_ws rest)); discriminate.
    + discriminate.
    + exfalso. apply (IHv s); [lia | exact Ev].
  - intros s acc Hf. rewrite members_step.
    pose proof (skip_ws_length s) as Hs.
    destruct (Json.starts_with Json.dquote (Json.skip_ws s)) as [r0|] eqn:E0;
      [|discriminate].
    apply starts_with_length in E0.
    destruct (Json.string_body r0 None) as [[key r1]|] eqn:Ek; [|discriminate].
    apply (string_body_length (String.length r0)) in Ek; [|lia].
    pose proof (skip_ws_length r1) as Hr1.
    destruct (Json.starts_with ":" (Json.skip_ws r1)) as [r2|] eqn:Ec;
      [|discriminate].
    apply starts_with_length in Ec.
    destruct (Json.value fuel r2) as [x r3| |] eqn:Ev.
    + apply Sv in Ev. pose proof (skip_ws_length r3) as Hr3.
      destruct (Json.starts_with "," (Json.skip_ws r3)) as [t|] eqn:E1.
      { apply starts_with_length in E1. apply IHm. lia. }
      destruct (Json.starts_with "}" (Json.skip_ws r3)); discriminate.
    + discriminate.
    + exfalso. apply (IHv r2); [lia | exact Ev].
Qed.

(** [JSON.parse] never gives up for want of fuel: when it answers [None],
    the text is malformed or something follows the value. *)
Theorem parse_never_exhausted (text : string) :
  Json.value (Json.fuel_for text) text <> Json.Exhausted.
Proof.
  apply (proj1 (fuel_suffices (Json.fuel_for text))).
  unfold Json.fuel_for. lia.
Qed.

(** ** Conversions *)

Lemma string_truthy_nonempty (s : string) : string_truthy s = true <-> s <> "".
Proof.
  destruct s; simpl; split; intro H; try congruence; reflexivity.
Qed.

Lemma get_readable (v : Value) (k : string) :
  Spec.readable v -> get v k = Return (Spec.field v k).
Proof.
  intros [Hu Hn]. destruct v; try reflexivity; congruence.
Qed.

Lemma mapC_cons {A B : Type} (f : A -> Completion B) (x : A) (l : list A) :
  mapC f (x :: l)
  = (y <~ f x ;; ys <~ mapC f l ;; Return (y :: ys)).
Proof. reflexivity. Qed.

(** An object literal built from a readable value. *)
Lemma pick_readable (fields : list (string * string)) (src : Value) :
  Spec.readable src ->
  pick fields src
  = Return (Object (List.map (fun f => (fst f, Spec.field src (snd f))) fields)).
Proof.
  intro Hsrc. unfold pick.
  assert (H : mapC (fun f => v <~ get src (snd f) ;; Return (fst f, v)) fields
              = Return (List.map (fun f => (fst f, Spec.field src (snd f)))
                          fields)).
  { induction fields as [|f fields IH]; [reflexivity|].
    rewrite mapC_cons, IH, (get_readable src (snd f) Hsrc). reflexivity. }
  rewrite H. reflexivity.
Qed.

Lemma instanceof_Error_always (e : Thrown) : instanceof_Error e = true.
Proof. destruct e; reflexivity. Qed.

(** ** The request helper *)

Section Request.

Variable this : LoomClientImpl.
Variable endpoint : string.
Variable options : RequestInit.
Variable net : Network.
Variable log : list FetchCall.

Abbreviation issued := (Spec.issued this endpoint options).

Lemma request_no_token :
  opt_string_truthy (Env.accessToken (credentials this)) = false ->
  request this endpoint options net log = (Throw Spec.no_credentials, log).
Proof.
  intro H. unfold request, bind, lift, getAuthHeaders.
  destruct (Env.accessToken (credentials this)) as [token|]; simpl in *.
  - rewrite H. reflexivity.
  - reflexivity.
Qed.

Lemma getAuthHeaders_token (token : string) :
  Env.accessToken (credentials this) = Some token ->
  token <> "" ->
  getAuthHeaders this = Return (Spec.auth_headers token).
Proof.
  intros H Hne. unfold getAuthHeaders. rewrite H.
  apply string_truthy_nonempty in Hne. rewrite Hne. reflexivity.
Qed.

Lemma request_rejected (token : string) (reason : Thrown) :
  Env.accessToken (credentials this) = Some token ->
  token <> "" ->
  net (issued token) = Rejected reason ->
  request this endpoint options net log
  = (Throw reason, (log ++ [issued token])%list).
Proof.
  intros H Hne Hnet. unfold request, bind, lift, fetch.
  rewrite (getAuthHeaders_token token H Hne).
  fold (Spec.issued this endpoint options token). rewrite Hnet. reflexivity.
Qed.

(** With a token, [request] makes exactly one call of [fetch], and what it
    completes with is decided by the response alone. *)
Lemma request_fulfilled (token : string) (r : Response) :
  Env.accessToken (credentials this) = Some token ->
  token <> "" ->
  net (issued token) = Fulfilled r ->
  request this endpoint options net log
  = (if (status r =? 429)%Z then
       Throw (RateLimitError "Rate limit exceeded"
                (match Headers_get (headers r) "Retry-After" with
                 | Some v => if string_truthy v then parseInt v else Int 60
                 | None => Int 60
                 end))
     else if ((status r =? 401)%Z || (status r =? 403)%Z)%bool then
       Throw (AuthenticationError
                "Authentication failed. Check your Loom access token.")
     else if (status r =? 404)%Z then
       Throw (LoomApiError (Str "Resource not found") 404 (Some "NOT_FOUND"))
     else if negb (ok r) then
       Throw (LoomApiError (error_message r) (status r) None)
     else if (status r =? 204)%Z then Return Undefined
     else match Json.parse (body r) with
          | Some data => Return data
          | None => Throw (SyntaxError "Unexpected token in JSON")
          end,
     (log ++ [issued token])%list).
Proof.
  intros H Hne Hnet. unfold request, bind, lift, fetch.
  rewrite (getAuthHeaders_token token H Hne).
  fold (Spec.issued this endpoint options token). rewrite Hnet.
  unfold throw, ret.
  repeat match goal with
         | |- context [if ?b then _ else _] => destruct b
         end; try reflexivity.
  destruct (Json.parse (body r)); reflexivity.
Qed.

(** With a token, [request] makes exactly one call of [fetch]. *)
Lemma request_log (token : string) :
  Env.accessToken (credentials this) = Some token ->
  token <> "" ->
  snd (request this endpoint options net log) = (log ++ [issued token])%list.
Proof.
  intros Ht Hne. destruct (net (issued token)) eqn:En.
  - rewrite (request_fulfilled token response Ht Hne En). reflexivity.
  - rewrite (request_rejected token reason Ht Hne En). reflexivity.
Qed.

(** When [request] returns, it returns what the body of an ok response
    parses to, or [Undefined] for status 204. *)
Lemma request_returns (data : Value) (log' : list FetchCall) :
  request this endpoint options net log = (Return data, log') ->
  exists token r,
    Env.accessToken (credentials this) = Some token /\ token <> ""
    /\ net (issued token) = Fulfilled r
    /\ log' = (log ++ [issued token])%list
    /\ ok r = true
    /\ ((status r = 204 /\ data = Undefined)
        \/ (status r <> 204 /\ Json.parse (body r) = Some data)).
Proof.
  intro H.
  destruct (opt_string_truthy (Env.accessToken (credentials this))) eqn:E.
  2:{ rewrite (request_no_token E) in H. discriminate. }
  destruct (Env.accessToken (credentials this)) as [token|] eqn:Et;
    simpl in E; [|discriminate].
  apply string_truthy_nonempty in E.
  destruct (net (issued token)) eqn:En.
  2:{ rewrite (request_rejected token reason Et E En) in H. discriminate. }
  rewrite (request_fulfilled token response Et E En) in H.
  exists token, response.
  destruct (status response =? 429)%Z; [discriminate|].
  destruct ((status response =? 401)%Z || (status response =? 403)%Z)%bool;
    [discriminate|].
  destruct (status response =? 404)%Z; [discriminate|].
  destruct (ok response) eqn:Eok; simpl in H; [|discriminate].
  destruct (status response =? 204)%Z eqn:E204.
  - inversion H; subst. apply Z.eqb_eq in E204. repeat split; auto.
  - apply Z.eqb_neq in E204.
    destruct (Json.parse (body response)) eqn:Ep; [|discriminate].
    inversion H; subst. repeat split; auto.
Qed.

End Request.

(** ** Every operation is one request followed by local work *)

Lemma invoke_one_request (this : LoomClientImpl) (call : Call)
      (net : Network) (log : list FetchCall) :
  call <> TestConnection ->
  exists endpoint options,
    init_headers options = None
    /\ match request this endpoint options net log with
       | (Throw e, log') => invoke this call net log = (Throw e, log')
       | (Return _, log') => snd (invoke this call net log) = log'
       end.
Proof.
  intro Hcall.
  destruct call; try congruence; open_operation;
    match goal with
    | |- context [request this ?e ?o net log] => exists e, o
    end;
    (split; [reflexivity|]);
    destruct (request _ _ _ net log) as [[data|e] log']; try reflexivity;
    cbv [lift ret]; split_matches; reflexivity.
Qed.

(** [getCurrentUser] returns an object. *)
Lemma pick_Object (fields : list (string * string)) (src v : Value) :
  pick fields src = Return v -> exists props, v = Object props.
Proof.
  unfold pick, andThen. destruct (mapC _ fields); intro H; inversion H.
  eexists; reflexivity.
Qed.

Lemma getCurrentUser_Object (this : LoomClientImpl) (net : Network)
      (log log' : list FetchCall) (user : Value) :
  getCurrentUser this net log = (Return user, log') ->
  exists props, user = Object props.
Proof.
  unfold getCurrentUser, bind, lift.
  destruct (request _ _ _ net log) as [[data|e] l]; [|discriminate].
  intro H. inversion H. eapply pick_Object; eassumption.
Qed.

Lemma testConnection_outcome (this : LoomClientImpl) (net : Network)
      (log : list FetchCall) :
  testConnection this net log
  = (match fst (getCurrentUser this net log) with
     | Return user =>
         match interpolate (Spec.field user "name") with
         | Return text => Return (Spec.connected_as text)
         | Throw e => Return (Spec.not_connected (message e))
         end
     | Throw e => Return (Spec.not_connected (message e))
     end,
     snd (getCurrentUser this net log)).
Proof.
  unfold testConnection, try_catch, bind at 1.
  destruct (getCurrentUser this net log) as [[user|e] log'] eqn:E; simpl.
  - destruct (getCurrentUser_Object _ _ _ _ _ E) as [props ->].
    unfold bind, lift, ret. simpl.
    destruct (interpolate _) as [text|e]; [reflexivity|].
    rewrite instanceof_Error_always. reflexivity.
  - unfold ret. rewrite instanceof_Error_always. reflexivity.
Qed.

Lemma getCurrentUser_is_invoke (this : LoomClientImpl) :
  getCurrentUser this = invoke this GetCurrentUser.
Proof. reflexivity. Qed.

(** An operation other than testConnection throws what its request throws;
    testConnection reports it. *)
Lemma invoke_throws (this : LoomClientImpl) (call : Call) (net : Network)
      (log : list FetchCall) (e : Thrown) :
  (forall endpoint options,
      init_headers options = None ->
      fst (request this endpoint options net log) = Throw e) ->
  call <> TestConnection ->
  fst (invoke this call net log) = Throw e.
Proof.
  intros H Hcall.
  destruct (invoke_one_request this call net log Hcall)
    as (endpoint & options & Hh & Hr).
  specialize (H endpoint options Hh).
  destruct (request this endpoint options net log) as [[d|e'] log'];
    simpl in H; [discriminate|].
  inversion H; subst. rewrite Hr. reflexivity.
Qed.

Lemma testConnection_reports (this : LoomClientImpl) (net : Network)
      (log : list FetchCall) (e : Thrown) :
  (forall endpoint options,
      init_headers options = None ->
      fst (request this endpoint options net log) = Throw e) ->
  fst (invoke this TestConnection net log)
  = Return (Spec.not_connected (message e)).
Proof.
  intro H. simpl. rewrite testConnection_outcome. simpl.
  rewrite getCurrentUser_is_invoke.
  rewrite (invoke_throws this GetCurrentUser net log e H) by discriminate.
  reflexivity.
Qed.

(** With a token, an operation makes one call of [fetch], with the two
    headers. *)
Lemma invoke_log (this : LoomClientImpl) (call : Call) (net : Network)
      (log : list FetchCall) (token : string) :
  Env.accessToken (credentials this) = Some token ->
  token <> "" ->
  exists sent,
    snd (invoke this call net log) = (log ++ [sent])%list
    /\ request_headers sent = Spec.auth_headers token.
Proof.
  intros Ht Hne.
  assert (Hone : forall c, c <> TestConnection ->
            exists sent,
              snd (invoke this c net log) = (log ++ [sent])%list
              /\ request_headers sent = Spec.auth_headers token).
  { intros c Hc.
    destruct (invoke_one_request this c net log Hc)
      as (endpoint & options & Hh & Hr).
    assert (Hs : snd (invoke this c net log)
                 = snd (request this endpoint options net log)).
    { destruct (request this endpoint options net log) as [[d|e] log'];
        [exact Hr | rewrite Hr; reflexivity]. }
    exists (Spec.issued this endpoint options token). split.
    - rewrite Hs. apply request_log; assumption.
    - unfold Spec.issued. simpl. rewrite Hh. reflexivity. }
  destruct call; try (apply Hone; discriminate).
  simpl. rewrite testConnection_outcome. simpl.
  apply (Hone GetCurrentUser). discriminate.
Qed.

(** ** Occurrences *)

Lemma prefix_append (s q : string) : String.prefix s (s ++ q) = true.
Proof.
  induction s as [|c s IH]; simpl.
  - destruct q; reflexivity.
  - destruct (ascii_dec c c); [exact IH|congruence].
Qed.

Lemma occurs_unfold (needle text : string) :
  Spec.occurs needle text
  = if String.prefix needle text then true
    else match text with
         | String _ rest => Spec.occurs needle rest
         | EmptyString => false
         end.
Proof. destruct text; reflexivity. Qed.

Lemma occurs_here (s q : string) : Spec.occurs s (s ++ q) = true.
Proof. rewrite occurs_unfold, prefix_append. reflexivity. Qed.

Lemma occurs_later (p s q : string) : Spec.occurs s (p ++ s ++ q) = true.
Proof.
  induction p as [|c p IH].
  - simpl append. apply occurs_here.
  - rewrite occurs_unfold.
    change (String c p ++ s ++ q) with (String c (p ++ s ++ q)).
    cbv beta iota. rewrite IH.
    destruct (String.prefix s (String c (p ++ s ++ q))); reflexivity.
Qed.

Lemma occurs_at_end (p s : string) : Spec.occurs s (p ++ s) = true.
Proof.
  replace (p ++ s) with (p ++ s ++ "").
  - apply occurs_later.
  - f_equal. induction s; simpl; congruence.
Qed.

(** ** testConnection *)

(** C7. testConnection never propagates a failure: it always returns, and
    it makes the network calls of the user lookup and no other.  When the
    user lookup returns, the result has [connected: true] and a message
    that holds the user's name: the name itself when it is a string, as the
    wire type has it, and its string form whenever the name can be converted
    to a string.  When the user lookup throws, whatever was thrown, the
    result has [connected: false] and the message of the failure; the same
    holds when the conversion of the name throws (a name that is an object
    with a [toString] property of its own), the failure being the TypeError
    of the conversion. *)
Theorem testConnection_never_throws (this : LoomClientImpl) (net : Network)
        (log : list FetchCall) :
  exists result,
    invoke this TestConnection net log
    = (Return result, snd (invoke this GetCurrentUser net log))
    /\ match fst (invoke this GetCurrentUser net log) with
       | Return user =>
           (forall name,
               Spec.field user "name" = Str name ->
               result = Spec.connected_as name
               /\ Spec.occurs name (ToString (Spec.field result "message"))
                  = true)
           /\ (converts (Spec.field user "name") = true ->
               result = Spec.connected_as (ToString (Spec.field user "name"))
               /\ Spec.occurs (ToString (Spec.field user "name"))
                    (ToString (Spec.field result "message")) = true)
           /\ (converts (Spec.field user "name") = false ->
               exists text,
                 interpolate (Spec.field user "name") = Throw (TypeError text)
                 /\ result = Spec.not_connected text)
       | Throw failure => result = Spec.not_connected (message failure)
       end.
Proof.
  simpl invoke. rewrite testConnection_outcome.
  destruct (fst (getCurrentUser this net log)) as [user|failure].
  - unfold interpolate.
    destruct (converts (Spec.field user "name")) eqn:Ec.
    + eexists. split; [reflexivity|]. split; [|split].
      * intros name Hname. rewrite Hname. split; [reflexivity|].
        apply (occurs_at_end "Connected as ").
      * intros _. split; [reflexivity|].
        apply (occurs_at_end "Connected as ").
      * discriminate.
    + eexists. split; [reflexivity|]. split; [|split].
      * intros name Hname. rewrite Hname in Ec. discriminate.
      * discriminate.
      * intros _. eexists. split; reflexivity.
  - eexists. split; reflexivity.
Qed.

(** ** The token guard *)

(** Without a usable token nothing is sent: the operations other than
    testConnection throw, testConnection reports. *)
Lemma without_token (credentials : Env.TenantCredentials) :
  Env.accessToken credentials = None \/ Env.accessToken credentials = Some "" ->
  forall net log,
    (forall call,
        call <> TestConnection ->
        invoke (createLoomClient credentials) call net log
        = (Throw Spec.no_credentials, log))
    /\ invoke (createLoomClient credentials) TestConnection net log
       = (Return (Spec.not_connected (message Spec.no_credentials)), log).
Proof.
  intros Hmissing net log.
  set (this := createLoomClient credentials).
  assert (Hfalse : opt_string_truthy (Env.accessToken (Client.credentials this))
                   = false).
  { change (Client.credentials this) with credentials.
    destruct Hmissing as [-> | ->]; reflexivity. }
  assert (Hone : forall c, c <> TestConnection ->
            invoke this c net log = (Throw Spec.no_credentials, log)).
  { intros c Hc.
    destruct (invoke_one_request this c net log Hc)
      as (endpoint & options & _ & Hr).
    rewrite (request_no_token this endpoint options net log Hfalse) in Hr.
    exact Hr. }
  split; [exact Hone|].
  simpl invoke. rewrite testConnection_outcome, getCurrentUser_is_invoke.
  rewrite Hone by discriminate. reflexivity.
Qed.

(** C2, as amended.  Without a usable access token (absent or empty) every
    operation other than testConnection fails with the Authentication error
    and testConnection returns a non-connected result that carries the
    message of that error; in both cases no call of [fetch] is made.  With a
    token, every operation makes one call of [fetch], whose headers are
    exactly [Authorization: Bearer <token>] and
    [Content-Type: application/json]. *)
Theorem token_guard_and_headers (credentials : Env.TenantCredentials)
        (call : Call) (net : Network) (log : list FetchCall) :
  (Env.accessToken credentials = None \/ Env.accessToken credentials = Some "" ->
   (call <> TestConnection ->
    invoke (createLoomClient credentials) call net log
    = (Throw Spec.no_credentials, log))
   /\ invoke (createLoomClient credentials) TestConnection net log
      = (Return (Spec.not_connected (message Spec.no_credentials)), log))
  /\ (forall token,
        Env.accessToken credentials = Some token -> token <> "" ->
        exists sent,
          snd (invoke (createLoomClient credentials) call net log)
          = (log ++ [sent])%list
          /\ request_headers sent = Spec.auth_headers token).
Proof.
  split.
  - intro Hmissing.
    destruct (without_token credentials Hmissing net log) as [Hone Htest].
    split; [apply Hone | exact Htest].
  - intros token Ht Hne. apply invoke_log; assumption.
Qed.

(** C2, instance: a call without a token makes no request, a call with the
    token [tok] sends the two headers. *)
Lemma token_guard_and_headers_witness :
  invoke (createLoomClient {| Env.accessToken := Some ""; Env.baseUrl := None |})
    (DeleteVideo "v1") Spec.offline []
  = (Throw Spec.no_credentials, [])
  /\ exists sent,
      snd (invoke
             (createLoomClient
                {| Env.accessToken := Some "tok"; Env.baseUrl := None |})
             (DeleteVideo "v1") Spec.offline [])
      = [sent]
      /\ request_headers sent
         = [("Authorization", "Bearer tok"); ("Content-Type", "application/json")].
Proof.
  split.
  - apply (proj1 (token_guard_and_headers
                    {| Env.accessToken := Some ""; Env.baseUrl := None |}
                    (DeleteVideo "v1") Spec.offline [])).
    + right. reflexivity.
    + discriminate.
  - apply (proj2 (token_guard_and_headers
                    {| Env.accessToken := Some "tok"; Env.baseUrl := None |}
                    (DeleteVideo "v1") Spec.offline []) "tok").
    + reflexivity.
    + discriminate.
Defined.

(** C2, counterexample: testConnection is called with an empty access
    token.  The call does not fail with the Authentication error: it
    returns a result. *)
Lemma testConnection_without_token_returns :
  invoke (createLoomClient {| Env.accessToken := Some ""; Env.baseUrl := None |})
    TestConnection Spec.offline []
  = (Return
       (Object
          [("connected", Bool false);
           ("message",
             Str "No credentials provided. Include X-Loom-Access-Token header.")]),
     [])
  /\ fst (invoke
            (createLoomClient
               {| Env.accessToken := Some ""; Env.baseUrl := None |})
            TestConnection Spec.offline [])
     <> Throw Spec.no_credentials.
Proof. split; [reflexivity | discriminate]. Qed.

(** ** Number.parseInt *)

Lemma digits_prefix_started (s : string) (a : Z) :
  digits_prefix s (Some a) <> None.
Proof.
  revert a. induction s as [|c s IH]; intro a; simpl.
  - discriminate.
  - destruct (digit_value c); [apply IH | discriminate].
Qed.

Lemma digit_is_no_sign (c : ascii) (d : Z) :
  digit_value c = Some d -> (Ascii.eqb c "+" || Ascii.eqb c "-")%bool = false.
Proof.
  intro H.
  destruct (Ascii.eqb c "+") eqn:Ep.
  - apply Ascii.eqb_eq in Ep. subst. discriminate.
  - destruct (Ascii.eqb c "-") eqn:Em; [|reflexivity].
    apply Ascii.eqb_eq in Em. subst. discriminate.
Qed.

(** [parseInt] gives [NaN] exactly when no integer is in front. *)
Lemma parseInt_NaN (v : string) :
  parseInt v = NaN <-> Spec.integer_in_front v = false.
Proof.
  unfold parseInt, Spec.integer_in_front.
  destruct (trim_start v) as [|c rest]; simpl.
  - split; reflexivity.
  - destruct (digit_value c) as [d|] eqn:Ed.
    + rewrite (digit_is_no_sign c d Ed). simpl. rewrite Ed.
      match goal with
      | |- context [digits_prefix ?a ?b] => destruct (digits_prefix a b) eqn:E
      end.
      * split; discriminate.
      * now apply digits_prefix_started in E.
    + rewrite (Bool.orb_comm (Ascii.eqb c "-")).
      destruct (Ascii.eqb c "+" || Ascii.eqb c "-")%bool.
      * destruct rest as [|c' rest']; simpl; [split; reflexivity|].
        destruct (digit_value c') as [d'|].
        -- match goal with
           | |- context [digits_prefix ?a ?b] =>
               destruct (digits_prefix a b) eqn:E
           end.
           ++ split; discriminate.
           ++ now apply digits_prefix_started in E.
        -- split; reflexivity.
      * simpl. rewrite Ed. split; reflexivity.
Qed.

(** ** Classification of the response *)

Section Classification.

Variable credentials : Env.TenantCredentials.
Variable token : string.
Variable r : Response.
Variable net : Network.
Variable log : list FetchCall.

Hypothesis has_token : Env.accessToken credentials = Some token.
Hypothesis token_nonempty : token <> "".
Hypothesis answer : forall c, net c = Fulfilled r.

Abbreviation this := (createLoomClient credentials).

Lemma rate_limited :
  status r = 429 ->
  forall endpoint options,
    fst (request this endpoint options net log)
    = Throw (RateLimitError "Rate limit exceeded"
               (match Headers_get (headers r) "Retry-After" with
                | Some v => if string_truthy v then parseInt v else Int 60
                | None => Int 60
                end)).
Proof.
  intros Hs endpoint options.
  rewrite (request_fulfilled this endpoint options net log token r
             has_token token_nonempty (answer _)).
  rewrite Hs. reflexivity.
Qed.

Lemma other_failure :
  ok r = false ->
  status r <> 429 -> status r <> 401 -> status r <> 403 -> status r <> 404 ->
  forall endpoint options,
    fst (request this endpoint options net log)
    = Throw (LoomApiError (error_message r) (status r) None).
Proof.
  intros Hok H429 H401 H403 H404 endpoint options.
  rewrite (request_fulfilled this endpoint options net log token r
             has_token token_nonempty (answer _)).
  apply Z.eqb_neq in H429, H401, H403, H404.
  rewrite H429, H401, H403, H404, Hok. reflexivity.
Qed.

Lemma answered_ok (data : Value) :
  ok r = true ->
  status r <> 204 ->
  Json.parse (body r) = Some data ->
  forall endpoint options,
    request this endpoint options net log
    = (Return data, (log ++ [Spec.issued this endpoint options token])%list).
Proof.
  intros Hok H204 Hparse endpoint options.
  rewrite (request_fulfilled this endpoint options net log token r
             has_token token_nonempty (answer _)).
  unfold ok in Hok. apply andb_prop in Hok. destruct Hok as [Hlo Hhi].
  apply Z.leb_le in Hlo, Hhi.
  assert (H429 : (status r =? 429)%Z = false) by (apply Z.eqb_neq; lia).
  assert (H401 : (status r =? 401)%Z = false) by (apply Z.eqb_neq; lia).
  assert (H403 : (status r =? 403)%Z = false) by (apply Z.eqb_neq; lia).
  assert (H404 : (status r =? 404)%Z = false) by (apply Z.eqb_neq; lia).
  apply Z.eqb_neq in H204.
  rewrite H429, H401, H403, H404, H204, Hparse.
  unfold ok. apply Z.leb_le in Hlo, Hhi. rewrite Hlo, Hhi. reflexivity.
Qed.

End Classification.

Lemma error_message_cases (r : Response) :
  let fallback := Str ("API error: " ++ number_to_string (Int (status r))) in
  match Json.parse (body r) with
  | None => error_message r = fallback
  | Some json =>
      (ToBoolean (Spec.field json "message") = true ->
       error_message r = Spec.field json "message")
      /\ (ToBoolean (Spec.field json "message") = false ->
          ToBoolean (Spec.field json "error") = true ->
          error_message r = Spec.field json "error")
      /\ (ToBoolean (Spec.field json "message") = false ->
          ToBoolean (Spec.field json "error") = false ->
          error_message r = fallback)
  end.
Proof.
  unfold error_message. destruct (Json.parse (body r)) as [json|]; simpl.
  2:{ reflexivity. }
  destruct json; simpl;
    try (repeat split; intros; try discriminate; reflexivity).
  unfold or_else.
  destruct (ToBoolean _) eqn:Em; simpl.
  - repeat split; intros; try discriminate; reflexivity.
  - destruct (ToBoolean (match lookup "error" properties with
                         | Some x => x
                         | None => Undefined
                         end)) eqn:Ee;
      repeat split; intros; try discriminate; reflexivity.
Qed.

(** ** Rate limiting *)

(** C3, as amended.  For every operation other than testConnection, a
    response with status 429 yields a RateLimit failure; its retry-after
    value is [Number.parseInt] of the Retry-After header when that header is
    present with a non-empty value (the value 30 for the header value
    [30]), and is 60 when the header is absent or its value is empty.
    testConnection reports the same failure in a non-connected result. *)
Theorem rate_limit_retry_after (credentials : Env.TenantCredentials)
        (token : string) (call : Call) (r : Response) (net : Network)
        (log : list FetchCall) :
  Env.accessToken credentials = Some token ->
  token <> "" ->
  (forall c, net c = Fulfilled r) ->
  status r = 429 ->
  exists retry,
    (call <> TestConnection ->
     fst (invoke (createLoomClient credentials) call net log)
     = Throw (RateLimitError "Rate limit exceeded" retry))
    /\ fst (invoke (createLoomClient credentials) TestConnection net log)
       = Return (Spec.not_connected "Rate limit exceeded")
    /\ (forall v,
          Headers_get (headers r) "Retry-After" = Some v -> v <> "" ->
          retry = parseInt v)
    /\ (Headers_get (headers r) "Retry-After" = Some "30" -> retry = Int 30)
    /\ (Headers_get (headers r) "Retry-After" = None
        \/ Headers_get (headers r) "Retry-After" = Some "" ->
        retry = Int 60).
Proof.
  intros Ht Hne Hnet Hs.
  pose proof (rate_limited credentials token r net log Ht Hne Hnet Hs) as Hr.
  eexists. split; [|split; [|split; [|split]]].
  - apply invoke_throws. intros endpoint options _. apply Hr.
  - rewrite (testConnection_reports _ net log _ (fun e o _ => Hr e o)).
    reflexivity.
  - intros v Hv Hv'. rewrite Hv.
    apply string_truthy_nonempty in Hv'. rewrite Hv'. reflexivity.
  - intros Hv. rewrite Hv. reflexivity.
  - intros [Hv|Hv]; rewrite Hv; reflexivity.
Qed.

(** C3, instance: the header [Retry-After: 30] on a 429 response. *)
Lemma rate_limit_retry_after_witness :
  fst (invoke
         (createLoomClient
            {| Env.accessToken := Some "tok"; Env.baseUrl := None |})
         (GetVideo "v1")
         (Spec.answers (Spec.respond 429 [("Retry-After", "30")] "")) [])
  = Throw (RateLimitError "Rate limit exceeded" (Int 30)).
Proof.
  destruct (rate_limit_retry_after
              {| Env.accessToken := Some "tok"; Env.baseUrl := None |}
              "tok" (GetVideo "v1")
              (Spec.respond 429 [("Retry-After", "30")] "")
              (Spec.answers (Spec.respond 429 [("Retry-After", "30")] "")) [])
    as (retry & Hthrow & _ & _ & H30 & _).
  - reflexivity.
  - discriminate.
  - reflexivity.
  - reflexivity.
  - rewrite Hthrow by discriminate. rewrite H30 by reflexivity. reflexivity.
Defined.

(** C3, counterexample: a 429 response whose Retry-After header is present,
    with the empty value.  The failure carries 60, which is not what parsing
    the header gives ([NaN]).  And testConnection, on a 429 response, does
    not fail. *)
Lemma empty_retry_after_is_present_not_parsed :
  Headers_get (headers (Spec.respond 429 [("Retry-After", "")] ""))
    "Retry-After" = Some ""
  /\ fst (invoke
            (createLoomClient
               {| Env.accessToken := Some "tok"; Env.baseUrl := None |})
            (GetVideo "v1")
            (Spec.answers (Spec.respond 429 [("Retry-After", "")] "")) [])
     = Throw (RateLimitError "Rate limit exceeded" (Int 60))
  /\ parseInt "" = NaN
  /\ fst (invoke
            (createLoomClient
               {| Env.accessToken := Some "tok"; Env.baseUrl := None |})
            (GetVideo "v1")
            (Spec.answers (Spec.respond 429 [("Retry-After", "")] "")) [])
     <> Throw (RateLimitError "Rate limit exceeded" (parseInt ""))
  /\ fst (invoke
            (createLoomClient
               {| Env.accessToken := Some "tok"; Env.baseUrl := None |})
            TestConnection
            (Spec.answers (Spec.respond 429 [("Retry-After", "30")] "")) [])
     = Return (Spec.not_connected "Rate limit exceeded").
Proof. repeat split. discriminate. Qed.

(** C10, as amended.  When a 429 response carries a Retry-After header whose
    value is not empty and has no integer in front (the value [abc], say),
    the retry-after value of the RateLimit failure is [NaN], not 60: a
    header with a non-empty value is always parsed.  The default 60 is what
    an absent header, or one with the empty value, gives. *)
Theorem unparseable_retry_after_is_NaN (credentials : Env.TenantCredentials)
        (token : string) (call : Call) (r : Response) (net : Network)
        (log : list FetchCall) :
  Env.accessToken credentials = Some token ->
  token <> "" ->
  (forall c, net c = Fulfilled r) ->
  status r = 429 ->
  call <> TestConnection ->
  exists retry,
    fst (invoke (createLoomClient credentials) call net log)
    = Throw (RateLimitError "Rate limit exceeded" retry)
    /\ (forall v,
          Headers_get (headers r) "Retry-After" = Some v -> v <> "" ->
          Spec.integer_in_front v = false ->
          retry = NaN /\ retry <> Int 60)
    /\ (Headers_get (headers r) "Retry-After" = Some "abc" -> retry = NaN)
    /\ (forall v,
          Headers_get (headers r) "Retry-After" = Some v -> v <> "" ->
          retry = parseInt v)
    /\ (Headers_get (headers r) "Retry-After" = None
        \/ Headers_get (headers r) "Retry-After" = Some "" ->
        retry = Int 60).
Proof.
  intros Ht Hne Hnet Hs Hcall.
  pose proof (rate_limited credentials token r net log Ht Hne Hnet Hs) as Hr.
  eexists. split; [|split; [|split; [|split]]].
  - apply invoke_throws; [|exact Hcall]. intros endpoint options _. apply Hr.
  - intros v Hv Hv' Hnone. rewrite Hv.
    apply string_truthy_nonempty in Hv'. rewrite Hv'.
    apply parseInt_NaN in Hnone. rewrite Hnone. split; [reflexivity|discriminate].
  - intros Hv. rewrite Hv. reflexivity.
  - intros v Hv Hv'. rewrite Hv.
    apply string_truthy_nonempty in Hv'. rewrite Hv'. reflexivity.
  - intros [Hv|Hv]; rewrite Hv; reflexivity.
Qed.

(** C10, instance: the header [Retry-After: abc] on a 429 response. *)
Lemma unparseable_retry_after_is_NaN_witness :
  fst (invoke
         (createLoomClient
            {| Env.accessToken := Some "tok"; Env.baseUrl := None |})
         (ListFolders None)
         (Spec.answers (Spec.respond 429 [("Retry-After", "abc")] "")) [])
  = Throw (RateLimitError "Rate limit exceeded" NaN).
Proof.
  destruct (unparseable_retry_after_is_NaN
              {| Env.accessToken := Some "tok"; Env.baseUrl := None |}
              "tok" (ListFolders None)
              (Spec.respond 429 [("Retry-After", "abc")] "")
              (Spec.answers (Spec.respond 429 [("Retry-After", "abc")] "")) [])
    as (retry & Hthrow & _ & Habc & _).
  - reflexivity.
  - discriminate.
  - reflexivity.
  - reflexivity.
  - discriminate.
  - rewrite Hthrow. rewrite Habc by reflexivity. reflexivity.
Defined.

(** C10, counterexample: the header is there and its value, the empty
    string, is no integer; the failure carries the default 60 and not
    [NaN]. *)
Lemma empty_retry_after_takes_the_default :
  Headers_get (headers (Spec.respond 429 [("retry-after", "")] ""))
    "Retry-After" = Some ""
  /\ Spec.integer_in_front "" = false
  /\ fst (invoke
            (createLoomClient
               {| Env.accessToken := Some "tok"; Env.baseUrl := None |})
            (ListVideos None)
            (Spec.answers (Spec.respond 429 [("retry-after", "")] "")) [])
     = Throw (RateLimitError "Rate limit exceeded" (Int 60))
  /\ fst (invoke
            (createLoomClient
               {| Env.accessToken := Some "tok"; Env.baseUrl := None |})
            (ListVideos None)
            (Spec.answers (Spec.respond 429 [("retry-after", "")] "")) [])
     <> Throw (RateLimitError "Rate limit exceeded" NaN).
Proof. repeat split. discriminate. Qed.

(** ** Other failures *)

(** C4, as amended.  For every operation other than testConnection, a
    response that is not ok and whose status is none of 429, 401, 403 and
    404 yields a generic API failure that carries the status code.  Its
    message is the [message] field of the JSON body when that field is
    truthy, else the [error] field when that one is truthy, and is
    [API error: <status>] when the body does not parse as JSON or neither
    field holds a truthy value (a field that is absent, empty, null, zero
    or false).  testConnection reports the same message in a non-connected
    result. *)
Theorem api_error_message (credentials : Env.TenantCredentials)
        (token : string) (call : Call) (r : Response) (net : Network)
        (log : list FetchCall) :
  Env.accessToken credentials = Some token ->
  token <> "" ->
  (forall c, net c = Fulfilled r) ->
  ok r = false ->
  status r <> 429 -> status r <> 401 -> status r <> 403 -> status r <> 404 ->
  exists text,
    (call <> TestConnection ->
     fst (invoke (createLoomClient credentials) call net log)
     = Throw (LoomApiError text (status r) None))
    /\ fst (invoke (createLoomClient credentials) TestConnection net log)
       = Return (Spec.not_connected (ToString text))
    /\ match Json.parse (body r) with
       | None => text = Str ("API error: " ++ string_of_Z (status r))
       | Some json =>
           (ToBoolean (Spec.field json "message") = true ->
            text = Spec.field json "message")
           /\ (ToBoolean (Spec.field json "message") = false ->
               ToBoolean (Spec.field json "error") = true ->
               text = Spec.field json "error")
           /\ (ToBoolean (Spec.field json "message") = false ->
               ToBoolean (Spec.field json "error") = false ->
               text = Str ("API error: " ++ string_of_Z (status r)))
       end.
Proof.
  intros Ht Hne Hnet Hok H429 H401 H403 H404.
  pose proof (other_failure credentials token r net log Ht Hne Hnet
                Hok H429 H401 H403 H404) as Hr.
  exists (error_message r). split; [|split].
  - apply invoke_throws. intros endpoint options _. apply Hr.
  - rewrite (testConnection_reports _ net log _ (fun e o _ => Hr e o)).
    reflexivity.
  - exact (error_message_cases r).
Qed.

(** C4, instance: status 500 with a body whose [message] is a text. *)
Lemma api_error_message_witness :
  fst (invoke
         (createLoomClient
            {| Env.accessToken := Some "tok"; Env.baseUrl := None |})
         (GetVideo "v1")
         (Spec.answers
            (Spec.respond 500 [] "{'message':'Upstream is down','error':'E17'}"))
         [])
  = Throw (LoomApiError (Str "Upstream is down") 500 None).
Proof.
  destruct (api_error_message
              {| Env.accessToken := Some "tok"; Env.baseUrl := None |}
              "tok" (GetVideo "v1")
              (Spec.respond 500 [] "{'message':'Upstream is down','error':'E17'}")
              (Spec.answers
                 (Spec.respond 500 []
                    "{'message':'Upstream is down','error':'E17'}"))
              [])
    as (text & Hthrow & _ & Hcases).
  - reflexivity.
  - discriminate.
  - reflexivity.
  - reflexivity.
  - discriminate.
  - discriminate.
  - discriminate.
  - discriminate.
  - rewrite Hthrow by discriminate.
    vm_compute in Hcases. destruct Hcases as (Hm & _).
    rewrite Hm by reflexivity. reflexivity.
Defined.

(** C4, counterexample: status 500 with the body [{"message":""}].  The
    body parses and has a [message] field, yet the failure does not carry
    that field: it carries the default text.  And testConnection, on a
    status 500, does not fail. *)
Lemma empty_message_field_gives_default_text :
  Json.parse (body (Spec.respond 500 [] "{'message':''}"))
  = Some (Object [("message", Str "")])
  /\ fst (invoke
            (createLoomClient
               {| Env.accessToken := Some "tok"; Env.baseUrl := None |})
            (GetVideo "v1")
            (Spec.answers (Spec.respond 500 [] "{'message':''}")) [])
     = Throw (LoomApiError (Str "API error: 500") 500 None)
  /\ fst (invoke
            (createLoomClient
               {| Env.accessToken := Some "tok"; Env.baseUrl := None |})
            (GetVideo "v1")
            (Spec.answers (Spec.respond 500 [] "{'message':''}")) [])
     <> Throw (LoomApiError (Str "") 500 None)
  /\ fst (invoke
            (createLoomClient
               {| Env.accessToken := Some "tok"; Env.baseUrl := None |})
            TestConnection
            (Spec.answers (Spec.respond 500 [] "{'message':'Upstream is down'}"))
            [])
     = Return (Spec.not_connected "Upstream is down").
Proof.
  split; [vm_compute; reflexivity|]. split; [vm_compute; reflexivity|].
  split; [vm_compute; discriminate|]. vm_compute. reflexivity.
Qed.

(** ** Listings *)

Lemma paginated_returns (key : string) (fields : list (string * string))
      (data result : Value) :
  paginated key fields data = Return result ->
  exists items,
    result = Spec.page items (Spec.field data "next_cursor")
               (ToBoolean (Spec.field data "next_cursor")).
Proof.
  unfold paginated, andThen.
  destruct data; simpl; try discriminate.
  destruct (Array_map _ _ _) as [items|]; [|discriminate].
  intro H. inversion H. exists items. reflexivity.
Qed.

(** A listing is one request without options, then [paginated]. *)
Lemma listing_shape (this : LoomClientImpl) (call : Call) :
  is_listing call = true ->
  exists endpoint key fields,
    invoke this call
    = (data <- request this endpoint no_options ;;
       lift (paginated key fields data)).
Proof.
  destruct call; try discriminate; intros _; do 3 eexists; reflexivity.
Qed.

Lemma cursor_presence (cursor : Value) :
  Spec.cursor_typed cursor ->
  (ToBoolean cursor = true <-> Spec.nonempty_cursor cursor).
Proof.
  unfold Spec.nonempty_cursor.
  intros [-> | [-> | [s ->]]]; simpl.
  - split; [discriminate | intros (s & H & _); discriminate].
  - split; [discriminate | intros (s & H & _); discriminate].
  - rewrite string_truthy_nonempty. split.
    + intro H. exists s. auto.
    + intros (s' & H & Hne). inversion H. subst. exact Hne.
Qed.

(** C1. Whatever a listing operation (listVideos, listFolders, listSpaces,
    listSpaceVideos, searchVideos) returns is built from the body of the
    response: its [nextCursor] is the [next_cursor] of the wire data and its
    [hasMore] is the truth value of that same cursor, whatever the items
    are.  For a cursor of the declared wire type (a string, or nothing),
    [hasMore] is true if and only if [nextCursor] is a non-empty string. *)
Theorem listing_hasMore_iff_cursor (this : LoomClientImpl) (call : Call)
        (net : Network) (log log' : list FetchCall) (result : Value) :
  is_listing call = true ->
  invoke this call net log = (Return result, log') ->
  exists sent response data items,
    log' = (log ++ [sent])%list
    /\ net sent = Fulfilled response
    /\ Json.parse (body response) = Some data
    /\ result = Spec.page items (Spec.field data "next_cursor")
                  (ToBoolean (Spec.field data "next_cursor"))
    /\ Spec.field result "hasMore"
       = Bool (ToBoolean (Spec.field result "nextCursor"))
    /\ (Spec.cursor_typed (Spec.field data "next_cursor") ->
        (Spec.field result "hasMore" = Bool true
         <-> Spec.nonempty_cursor (Spec.field result "nextCursor"))).
Proof.
  intros Hlisting Hrun.
  destruct (listing_shape this call Hlisting) as (endpoint & key & fields & Hshape).
  rewrite Hshape in Hrun. unfold bind, lift in Hrun.
  destruct (request this endpoint no_options net log) as [[data|e] l] eqn:Hreq;
    [|discriminate].
  inversion Hrun as [[Hpage Hlog]]. subst l.
  destruct (request_returns _ _ _ _ _ _ _ Hreq)
    as (token & response & _ & _ & Hnet & Hlog & _ & Hbody).
  destruct (paginated_returns _ _ _ _ Hpage) as (items & Hresult).
  destruct Hbody as [[_ Hdata] | [_ Hparse]].
  { subst data. discriminate. }
  exists (Spec.issued this endpoint no_options token), response, data, items.
  subst result.
  change (Spec.field (Spec.page items (Spec.field data "next_cursor")
                        (ToBoolean (Spec.field data "next_cursor"))) "hasMore")
    with (Bool (ToBoolean (Spec.field data "next_cursor"))).
  change (Spec.field (Spec.page items (Spec.field data "next_cursor")
                        (ToBoolean (Spec.field data "next_cursor")))
            "nextCursor")
    with (Spec.field data "next_cursor").
  split; [exact Hlog|]. split; [exact Hnet|]. split; [exact Hparse|].
  split; [reflexivity|]. split; [reflexivity|].
  intro Htyped. rewrite <- (cursor_presence _ Htyped).
  split; intro Hb; [injection Hb as Hb'; exact Hb' | f_equal; exact Hb].
Qed.

(** C1, instance: a page of no items with a cursor has more; the cursor,
    not the number of items, decides. *)
Lemma listing_hasMore_iff_cursor_witness :
  invoke
    (createLoomClient {| Env.accessToken := Some "tok"; Env.baseUrl := None |})
    (ListVideos None)
    (Spec.answers (Spec.respond 200 [] "{'videos':[],'next_cursor':'p2'}")) []
  = (Return (Spec.page [] (Str "p2") true),
     [{| url := "https://api.loom.com/v1/videos"; method := None;
         request_headers := Spec.auth_headers "tok";
         request_body := None |}])
  /\ (Spec.field (Spec.page [] (Str "p2") true) "hasMore" = Bool true
      <-> Spec.nonempty_cursor
            (Spec.field (Spec.page [] (Str "p2") true) "nextCursor")).
Proof.
  assert (Hrun :
    invoke
      (createLoomClient {| Env.accessToken := Some "tok"; Env.baseUrl := None |})
      (ListVideos None)
      (Spec.answers (Spec.respond 200 [] "{'videos':[],'next_cursor':'p2'}")) []
    = (Return (Spec.page [] (Str "p2") true),
       [{| url := "https://api.loom.com/v1/videos"; method := None;
           request_headers := Spec.auth_headers "tok";
           request_body := None |}])).
  { vm_compute. reflexivity. }
  split; [exact Hrun|].
  destruct (listing_hasMore_iff_cursor _ (ListVideos None) _ _ _ _ eq_refl Hrun)
    as (sent & response & data & items & _ & Hnet & Hparse & _ & _ & Hiff).
  apply Hiff.
  unfold Spec.answers in Hnet. injection Hnet as Hresponse. subst response.
  vm_compute in Hparse. injection Hparse as Hdata. subst data.
  right. right. exists "p2". reflexivity.
Defined.

(** A page of items without a cursor has no more, a page without items
    but with a cursor has: searchVideos and listFolders. *)
Example hasMore_follows_the_cursor :
  fst (invoke
         (createLoomClient
            {| Env.accessToken := Some "tok"; Env.baseUrl := None |})
         (SearchVideos "demo" None)
         (Spec.answers
            (Spec.respond 200 []
               "{'videos':[{'id':'a'},{'id':'b'},{'id':'c'}],'next_cursor':''}"))
         [])
  = Return
      (Spec.page
         [Object (List.map (fun f => (fst f, Spec.field (Object [("id", Str "a")]) (snd f)))
                    search_video_fields);
          Object (List.map (fun f => (fst f, Spec.field (Object [("id", Str "b")]) (snd f)))
                    search_video_fields);
          Object (List.map (fun f => (fst f, Spec.field (Object [("id", Str "c")]) (snd f)))
                    search_video_fields)]
         (Str "") false)
  /\ fst (invoke
            (createLoomClient
               {| Env.accessToken := Some "tok"; Env.baseUrl := None |})
            (ListFolders None)
            (Spec.answers
               (Spec.respond 200 [] "{'folders':[],'next_cursor':'c2'}"))
            [])
     = Return (Spec.page [] (Str "c2") true).
Proof. split; vm_compute; reflexivity. Qed.

(** ** Transcripts *)

(** Segments are mapped one by one, and the texts of the mapped segments
    are the texts of the segments, in order. *)
Lemma segments_mapped (segments : list Value) :
  Forall Spec.readable segments ->
  exists transcript,
    mapC (pick segment_fields) segments = Return transcript
    /\ mapC (fun t => get t "text") transcript
       = Return (List.map (fun seg => Spec.field seg "text") segments)
    /\ List.map (fun t => Spec.field t "text") transcript
       = List.map (fun seg => Spec.field seg "text") segments.
Proof.
  induction 1 as [|seg segments Hseg _ (transcript & Hmap & Hread & Htexts)].
  - exists []. repeat split.
  - exists (Object (List.map (fun f => (fst f, Spec.field seg (snd f)))
                      segment_fields) :: transcript).
    repeat split.
    + rewrite mapC_cons, (pick_readable segment_fields seg Hseg), Hmap.
      reflexivity.
    + rewrite mapC_cons, Hread. reflexivity.
    + simpl List.map at 1. rewrite Htexts. reflexivity.
Qed.

(** Segments of the wire type, whose texts are strings, are readable. *)
Lemma text_field_is_readable (seg : Value) (s : string) :
  Spec.field seg "text" = Str s -> Spec.readable seg.
Proof.
  destruct seg; simpl; try discriminate. intros _. split; discriminate.
Qed.

Lemma texts_are_readable (segments : list Value) (texts : list string) :
  List.map (fun seg => Spec.field seg "text") segments = List.map Str texts ->
  Forall Spec.readable segments.
Proof.
  revert texts. induction segments as [|seg segments IH]; intros texts H.
  - constructor.
  - destruct texts as [|s texts]; [discriminate|].
    simpl in H. injection H as Hseg Hrest. constructor.
    + exact (text_field_is_readable seg s Hseg).
    + exact (IH texts Hrest).
Qed.

Lemma join_of_strings (texts : list string) (sep : string) :
  Array_join (List.map Str texts) sep = String.concat sep texts.
Proof.
  unfold Array_join. rewrite List.map_map. f_equal.
  induction texts as [|s texts IH]; simpl; [reflexivity|].
  f_equal. exact IH.
Qed.

Lemma strings_convert (texts : list string) :
  converts (Array (List.map Str texts)) = true.
Proof. induction texts as [|s texts IH]; [reflexivity | exact IH]. Qed.

(** C5. For every list of transcript segments that the wire returns,
    getTranscript returns a [fullText] that is the [text] fields of the
    segments joined by a single space, in the order of the segments: with
    string texts, as the wire type has them, those strings joined by a
    space; and in general, whenever the texts can be converted to strings,
    what [join] makes of them.  The text is computed from the [transcript]
    field alone: whatever else the response holds has no part in it.  When
    a text cannot be converted (an object with a [toString] property of its
    own) the join throws a TypeError and nothing is returned. *)
Theorem transcript_fullText_joined (credentials : Env.TenantCredentials)
        (token videoId : string) (r : Response) (data : Value)
        (segments : list Value) (net : Network) (log : list FetchCall) :
  Env.accessToken credentials = Some token ->
  token <> "" ->
  (forall c, net c = Fulfilled r) ->
  ok r = true ->
  status r <> 204 ->
  Json.parse (body r) = Some data ->
  Spec.field data "transcript" = Array segments ->
  Forall Spec.readable segments ->
  exists transcript,
    List.map (fun t => Spec.field t "text") transcript
    = List.map (fun seg => Spec.field seg "text") segments
    /\ (forall texts,
          List.map (fun seg => Spec.field seg "text") segments
          = List.map Str texts ->
          fst (invoke (createLoomClient credentials) (GetTranscript videoId)
                 net log)
          = Return (Object [("transcript", Array transcript);
                            ("fullText", Str (String.concat " " texts))]))
    /\ (converts
          (Array (List.map (fun seg => Spec.field seg "text") segments))
        = true ->
        fst (invoke (createLoomClient credentials) (GetTranscript videoId)
               net log)
        = Return
            (Object
               [("transcript", Array transcript);
                ("fullText",
                  Str (Array_join
                         (List.map (fun seg => Spec.field seg "text")
                            segments)
                         " "))]))
    /\ (converts
          (Array (List.map (fun seg => Spec.field seg "text") segments))
        = false ->
        exists text,
          fst (invoke (createLoomClient credentials) (GetTranscript videoId)
                 net log)
          = Throw (TypeError text)).
Proof.
  intros Ht Hne Hnet Hok H204 Hparse Hfield Hreadable.
  destruct (segments_mapped segments Hreadable)
    as (transcript & Hmap & Hread & Htexts).
  exists transcript. split; [exact Htexts|].
  assert (Hrun : fst (invoke (createLoomClient credentials)
                        (GetTranscript videoId) net log)
                 = (fullText <~ join (List.map (fun seg => Spec.field seg "text")
                                        segments) " " ;;
                    Return (Object [("transcript", Array transcript);
                                    ("fullText", Str fullText)]))).
  { simpl invoke. unfold getTranscript, bind.
    rewrite (answered_ok credentials token r net log Ht Hne Hnet data
               Hok H204 Hparse).
    unfold lift. simpl fst.
    destruct data; simpl in Hfield; try discriminate.
    change (get (Object properties) "transcript")
      with (Return (Spec.field (Object properties) "transcript")).
    simpl Spec.field. rewrite Hfield.
    unfold andThen at 1. unfold Array_map. rewrite Hmap.
    unfold andThen at 1. rewrite Hread. reflexivity. }
  rewrite Hrun. unfold join. split; [|split].
  - intros texts Hstrings.
    rewrite Hstrings, strings_convert, join_of_strings. reflexivity.
  - intros Hc. rewrite Hc. reflexivity.
  - intros Hc. rewrite Hc. eexists. reflexivity.
Qed.

(** C5, instance: the segments [Hello] and [world] give [Hello world],
    though the server also sends a text of its own. *)
Lemma transcript_fullText_joined_witness :
  exists transcript,
    fst (invoke
           (createLoomClient
              {| Env.accessToken := Some "tok"; Env.baseUrl := None |})
           (GetTranscript "v1")
           (Spec.answers
              (Spec.respond 200 []
                 "{'transcript':[{'start_time':0,'end_time':2,'text':'Hello'},{'start_time':2,'end_time':5,'text':'world'}],'full_text':'from the server'}"))
           [])
    = Return (Object [("transcript", Array transcript);
                      ("fullText", Str "Hello world")])
    /\ List.map (fun t => Spec.field t "text") transcript
       = [Str "Hello"; Str "world"].
Proof.
  destruct (transcript_fullText_joined
              {| Env.accessToken := Some "tok"; Env.baseUrl := None |}
              "tok" "v1"
              (Spec.respond 200 []
                 "{'transcript':[{'start_time':0,'end_time':2,'text':'Hello'},{'start_time':2,'end_time':5,'text':'world'}],'full_text':'from the server'}")
              (Object
                 [("transcript",
                    Array
                      [Object [("start_time", Number (Int 0));
                               ("end_time", Number (Int 2));
                               ("text", Str "Hello")];
                       Object [("start_time", Number (Int 2));
                               ("end_time", Number (Int 5));
                               ("text", Str "world")]]);
                  ("full_text", Str "from the server")])
              [Object [("start_time", Number (Int 0));
                       ("end_time", Number (Int 2));
                       ("text", Str "Hello")];
               Object [("start_time", Number (Int 2));
                       ("end_time", Number (Int 5));
                       ("text", Str "world")]]
              (Spec.answers
                 (Spec.respond 200 []
                    "{'transcript':[{'start_time':0,'end_time':2,'text':'Hello'},{'start_time':2,'end_time':5,'text':'world'}],'full_text':'from the server'}"))
              [])
    as (transcript & Htexts & Hstrings & _ & _).
  - reflexivity.
  - discriminate.
  - reflexivity.
  - reflexivity.
  - discriminate.
  - vm_compute. reflexivity.
  - reflexivity.
  - repeat constructor; discriminate.
  - exists transcript. split.
    + exact (Hstrings ["Hello"; "world"] eq_refl).
    + exact Htexts.
Defined.

(** ** Embed HTML *)

Lemma append_assoc (a b c : string) : (a ++ b) ++ c = a ++ b ++ c.
Proof.
  induction a as [|x a IH]; simpl; [reflexivity|]. rewrite IH. reflexivity.
Qed.

(** C6, as amended.  For every video and every choice of parameters,
    getEmbedHtml returns an iframe whose [src] is the embed URL of the video
    when it is known (a non-empty string), else
    [https://www.loom.com/embed/<videoId>] (no embed URL, or a falsy one),
    followed by [?autoplay=1] if and only if the autoplay flag is true; its
    [width] and [height] are the given values when these are numbers other
    than zero, and 640 and 360 otherwise (no value given, or the value
    zero).  An embed URL that is truthy without being a string is used in
    its string form, and one that has none (an object with a [toString]
    property of its own) makes the call throw a TypeError. *)
Theorem embed_html_shape (credentials : Env.TenantCredentials)
        (token videoId : string) (params : option EmbedParams) (r : Response)
        (video : list (string * Value)) (net : Network) (log : list FetchCall) :
  Env.accessToken credentials = Some token ->
  token <> "" ->
  (forall c, net c = Fulfilled r) ->
  ok r = true ->
  status r <> 204 ->
  Json.parse (body r) = Some (Object video) ->
  exists suffix w h,
    (forall u,
        Spec.field (Object video) "embed_url" = Str u -> u <> "" ->
        fst (invoke (createLoomClient credentials)
               (GetEmbedHtml videoId params) net log)
        = Return (Object [("html", Str (Spec.iframe (u ++ suffix) w h))]))
    /\ (ToBoolean (Spec.field (Object video) "embed_url") = false ->
        fst (invoke (createLoomClient credentials)
               (GetEmbedHtml videoId params) net log)
        = Return
            (Object
               [("html",
                  Str (Spec.iframe
                         (("https://www.loom.com/embed/" ++ videoId) ++ suffix)
                         w h))]))
    /\ (ToBoolean (Spec.field (Object video) "embed_url") = true ->
        converts (Spec.field (Object video) "embed_url") = true ->
        fst (invoke (createLoomClient credentials)
               (GetEmbedHtml videoId params) net log)
        = Return
            (Object
               [("html",
                  Str (Spec.iframe
                         (ToString (Spec.field (Object video) "embed_url")
                          ++ suffix)
                         w h))]))
    /\ (ToBoolean (Spec.field (Object video) "embed_url") = true ->
        converts (Spec.field (Object video) "embed_url") = false ->
        exists text,
          fst (invoke (createLoomClient credentials)
                 (GetEmbedHtml videoId params) net log)
          = Throw (TypeError text))
    /\ (opt autoplay params = Some true -> suffix = "?autoplay=1")
    /\ (opt autoplay params <> Some true -> suffix = "")
    /\ (forall n,
          opt width params = Some n -> number_truthy n = true ->
          w = number_to_string n)
    /\ (opt_number_truthy (opt width params) = false -> w = "640")
    /\ (forall n,
          opt height params = Some n -> number_truthy n = true ->
          h = number_to_string n)
    /\ (opt_number_truthy (opt height params) = false -> h = "360").
Proof.
  intros Ht Hne Hnet Hok H204 Hparse.
  set (suffix :=
         match opt autoplay params with Some true => "?autoplay=1" | _ => "" end).
  set (w := number_to_string
              (match opt width params with
               | Some n => if number_truthy n then n else Int 640
               | None => Int 640
               end)).
  set (h := number_to_string
              (match opt height params with
               | Some n => if number_truthy n then n else Int 360
               | None => Int 360
               end)).
  assert (Hrun :
            fst (invoke (createLoomClient credentials)
                   (GetEmbedHtml videoId params) net log)
            = (src <~ interpolate
                        (or_else (Spec.field (Object video) "embed_url")
                           (Str ("https://www.loom.com/embed/" ++ videoId))) ;;
               Return (Object [("html", Str (Spec.iframe (src ++ suffix) w h))]))).
  { simpl invoke. unfold getEmbedHtml, getVideo, bind.
    rewrite (answered_ok credentials token r net log Ht Hne Hnet _
               Hok H204 Hparse).
    unfold lift.
    rewrite (pick_readable video_fields (Object video))
      by (split; discriminate).
    cbn [List.map video_fields fst snd get lookup String.eqb Ascii.eqb
         Bool.eqb].
    fold suffix.
    destruct (interpolate _) as [src|e]; [|reflexivity].
    unfold ret, andThen. simpl fst. unfold Spec.iframe, w, h, suffix.
    cbn [append]. rewrite append_assoc. reflexivity. }
  exists suffix, w, h. rewrite Hrun. unfold interpolate, or_else.
  split; [|split; [|split; [|split; [|repeat split]]]].
  - intros u Hu Hne'. rewrite Hu. simpl.
    apply string_truthy_nonempty in Hne'. rewrite Hne'. reflexivity.
  - intro Hfalse. rewrite Hfalse. reflexivity.
  - intros Htrue Hc. rewrite Htrue, Hc. reflexivity.
  - intros Htrue Hc. rewrite Htrue, Hc. eexists. reflexivity.
  - unfold suffix. intros ->. reflexivity.
  - unfold suffix. intro Hauto.
    destruct (opt autoplay params) as [[|]|]; congruence.
  - unfold w. intros n -> ->. reflexivity.
  - unfold w. intro Hw. destruct (opt width params) as [n|]; simpl in Hw;
      [rewrite Hw|]; reflexivity.
  - unfold h. intros n -> ->. reflexivity.
  - unfold h. intro Hh. destruct (opt height params) as [n|]; simpl in Hh;
      [rewrite Hh|]; reflexivity.
Qed.

(** C6, instance: the video [abc123] has no embed URL; width 800, height
    450, autoplay on. *)
Lemma embed_html_shape_witness :
  fst (invoke
         (createLoomClient
            {| Env.accessToken := Some "tok"; Env.baseUrl := None |})
         (GetEmbedHtml "abc123"
            (Some {| width := Some (Int 800); height := Some (Int 450);
                     autoplay := Some true |}))
         (Spec.answers (Spec.respond 200 [] "{'id':'abc123','title':'Demo'}"))
         [])
  = Return
      (Object
         [("html",
            Str (Spec.iframe "https://www.loom.com/embed/abc123?autoplay=1"
                   "800" "450"))])
  /\ Spec.occurs
       (Json.wire
          "src='https://www.loom.com/embed/abc123?autoplay=1' width='800' height='450'")
       (Spec.iframe "https://www.loom.com/embed/abc123?autoplay=1" "800" "450")
     = true.
Proof.
  split; [|vm_compute; reflexivity].
  destruct (embed_html_shape
              {| Env.accessToken := Some "tok"; Env.baseUrl := None |}
              "tok" "abc123"
              (Some {| width := Some (Int 800); height := Some (Int 450);
                       autoplay := Some true |})
              (Spec.respond 200 [] "{'id':'abc123','title':'Demo'}")
              [("id", Str "abc123"); ("title", Str "Demo")]
              (Spec.answers
                 (Spec.respond 200 [] "{'id':'abc123','title':'Demo'}"))
              [])
    as (suffix & w & h & _ & Hfallback & _ & _ & Hauto & _ & Hw & _ & Hh & _).
  - reflexivity.
  - discriminate.
  - reflexivity.
  - reflexivity.
  - discriminate.
  - vm_compute. reflexivity.
  - rewrite (Hfallback eq_refl), (Hauto eq_refl),
      (Hw _ eq_refl eq_refl), (Hh _ eq_refl eq_refl).
    reflexivity.
Defined.

(** C6, counterexample: the width 0 is given, and the iframe has the
    width 640, not the width 0. *)
Lemma zero_width_takes_the_default :
  fst (invoke
         (createLoomClient
            {| Env.accessToken := Some "tok"; Env.baseUrl := None |})
         (GetEmbedHtml "abc123"
            (Some {| width := Some (Int 0); height := Some (Int 450);
                     autoplay := Some false |}))
         (Spec.answers (Spec.respond 200 [] "{'id':'abc123','title':'Demo'}"))
         [])
  = Return
      (Object
         [("html",
            Str (Spec.iframe "https://www.loom.com/embed/abc123" "640" "450"))])
  /\ Spec.occurs (Json.wire "width='640'")
       (Spec.iframe "https://www.loom.com/embed/abc123" "640" "450")
     = true
  /\ Spec.occurs (Json.wire "width='0'")
       (Spec.iframe "https://www.loom.com/embed/abc123" "640" "450")
     = false.
Proof. repeat split; vm_compute; reflexivity. Qed.

(** ** Credential resolution *)

(** C8, as amended.  parseTenantCredentials maps an empty header value to an
    absent field, for the token header and for the base-URL header.  So a
    request whose token header is empty is treated as one that has no such
    header: validation fails with the same missing-credentials [Error],
    every operation completes in the same way, every operation other than
    testConnection failing with the same Authentication error and
    testConnection returning the same non-connected result; no call of
    [fetch] is made. *)
Theorem empty_header_as_absent (with_empty without : Headers) (call : Call)
        (net : Network) (log : list FetchCall) :
  Headers_get with_empty "X-Loom-Access-Token" = Some "" ->
  Headers_get without "X-Loom-Access-Token" = None ->
  Env.accessToken (Env.parseTenantCredentials with_empty) = None
  /\ Env.accessToken (Env.parseTenantCredentials without) = None
  /\ Env.validateCredentials (Env.parseTenantCredentials with_empty)
     = Throw (Error "Missing credentials. Provide X-Loom-Access-Token header.")
  /\ Env.validateCredentials (Env.parseTenantCredentials with_empty)
     = Env.validateCredentials (Env.parseTenantCredentials without)
  /\ invoke (createLoomClient (Env.parseTenantCredentials with_empty))
       call net log
     = invoke (createLoomClient (Env.parseTenantCredentials without))
         call net log
  /\ (call <> TestConnection ->
      invoke (createLoomClient (Env.parseTenantCredentials with_empty))
        call net log
      = (Throw Spec.no_credentials, log))
  /\ invoke (createLoomClient (Env.parseTenantCredentials with_empty))
       TestConnection net log
     = (Return (Spec.not_connected (message Spec.no_credentials)), log)
  /\ (forall h,
        Headers_get h "X-Loom-Base-URL" = Some "" ->
        Env.baseUrl (Env.parseTenantCredentials h) = None
        /\ baseUrl (createLoomClient (Env.parseTenantCredentials h))
           = API_BASE_URL).
Proof.
  intros Hempty Hnone.
  assert (H1 : Env.accessToken (Env.parseTenantCredentials with_empty) = None).
  { unfold Env.parseTenantCredentials. simpl. rewrite Hempty. reflexivity. }
  assert (H2 : Env.accessToken (Env.parseTenantCredentials without) = None).
  { unfold Env.parseTenantCredentials. simpl. rewrite Hnone. reflexivity. }
  pose proof (without_token (Env.parseTenantCredentials with_empty)
                (or_introl H1) net log) as [G1 T1].
  pose proof (without_token (Env.parseTenantCredentials without)
                (or_introl H2) net log) as [G2 T2].
  split; [exact H1|]. split; [exact H2|].
  split. { unfold Env.validateCredentials. rewrite H1. reflexivity. }
  split. { unfold Env.validateCredentials. rewrite H1, H2. reflexivity. }
  split.
  { destruct call; try (rewrite G1, G2 by discriminate; reflexivity).
    rewrite T1, T2. reflexivity. }
  split; [apply G1|]. split; [exact T1|].
  intros h Hh. unfold createLoomClient, constructor, Env.parseTenantCredentials.
  simpl. rewrite Hh. split; reflexivity.
Qed.

(** C8, instance: a request with an empty token header beside one with no
    token header; both fail validation, and deleting a video fails in the
    same way for both. *)
Lemma empty_header_as_absent_witness :
  Env.validateCredentials
    (Env.parseTenantCredentials
       [("Accept", "*/*"); ("X-Loom-Access-Token", "")])
  = Env.validateCredentials (Env.parseTenantCredentials [("Accept", "*/*")])
  /\ invoke
       (createLoomClient
          (Env.parseTenantCredentials
             [("Accept", "*/*"); ("X-Loom-Access-Token", "")]))
       (DeleteVideo "v1") Spec.offline []
     = invoke
         (createLoomClient (Env.parseTenantCredentials [("Accept", "*/*")]))
         (DeleteVideo "v1") Spec.offline []
  /\ invoke
       (createLoomClient
          (Env.parseTenantCredentials
             [("Accept", "*/*"); ("X-Loom-Access-Token", "")]))
       (DeleteVideo "v1") Spec.offline []
     = (Throw Spec.no_credentials, []).
Proof.
  destruct (empty_header_as_absent
              [("Accept", "*/*"); ("X-Loom-Access-Token", "")]
              [("Accept", "*/*")] (DeleteVideo "v1") Spec.offline [])
    as (_ & _ & _ & Hvalidate & Hsame & Hfails & _).
  - reflexivity.
  - reflexivity.
  - split; [exact Hvalidate|]. split; [exact Hsame|].
    apply Hfails. discriminate.
Defined.

(** C8, counterexample: with an empty token header testConnection does not
    fail; it returns a result. *)
Lemma testConnection_with_empty_header_returns :
  invoke
    (createLoomClient
       (Env.parseTenantCredentials [("X-Loom-Access-Token", "")]))
    TestConnection Spec.offline []
  = (Return
       (Object
          [("connected", Bool false);
           ("message",
             Str "No credentials provided. Include X-Loom-Access-Token header.")]),
     [])
  /\ fst (invoke
            (createLoomClient
               (Env.parseTenantCredentials [("X-Loom-Access-Token", "")]))
            TestConnection Spec.offline [])
     <> Throw Spec.no_credentials.
Proof. split; [reflexivity | discriminate]. Qed.

(** ** Query strings *)

(** The parameters that are sent decide the query. *)
Lemma pagination_sent (p : option ListParams) (q : URLSearchParams) :
  pagination p q = pagination (Some (Spec.sent p)) q.
Proof.
  unfold pagination, Spec.sent, set_string, set_number, opt.
  destruct p as [[pp nc]|]; simpl; [|reflexivity].
  destruct pp as [n|]; destruct nc as [c|]; simpl;
    try destruct (number_truthy n) eqn:En; try destruct (string_truthy c) eqn:Ec;
    simpl; rewrite ?En, ?Ec; reflexivity.
Qed.

Lemma invoke_sent (this : LoomClientImpl) (call : Call)
      (p : option ListParams) :
  invoke this (Spec.with_params call p)
  = invoke this (Spec.with_params call (Some (Spec.sent p))).
Proof.
  destruct call; try reflexivity; simpl;
    unfold listVideos, listFolders, listSpaces, listSpaceVideos, searchVideos;
    rewrite (pagination_sent p); reflexivity.
Qed.

Lemma first_page_request (this : LoomClientImpl) (call : Call)
      (p : option ListParams) :
  is_listing call = true ->
  Spec.sent p = {| perPage := None; nextCursor := None |} ->
  exists key fields,
    invoke this (Spec.with_params call p)
    = (data <- request this (Spec.first_page call) no_options ;;
       lift (paginated key fields data)).
Proof.
  intros Hlisting Hsent. rewrite invoke_sent, Hsent.
  destruct call; try discriminate; do 2 eexists; reflexivity.
Qed.

Lemma append_empty (s : string) : s ++ "" = s.
Proof. induction s as [|c s IH]; simpl; [reflexivity|]. rewrite IH. reflexivity. Qed.

Lemma bind_lift_log {A B : Type} (m : M A) (f : A -> Completion B)
      (net : Network) (log : list FetchCall) :
  snd (bind m (fun a => lift (f a)) net log) = snd (m net log).
Proof.
  unfold bind, lift. destruct (m net log) as [[a|e] log']; reflexivity.
Qed.

(** The URL of a listing, whatever the parameters. *)
Lemma listing_url (this : LoomClientImpl) (call : Call)
      (p : option ListParams) (net : Network) (log : list FetchCall)
      (token : string) :
  is_listing call = true ->
  Env.accessToken (credentials this) = Some token ->
  token <> "" ->
  snd (invoke this (Spec.with_params call p) net log)
  = (log ++ [{| url := baseUrl this
                       ++ (Spec.first_page call
                           ++ Spec.page_query (Spec.lead call) (Spec.sent p));
                method := None;
                request_headers := Spec.auth_headers token;
                request_body := None |}])%list.
Proof.
  intros Hlisting Ht Hne.
  destruct call; try discriminate; simpl Spec.with_params;
    unfold invoke, listVideos, listFolders, listSpaces, listSpaceVideos,
      searchVideos;
    rewrite bind_lift_log, (request_log this _ _ net log token Ht Hne);
    unfold Spec.issued; cbn [init_method init_headers init_body no_options];
    do 3 f_equal;
    unfold pagination, set_number, set_string, opt, with_query,
      Spec.page_query, Spec.sent;
    destruct p as [[[n|] [c|]]|]; simpl;
    try destruct (number_truthy n); try destruct (string_truthy c); simpl;
    rewrite ?append_assoc, ?append_empty; simpl;
    rewrite ?append_assoc, ?append_empty; reflexivity.
Qed.

(** C9. For every listing operation a pagination parameter whose value is
    falsy is left out of the query string.  The request URL is the
    first-page URL of the operation followed by the parameters that are
    truthy and by no other: [per_page] when the page size is truthy, then
    [next_cursor] when the cursor is a non-empty string.  So two parameter
    objects that agree on their truthy values give the same request and the
    same outcome, and [nextCursor] equal to the empty string, or [perPage]
    equal to 0, gives the request URL that the call has without that
    parameter: with nothing truthy, the URL of a call with no parameter at
    all, the first page. *)
Theorem falsy_pagination_omitted (this : LoomClientImpl) (call : Call)
        (p p' : option ListParams) (net : Network) (log : list FetchCall) :
  is_listing call = true ->
  Spec.sent p = Spec.sent p' ->
  invoke this (Spec.with_params call p) net log
  = invoke this (Spec.with_params call p') net log
  /\ (forall token,
        Env.accessToken (credentials this) = Some token -> token <> "" ->
        snd (invoke this (Spec.with_params call p) net log)
        = (log ++ [{| url := baseUrl this
                             ++ (Spec.first_page call
                                 ++ Spec.page_query (Spec.lead call)
                                      (Spec.sent p));
                      method := None;
                      request_headers := Spec.auth_headers token;
                      request_body := None |}])%list)
  /\ (opt_number_truthy (opt perPage p) = false ->
      perPage (Spec.sent p) = None)
  /\ (opt_string_truthy (opt nextCursor p) = false ->
      nextCursor (Spec.sent p) = None)
  /\ (Spec.sent p = {| perPage := None; nextCursor := None |} ->
      invoke this (Spec.with_params call p) net log
      = invoke this (Spec.with_params call None) net log
      /\ forall token,
          Env.accessToken (credentials this) = Some token -> token <> "" ->
          snd (invoke this (Spec.with_params call p) net log)
          = (log ++ [{| url := baseUrl this ++ Spec.first_page call;
                        method := None;
                        request_headers := Spec.auth_headers token;
                        request_body := None |}])%list).
Proof.
  intros Hlisting Hsent. split; [|split; [|split; [|split]]].
  - rewrite (invoke_sent this call p), (invoke_sent this call p'), Hsent.
    reflexivity.
  - intros token Ht Hne. apply listing_url; assumption.
  - unfold Spec.sent. cbn [perPage].
    destruct (opt perPage p) as [n|]; simpl; [|reflexivity].
    intros ->. reflexivity.
  - unfold Spec.sent. cbn [nextCursor].
    destruct (opt nextCursor p) as [c|]; simpl; [|reflexivity].
    intros ->. reflexivity.
  - intro Hnone. split.
    + rewrite (invoke_sent this call p), (invoke_sent this call None), Hnone.
      reflexivity.
    + intros token Ht Hne.
      rewrite (listing_url this call p net log token Hlisting Ht Hne), Hnone.
      unfold Spec.page_query. cbn [perPage nextCursor].
      rewrite append_empty. reflexivity.
Qed.

(** C9, instance: listVideos with [perPage] 10 and an empty [nextCursor]
    asks for [/videos?per_page=10], as a call with the page size alone
    does. *)
Lemma falsy_pagination_omitted_witness :
  invoke
    (createLoomClient {| Env.accessToken := Some "tok"; Env.baseUrl := None |})
    (ListVideos (Some {| perPage := Some (Int 10); nextCursor := Some "" |}))
    Spec.offline []
  = invoke
      (createLoomClient {| Env.accessToken := Some "tok"; Env.baseUrl := None |})
      (ListVideos (Some {| perPage := Some (Int 10); nextCursor := None |}))
      Spec.offline []
  /\ snd (invoke
            (createLoomClient
               {| Env.accessToken := Some "tok"; Env.baseUrl := None |})
            (ListVideos
               (Some {| perPage := Some (Int 10); nextCursor := Some "" |}))
            Spec.offline [])
     = [{| url := "https://api.loom.com/v1/videos?per_page=10"; method := None;
           request_headers := Spec.auth_headers "tok";
           request_body := None |}].
Proof.
  destruct (falsy_pagination_omitted
              (createLoomClient
                 {| Env.accessToken := Some "tok"; Env.baseUrl := None |})
              (ListVideos None)
              (Some {| perPage := Some (Int 10); nextCursor := Some "" |})
              (Some {| perPage := Some (Int 10); nextCursor := None |})
              Spec.offline [])
    as (Hsame & Hurl & _).
  - reflexivity.
  - reflexivity.
  - split; [exact Hsame|].
    exact (Hurl "tok" eq_refl ltac:(discriminate)).
Defined.

(* ===================================================================== *)
(** * Further properties of the code *)
(* ===================================================================== *)

(** ** The limits of the environment *)

Lemma parseInt_Int_or_NaN (text : string) :
  parseInt text = NaN \/ exists z, parseInt text = Int z.
Proof.
  unfold parseInt.
  match goal with
  | |- context [digits_prefix ?a ?b] => destruct (digits_prefix a b)
  end; [right; eexists; reflexivity | left; reflexivity].
Qed.

(** X1. getEnvNumber on a variable whose text has only units below 128:
    when the text has an integer in front (optional white space, optional
    sign, then a digit: trailing text is ignored) and the integer is at
    most 2^53 in absolute value, so that a number holds it exactly, the
    result is that integer; when the text has no integer in front the
    result is the default value.  A variable that is not a string (not set,
    or a binding) gives the default value.  Nothing is said of a text with
    a unit from 128 on, nor of an integer beyond 2^53, which the runtime
    rounds. *)
Theorem getEnvNumber_parsed_or_default (env : Env.Env) (key : Env.EnvKey)
        (defaultValue : number) :
  (forall text,
      env key = Str text ->
      Spec.plain text = true ->
      if Spec.integer_in_front text then
        exists z,
          parseInt text = Int z
          /\ (Z.abs z <= 2 ^ 53 ->
              Env.getEnvNumber env key defaultValue = Int z)
      else Env.getEnvNumber env key defaultValue = defaultValue)
  /\ ((forall text, env key <> Str text) ->
      Env.getEnvNumber env key defaultValue = defaultValue).
Proof.
  unfold Env.getEnvNumber. split.
  - intros text Htext _. rewrite Htext.
    destruct (Spec.integer_in_front text) eqn:E.
    + destruct (parseInt_Int_or_NaN text) as [H|[z H]].
      * apply parseInt_NaN in H. congruence.
      * exists z. split; [exact H|]. intros _. rewrite H. reflexivity.
    + apply parseInt_NaN in E. rewrite E. reflexivity.
  - intro Hno.
    destruct (env key) as [| |b|n|text|l|ps]; try reflexivity.
    destruct (Hno text eq_refl).
Qed.

(** X1, instance: a character limit with a unit behind the digits. *)
Lemma getEnvNumber_parsed_or_default_witness :
  Env.getEnvNumber
    (fun key => match key with
                | Env.CHARACTER_LIMIT => Str " 1000 characters"
                | _ => Undefined
                end)
    Env.CHARACTER_LIMIT (Int 50000) = Int 1000.
Proof.
  destruct (getEnvNumber_parsed_or_default
              (fun key => match key with
                          | Env.CHARACTER_LIMIT => Str " 1000 characters"
                          | _ => Undefined
                          end)
              Env.CHARACTER_LIMIT (Int 50000)) as (Hstring & _).
  destruct (Hstring " 1000 characters" eq_refl eq_refl) as (z & Hz & Hexact).
  injection Hz as Hz. subst z. apply Hexact. simpl. lia.
Defined.

(** X2. The three limits are never NaN, whatever the environment holds:
    a text without a number in front gives the default value, not NaN.  A
    variable that is not a string gives 50000 characters, a default page
    size of 20 and a maximum page size of 100. *)
Theorem limits_are_never_NaN (env : Env.Env) :
  Number_isNaN (Env.getCharacterLimit env) = false
  /\ Number_isNaN (Env.getDefaultPageSize env) = false
  /\ Number_isNaN (Env.getMaxPageSize env) = false
  /\ ((forall text, env Env.CHARACTER_LIMIT <> Str text) ->
      Env.getCharacterLimit env = Int 50000)
  /\ ((forall text, env Env.DEFAULT_PAGE_SIZE <> Str text) ->
      Env.getDefaultPageSize env = Int 20)
  /\ ((forall text, env Env.MAX_PAGE_SIZE <> Str text) ->
      Env.getMaxPageSize env = Int 100).
Proof.
  assert (H : forall key d,
            Number_isNaN (Env.getEnvNumber env key (Int d)) = false
            /\ ((forall text, env key <> Str text) ->
                Env.getEnvNumber env key (Int d) = Int d)).
  { intros key d. unfold Env.getEnvNumber.
    destruct (env key) as [| |b|n|text|l|ps];
      try (split; [reflexivity | intros _; reflexivity]).
    split.
    - destruct (Number_isNaN (parseInt text)) eqn:E; [reflexivity | exact E].
    - intro Hno. destruct (Hno text eq_refl). }
  unfold Env.getCharacterLimit, Env.getDefaultPageSize, Env.getMaxPageSize.
  destruct (H Env.CHARACTER_LIMIT 50000) as (Ha & Ha').
  destruct (H Env.DEFAULT_PAGE_SIZE 20) as (Hb & Hb').
  destruct (H Env.MAX_PAGE_SIZE 100) as (Hc & Hc').
  repeat split; assumption.
Qed.

(** ** Validation and the client *)

Lemma opt_string_truthy_cases (x : option string) :
  opt_string_truthy x = false <-> x = None \/ x = Some "".
Proof.
  destruct x as [[|c s]|]; simpl; split; intro H; auto; try discriminate.
  - destruct H as [H|H]; discriminate.
Qed.

(** X3. validateCredentials and the client agree on what a usable token
    is: the credentials pass validation if and only if every operation of a
    client made from them issues a request. *)
Theorem validated_iff_requests_are_issued
        (credentials : Env.TenantCredentials) :
  Env.validateCredentials credentials = Return tt
  <-> (forall call net log,
          exists sent,
            snd (invoke (createLoomClient credentials) call net log)
            = (log ++ [sent])%list).
Proof.
  unfold Env.validateCredentials.
  destruct (opt_string_truthy (Env.accessToken credentials)) eqn:E; simpl.
  - split; [intros _ | reflexivity].
    intros call net log.
    destruct (Env.accessToken credentials) as [token|] eqn:Et;
      [|discriminate].
    simpl in E. apply string_truthy_nonempty in E.
    destruct (invoke_log (createLoomClient credentials) call net log token
                Et E) as (sent & Hs & _).
    exists sent. exact Hs.
  - split; [discriminate|].
    intro H. exfalso.
    destruct (H GetCurrentUser Spec.offline []) as (sent & Hs).
    apply opt_string_truthy_cases in E.
    destruct (without_token credentials E Spec.offline []) as (Hone & _).
    rewrite Hone in Hs by discriminate. discriminate.
Qed.

(** X4. The token travels unchanged from the inbound header to the
    outbound one: when the inbound request has a non-empty
    X-Loom-Access-Token header (under any spelling of its name that
    [Headers.get] accepts), every operation of the client made from the
    parsed credentials issues one request, whose Authorization header is
    [Bearer] followed by that value. *)
Theorem token_header_reaches_the_api (request : Headers) (token : string)
        (call : Call) (net : Network) (log : list FetchCall) :
  Headers_get request "X-Loom-Access-Token" = Some token ->
  token <> "" ->
  exists sent,
    snd (invoke (createLoomClient (Env.parseTenantCredentials request))
           call net log)
    = (log ++ [sent])%list
    /\ lookup "Authorization" (request_headers sent)
       = Some ("Bearer " ++ token)
    /\ Env.validateCredentials (Env.parseTenantCredentials request)
       = Return tt.
Proof.
  intros Hget Hne.
  assert (Ht : Env.accessToken (Env.parseTenantCredentials request)
               = Some token).
  { unfold Env.parseTenantCredentials, Env.or_undefined. simpl.
    rewrite Hget. simpl.
    apply string_truthy_nonempty in Hne. rewrite Hne. reflexivity. }
  destruct (invoke_log (createLoomClient (Env.parseTenantCredentials request))
              call net log token Ht Hne) as (sent & Hs & Hh).
  exists sent. split; [exact Hs|]. split.
  - rewrite Hh. reflexivity.
  - unfold Env.validateCredentials. rewrite Ht. simpl.
    apply string_truthy_nonempty in Hne. rewrite Hne. reflexivity.
Qed.

(** X4, instance: the header spelled in lower case. *)
Lemma token_header_reaches_the_api_witness :
  exists sent,
    snd (invoke
           (createLoomClient
              (Env.parseTenantCredentials
                 [("x-loom-access-token", "secret")]))
           (DeleteFolder "f1") Spec.offline [])
    = [sent]
    /\ lookup "Authorization" (request_headers sent) = Some "Bearer secret"
    /\ Env.validateCredentials
         (Env.parseTenantCredentials [("x-loom-access-token", "secret")])
       = Return tt.
Proof.
  apply (token_header_reaches_the_api
           [("x-loom-access-token", "secret")] "secret" (DeleteFolder "f1")
           Spec.offline []).
  - reflexivity.
  - discriminate.
Defined.

(** ** Where the requests go *)

(** The endpoint of every operation starts with a slash. *)
Lemma invoke_request_path (this : LoomClientImpl) (call : Call)
      (net : Network) (log : list FetchCall) :
  call <> TestConnection ->
  exists path options,
    init_headers options = None
    /\ match request this (String "/" path) options net log with
       | (Throw e, log') => invoke this call net log = (Throw e, log')
       | (Return _, log') => snd (invoke this call net log) = log'
       end.
Proof.
  intro Hcall.
  destruct call; try congruence; open_operation; cbv [with_query];
    try match goal with
        | |- context [string_truthy ?q] => destruct (string_truthy q)
        end;
    match goal with
    | |- context [request this ?e ?o net log] =>
        let e' := eval cbn [append] in e in
        lazymatch e' with
        | String "/" ?p => exists p, o
        end
    end;
    (split; [reflexivity|]);
    cbn [append];
    destruct (request _ _ _ net log) as [[data|e] log']; try reflexivity;
    cbv [lift ret]; split_matches; reflexivity.
Qed.

Lemma invoke_issued (this : LoomClientImpl) (call : Call) (net : Network)
      (log : list FetchCall) (token : string) :
  Env.accessToken (credentials this) = Some token ->
  token <> "" ->
  exists path options,
    init_headers options = None
    /\ snd (invoke this call net log)
       = (log ++ [Spec.issued this (String "/" path) options token])%list.
Proof.
  intros Ht Hne.
  assert (Hone : forall c, c <> TestConnection ->
            exists path options,
              init_headers options = None
              /\ snd (invoke this c net log)
                 = (log ++ [Spec.issued this (String "/" path) options token])%list).
  { intros c Hc.
    destruct (invoke_request_path this c net log Hc)
      as (path & options & Hh & Hr).
    exists path, options. split; [exact Hh|].
    rewrite <- (request_log this (String "/" path) options net log token Ht Hne).
    destruct (request this (String "/" path) options net log) as [[d|e] log'];
      [exact Hr | rewrite Hr; reflexivity]. }
  destruct call; try (apply Hone; discriminate).
  simpl. rewrite testConnection_outcome. simpl.
  apply (Hone GetCurrentUser). discriminate.
Qed.

(** X5. Every request goes to the base URL of the tenant followed by a
    path that starts with a slash: the value of the X-Loom-Base-URL
    credential when it is a non-empty string, and https://api.loom.com/v1
    when it is absent or empty.  Nothing is normalised: a base that ends with
    a slash gives a double slash. *)
Theorem requests_use_the_base_url (credentials : Env.TenantCredentials)
        (token : string) (call : Call) (net : Network)
        (log : list FetchCall) :
  Env.accessToken credentials = Some token ->
  token <> "" ->
  exists sent path,
    snd (invoke (createLoomClient credentials) call net log)
    = (log ++ [sent])%list
    /\ (forall base,
          Env.baseUrl credentials = Some base -> base <> "" ->
          url sent = base ++ String "/" path)
    /\ (Env.baseUrl credentials = None \/ Env.baseUrl credentials = Some "" ->
        url sent = "https://api.loom.com/v1" ++ String "/" path).
Proof.
  intros Ht Hne.
  destruct (invoke_issued (createLoomClient credentials) call net log token
              Ht Hne) as (path & options & _ & Hs).
  eexists. exists path. split; [exact Hs|]. simpl. split.
  - intros base Hb Hbne. rewrite Hb.
    apply string_truthy_nonempty in Hbne. rewrite Hbne. reflexivity.
  - intros [Hb|Hb]; rewrite Hb; reflexivity.
Qed.

(** X5, instance: a tenant whose base URL is a proxy. *)
Lemma requests_use_the_base_url_witness :
  exists sent path,
    snd (invoke
           (createLoomClient
              {| Env.accessToken := Some "tok";
                 Env.baseUrl := Some "https://proxy.example/loom" |})
           (GetVideo "v1") Spec.offline [])
    = [sent]
    /\ url sent = "https://proxy.example/loom" ++ String "/" path.
Proof.
  destruct (requests_use_the_base_url
              {| Env.accessToken := Some "tok";
                 Env.baseUrl := Some "https://proxy.example/loom" |}
              "tok" (GetVideo "v1") Spec.offline [])
    as (sent & path & Hs & Hbase & _).
  - reflexivity.
  - discriminate.
  - exists sent, path. split; [exact Hs|].
    apply Hbase; [reflexivity | discriminate].
Defined.

(** ** Refusals, missing resources, network failures, malformed bodies *)

Section Answered.

Variable credentials : Env.TenantCredentials.
Variable token : string.
Variable r : Response.
Variable net : Network.
Variable log : list FetchCall.

Hypothesis has_token : Env.accessToken credentials = Some token.
Hypothesis token_nonempty : token <> "".
Hypothesis answer : forall c, net c = Fulfilled r.

Abbreviation client := (createLoomClient credentials).

Lemma refused :
  status r = 401 \/ status r = 403 ->
  forall endpoint options,
    fst (request client endpoint options net log)
    = Throw (AuthenticationError
               "Authentication failed. Check your Loom access token.").
Proof.
  intros Hs endpoint options.
  rewrite (request_fulfilled client endpoint options net log token r
             has_token token_nonempty (answer _)).
  destruct Hs as [Hs|Hs]; rewrite Hs; reflexivity.
Qed.

Lemma not_found_response :
  status r = 404 ->
  forall endpoint options,
    fst (request client endpoint options net log)
    = Throw (LoomApiError (Str "Resource not found") 404 (Some "NOT_FOUND")).
Proof.
  intros Hs endpoint options.
  rewrite (request_fulfilled client endpoint options net log token r
             has_token token_nonempty (answer _)).
  rewrite Hs. reflexivity.
Qed.

Lemma answered_no_content :
  status r = 204 ->
  forall endpoint options,
    request client endpoint options net log
    = (Return Undefined,
       (log ++ [Spec.issued client endpoint options token])%list).
Proof.
  intros Hs endpoint options.
  rewrite (request_fulfilled client endpoint options net log token r
             has_token token_nonempty (answer _)).
  unfold ok. rewrite Hs. reflexivity.
Qed.

Lemma answered_malformed :
  ok r = true ->
  status r <> 204 ->
  Json.parse (body r) = None ->
  forall endpoint options,
    fst (request client endpoint options net log)
    = Throw (SyntaxError "Unexpected token in JSON").
Proof.
  intros Hok H204 Hparse endpoint options.
  rewrite (request_fulfilled client endpoint options net log token r
             has_token token_nonempty (answer _)).
  unfold ok in Hok. apply andb_prop in Hok. destruct Hok as [Hlo Hhi].
  apply Z.leb_le in Hlo, Hhi.
  assert (H429 : (status r =? 429)%Z = false) by (apply Z.eqb_neq; lia).
  assert (H401 : (status r =? 401)%Z = false) by (apply Z.eqb_neq; lia).
  assert (H403 : (status r =? 403)%Z = false) by (apply Z.eqb_neq; lia).
  assert (H404 : (status r =? 404)%Z = false) by (apply Z.eqb_neq; lia).
  apply Z.eqb_neq in H204.
  rewrite H429, H401, H403, H404, H204, Hparse.
  unfold ok. apply Z.leb_le in Hlo, Hhi. rewrite Hlo, Hhi. reflexivity.
Qed.

End Answered.

(** X6. For every operation other than testConnection, a response with
    status 401 or 403 yields the Authentication failure with the fixed text
    [Authentication failed. Check your Loom access token.], whatever the
    body and the headers of the response; testConnection reports that text
    in a non-connected result.  The text differs from the one of a missing
    token. *)
Theorem unauthorized_is_authentication_failure
        (credentials : Env.TenantCredentials) (token : string) (call : Call)
        (r : Response) (net : Network) (log : list FetchCall) :
  Env.accessToken credentials = Some token ->
  token <> "" ->
  (forall c, net c = Fulfilled r) ->
  status r = 401 \/ status r = 403 ->
  (call <> TestConnection ->
   fst (invoke (createLoomClient credentials) call net log)
   = Throw (AuthenticationError
              "Authentication failed. Check your Loom access token."))
  /\ fst (invoke (createLoomClient credentials) TestConnection net log)
     = Return (Spec.not_connected
                 "Authentication failed. Check your Loom access token.")
  /\ AuthenticationError "Authentication failed. Check your Loom access token."
     <> Spec.no_credentials.
Proof.
  intros Ht Hne Hnet Hs.
  pose proof (refused credentials token r net log Ht Hne Hnet Hs) as Hr.
  split; [|split].
  - apply invoke_throws. intros endpoint options _. apply Hr.
  - rewrite (testConnection_reports _ net log _ (fun e o _ => Hr e o)).
    reflexivity.
  - discriminate.
Qed.

(** X6, instance: status 403 with a body that names another reason. *)
Lemma unauthorized_is_authentication_failure_witness :
  fst (invoke
         (createLoomClient
            {| Env.accessToken := Some "tok"; Env.baseUrl := None |})
         (ListWorkspaces)
         (Spec.answers (Spec.respond 403 [] "{'message':'plan limit'}")) [])
  = Throw (AuthenticationError
             "Authentication failed. Check your Loom access token.").
Proof.
  apply (unauthorized_is_authentication_failure
           {| Env.accessToken := Some "tok"; Env.baseUrl := None |}
           "tok" ListWorkspaces
           (Spec.respond 403 [] "{'message':'plan limit'}")
           (Spec.answers (Spec.respond 403 [] "{'message':'plan limit'}")) []).
  - reflexivity.
  - discriminate.
  - reflexivity.
  - right. reflexivity.
  - discriminate.
Defined.

(** X7. For every operation other than testConnection, a response with
    status 404 yields the NotFound failure: text [Resource not found],
    status code 404 and code [NOT_FOUND], whatever the body of the response
    says; testConnection reports that text in a non-connected result. *)
Theorem not_found_is_fixed (credentials : Env.TenantCredentials)
        (token : string) (call : Call) (r : Response) (net : Network)
        (log : list FetchCall) :
  Env.accessToken credentials = Some token ->
  token <> "" ->
  (forall c, net c = Fulfilled r) ->
  status r = 404 ->
  (call <> TestConnection ->
   fst (invoke (createLoomClient credentials) call net log)
   = Throw (LoomApiError (Str "Resource not found") 404 (Some "NOT_FOUND")))
  /\ fst (invoke (createLoomClient credentials) TestConnection net log)
     = Return (Spec.not_connected "Resource not found").
Proof.
  intros Ht Hne Hnet Hs.
  pose proof (not_found_response credentials token r net log Ht Hne Hnet Hs)
    as Hr.
  split.
  - apply invoke_throws. intros endpoint options _. apply Hr.
  - rewrite (testConnection_reports _ net log _ (fun e o _ => Hr e o)).
    reflexivity.
Qed.

(** X7, instance: the message of the body is not used. *)
Lemma not_found_is_fixed_witness :
  fst (invoke
         (createLoomClient
            {| Env.accessToken := Some "tok"; Env.baseUrl := None |})
         (GetFolder "f9")
         (Spec.answers (Spec.respond 404 [] "{'message':'Folder f9 is gone'}"))
         [])
  = Throw (LoomApiError (Str "Resource not found") 404 (Some "NOT_FOUND")).
Proof.
  apply (not_found_is_fixed
           {| Env.accessToken := Some "tok"; Env.baseUrl := None |}
           "tok" (GetFolder "f9")
           (Spec.respond 404 [] "{'message':'Folder f9 is gone'}")
           (Spec.answers
              (Spec.respond 404 [] "{'message':'Folder f9 is gone'}")) []).
  - reflexivity.
  - discriminate.
  - reflexivity.
  - reflexivity.
  - discriminate.
Defined.

(** X8. A failure of the network is not caught and not retried: when
    [fetch] rejects, every operation other than testConnection throws the
    reason of the rejection unchanged after that single call of [fetch];
    testConnection reports its message. *)
Theorem fetch_rejection_propagates (credentials : Env.TenantCredentials)
        (token : string) (call : Call) (reason : Thrown) (net : Network)
        (log : list FetchCall) :
  Env.accessToken credentials = Some token ->
  token <> "" ->
  (forall c, net c = Rejected reason) ->
  exists sent,
    snd (invoke (createLoomClient credentials) call net log)
    = (log ++ [sent])%list
    /\ (call <> TestConnection ->
        fst (invoke (createLoomClient credentials) call net log)
        = Throw reason)
    /\ fst (invoke (createLoomClient credentials) TestConnection net log)
       = Return (Spec.not_connected (message reason)).
Proof.
  intros Ht Hne Hnet.
  assert (Hr : forall endpoint options,
            fst (request (createLoomClient credentials) endpoint options
                   net log) = Throw reason).
  { intros endpoint options.
    rewrite (request_rejected (createLoomClient credentials) endpoint options
               net log token reason Ht Hne (Hnet _)).
    reflexivity. }
  destruct (invoke_log (createLoomClient credentials) call net log token
              Ht Hne) as (sent & Hs & _).
  exists sent. split; [exact Hs|]. split.
  - apply invoke_throws. intros endpoint options _. apply Hr.
  - rewrite (testConnection_reports _ net log _ (fun e o _ => Hr e o)).
    reflexivity.
Qed.

(** X8, instance: the network is unreachable. *)
Lemma fetch_rejection_propagates_witness :
  exists sent,
    snd (invoke
           (createLoomClient
              {| Env.accessToken := Some "tok"; Env.baseUrl := None |})
           (DuplicateVideo "v1") Spec.offline [])
    = [sent]
    /\ fst (invoke
              (createLoomClient
                 {| Env.accessToken := Some "tok"; Env.baseUrl := None |})
              (DuplicateVideo "v1") Spec.offline [])
       = Throw (TypeError "fetch failed").
Proof.
  destruct (fetch_rejection_propagates
              {| Env.accessToken := Some "tok"; Env.baseUrl := None |}
              "tok" (DuplicateVideo "v1") (TypeError "fetch failed")
              Spec.offline [])
    as (sent & Hs & Hthrow & _).
  - reflexivity.
  - discriminate.
  - reflexivity.
  - exists sent. split; [exact Hs|]. apply Hthrow. discriminate.
Defined.

(** X9. An ok response other than 204 whose body is not JSON (the empty
    body of a 200 response, for one) makes every operation other than
    testConnection throw the SyntaxError of [response.json()], the
    operations that return nothing included: only status 204 stands for no
    content.  testConnection reports the message of that error. *)
Theorem unparseable_body_is_a_failure (credentials : Env.TenantCredentials)
        (token : string) (call : Call) (r : Response) (net : Network)
        (log : list FetchCall) :
  Env.accessToken credentials = Some token ->
  token <> "" ->
  (forall c, net c = Fulfilled r) ->
  ok r = true ->
  status r <> 204 ->
  Json.parse (body r) = None ->
  exists text,
    (call <> TestConnection ->
     fst (invoke (createLoomClient credentials) call net log)
     = Throw (SyntaxError text))
    /\ fst (invoke (createLoomClient credentials) TestConnection net log)
       = Return (Spec.not_connected text).
Proof.
  intros Ht Hne Hnet Hok H204 Hparse.
  pose proof (answered_malformed credentials token r net log Ht Hne Hnet
                Hok H204 Hparse) as Hr.
  eexists. split.
  - apply invoke_throws. intros endpoint options _. apply Hr.
  - rewrite (testConnection_reports _ net log _ (fun e o _ => Hr e o)).
    reflexivity.
Qed.

(** X9, instance: deleteVideo answered by 200 with an empty body. *)
Lemma unparseable_body_is_a_failure_witness :
  exists text,
    fst (invoke
           (createLoomClient
              {| Env.accessToken := Some "tok"; Env.baseUrl := None |})
           (DeleteVideo "v1") (Spec.answers (Spec.respond 200 [] "")) [])
    = Throw (SyntaxError text).
Proof.
  destruct (unparseable_body_is_a_failure
              {| Env.accessToken := Some "tok"; Env.baseUrl := None |}
              "tok" (DeleteVideo "v1") (Spec.respond 200 [] "")
              (Spec.answers (Spec.respond 200 [] "")) [])
    as (text & Hthrow & _).
  - reflexivity.
  - discriminate.
  - reflexivity.
  - reflexivity.
  - discriminate.
  - reflexivity.
  - exists text. apply Hthrow. discriminate.
Defined.

(** ** What is returned for an ok response *)

(** X10. A 204 response gives the operations nothing to read: the five
    operations that return nothing, and updateVideo, return [undefined];
    every other operation other than testConnection throws a TypeError, for
    it reads a field of [undefined] (createFolder, createComment,
    updateFolder, createRecordLink and duplicateVideo among them). *)
Theorem no_content_response (credentials : Env.TenantCredentials)
        (token : string) (call : Call) (r : Response) (net : Network)
        (log : list FetchCall) :
  Env.accessToken credentials = Some token ->
  token <> "" ->
  (forall c, net c = Fulfilled r) ->
  status r = 204 ->
  (Spec.returns_nothing call = true \/ (exists videoId params,
                                           call = UpdateVideo videoId params) ->
   fst (invoke (createLoomClient credentials) call net log)
   = Return Undefined)
  /\ (Spec.returns_nothing call = false ->
      (forall videoId params, call <> UpdateVideo videoId params) ->
      call <> TestConnection ->
      exists text,
        fst (invoke (createLoomClient credentials) call net log)
        = Throw (TypeError text)).
Proof.
  intros Ht Hne Hnet Hs.
  pose proof (answered_no_content credentials token r net log Ht Hne Hnet Hs)
    as Hr.
  split.
  - intros [Hvoid | (videoId & params & ->)].
    + destruct call; try discriminate; open_operation; rewrite Hr;
        reflexivity.
    + open_operation. rewrite Hr. reflexivity.
  - intros Hvoid Hupdate Hcall.
    destruct call; try discriminate; try congruence;
      try (exfalso; eapply Hupdate; reflexivity);
      open_operation; rewrite Hr; eexists; reflexivity.
Qed.

(** X10, instance: createFolder answered by 204. *)
Lemma no_content_response_witness :
  fst (invoke
         (createLoomClient
            {| Env.accessToken := Some "tok"; Env.baseUrl := None |})
         (DeleteFolder "f1") (Spec.answers (Spec.respond 204 [] "")) [])
  = Return Undefined
  /\ exists text,
       fst (invoke
              (createLoomClient
                 {| Env.accessToken := Some "tok"; Env.baseUrl := None |})
              (CreateFolder "Demos" None)
              (Spec.answers (Spec.respond 204 [] "")) [])
       = Throw (TypeError text).
Proof.
  split.
  - apply (no_content_response
             {| Env.accessToken := Some "tok"; Env.baseUrl := None |}
             "tok" (DeleteFolder "f1") (Spec.respond 204 [] "")
             (Spec.answers (Spec.respond 204 [] "")) []).
    + reflexivity.
    + discriminate.
    + reflexivity.
    + reflexivity.
    + left. reflexivity.
  - apply (no_content_response
             {| Env.accessToken := Some "tok"; Env.baseUrl := None |}
             "tok" (CreateFolder "Demos" None) (Spec.respond 204 [] "")
             (Spec.answers (Spec.respond 204 [] "")) []).
    + reflexivity.
    + discriminate.
    + reflexivity.
    + reflexivity.
    + reflexivity.
    + discriminate.
    + discriminate.
Defined.

(** X11. The operations that return nothing (deleteVideo, deleteFolder,
    addVideoToSpace, removeVideoFromSpace, moveVideoToFolder) return
    [undefined] for every ok response that is a 204 or has a JSON body,
    whatever that body holds. *)
Theorem nothing_is_returned (credentials : Env.TenantCredentials)
        (token : string) (call : Call) (r : Response) (net : Network)
        (log : list FetchCall) :
  Env.accessToken credentials = Some token ->
  token <> "" ->
  (forall c, net c = Fulfilled r) ->
  Spec.returns_nothing call = true ->
  ok r = true ->
  status r = 204 \/ Json.parse (body r) <> None ->
  fst (invoke (createLoomClient credentials) call net log) = Return Undefined.
Proof.
  intros Ht Hne Hnet Hvoid Hok Hbody.
  destruct (Z.eq_dec (status r) 204) as [H204|H204].
  - pose proof (answered_no_content credentials token r net log Ht Hne Hnet
                  H204) as Hr.
    destruct call; try discriminate; open_operation; rewrite Hr; reflexivity.
  - destruct Hbody as [Hs|Hparse]; [contradiction|].
    destruct (Json.parse (body r)) as [data|] eqn:Ep; [|congruence].
    pose proof (answered_ok credentials token r net log Ht Hne Hnet data
                  Hok H204 Ep) as Hr.
    destruct call; try discriminate; open_operation; rewrite Hr; reflexivity.
Qed.

(** X11, instance: a deletion answered by 200 and a record. *)
Lemma nothing_is_returned_witness :
  fst (invoke
         (createLoomClient
            {| Env.accessToken := Some "tok"; Env.baseUrl := None |})
         (DeleteVideo "v1")
         (Spec.answers (Spec.respond 200 [] "{'id':'v1','deleted':true}")) [])
  = Return Undefined.
Proof.
  apply (nothing_is_returned
           {| Env.accessToken := Some "tok"; Env.baseUrl := None |}
           "tok" (DeleteVideo "v1")
           (Spec.respond 200 [] "{'id':'v1','deleted':true}")
           (Spec.answers (Spec.respond 200 [] "{'id':'v1','deleted':true}"))
           []).
  - reflexivity.
  - discriminate.
  - reflexivity.
  - reflexivity.
  - reflexivity.
  - right. vm_compute. discriminate.
Defined.

(** X12. updateVideo is the one operation that hands the body of the
    response on as it is: whatever JSON value an ok response holds is
    returned unchanged, with no field read, renamed or checked. *)
Theorem updateVideo_returns_the_body (credentials : Env.TenantCredentials)
        (token videoId : string) (params : Value) (r : Response)
        (data : Value) (net : Network) (log : list FetchCall) :
  Env.accessToken credentials = Some token ->
  token <> "" ->
  (forall c, net c = Fulfilled r) ->
  ok r = true ->
  status r <> 204 ->
  Json.parse (body r) = Some data ->
  fst (invoke (createLoomClient credentials) (UpdateVideo videoId params)
         net log)
  = Return data.
Proof.
  intros Ht Hne Hnet Hok H204 Hparse.
  open_operation.
  rewrite (answered_ok credentials token r net log Ht Hne Hnet data
             Hok H204 Hparse).
  reflexivity.
Qed.

(** X12, instance: a body that is not the declared [{ id }]. *)
Lemma updateVideo_returns_the_body_witness :
  fst (invoke
         (createLoomClient
            {| Env.accessToken := Some "tok"; Env.baseUrl := None |})
         (UpdateVideo "v1" (Object [("title", Str "Demo")]))
         (Spec.answers (Spec.respond 200 [] "['updated', 1]")) [])
  = Return (Array [Str "updated"; Number (Int 1)]).
Proof.
  apply (updateVideo_returns_the_body
           {| Env.accessToken := Some "tok"; Env.baseUrl := None |}
           "tok" "v1" (Object [("title", Str "Demo")])
           (Spec.respond 200 [] "['updated', 1]")
           (Array [Str "updated"; Number (Int 1)])
           (Spec.answers (Spec.respond 200 [] "['updated', 1]")) []).
  - reflexivity.
  - discriminate.
  - reflexivity.
  - reflexivity.
  - discriminate.
  - reflexivity.
Defined.

(** ** Records and collections *)

Lemma lookup_map {A B : Type} (g : A -> B) (k : string)
      (ps : list (string * A)) :
  lookup k (List.map (fun f => (fst f, g (snd f))) ps)
  = option_map g (lookup k ps).
Proof.
  induction ps as [|[k' a] ps IH]; simpl; [reflexivity|].
  destruct (String.eqb k k'); [reflexivity | exact IH].
Qed.

Lemma field_renamed (fields : list (string * string)) (src : Value)
      (name : string) :
  Spec.field (Spec.renamed fields src) name
  = match lookup name fields with
    | Some key => Spec.field src key
    | None => Undefined
    end.
Proof.
  unfold Spec.renamed. simpl. rewrite lookup_map.
  destruct (lookup name fields); reflexivity.
Qed.

(** X13. An operation that returns one record returns the wire record
    under its internal names: the result has the fields of the operation's
    table and no other, each with the value of its wire field, unchanged
    and unchecked ([undefined] when the wire record lacks it); every other
    field of the wire record is dropped. *)
Theorem record_is_renamed (credentials : Env.TenantCredentials)
        (token : string) (call : Call) (table : list (string * string))
        (r : Response) (data : Value) (net : Network)
        (log : list FetchCall) :
  Env.accessToken credentials = Some token ->
  token <> "" ->
  (forall c, net c = Fulfilled r) ->
  ok r = true ->
  status r <> 204 ->
  Json.parse (body r) = Some data ->
  Spec.readable data ->
  Spec.record_of call = Some table ->
  fst (invoke (createLoomClient credentials) call net log)
  = Return (Spec.renamed table data)
  /\ forall name,
       Spec.field (Spec.renamed table data) name
       = match lookup name table with
         | Some key => Spec.field data key
         | None => Undefined
         end.
Proof.
  intros Ht Hne Hnet Hok H204 Hparse Hdata Htable.
  split; [|intro name; apply field_renamed].
  pose proof (answered_ok credentials token r net log Ht Hne Hnet data
                Hok H204 Hparse) as Hr.
  destruct call; try discriminate; injection Htable as <-;
    open_operation; rewrite Hr; cbv [lift fst];
    apply pick_readable; exact Hdata.
Qed.

(** X13, instance: a new status value passes, a field outside the table
    does not. *)
Lemma record_is_renamed_witness :
  exists video,
    fst (invoke
           (createLoomClient
              {| Env.accessToken := Some "tok"; Env.baseUrl := None |})
           (DuplicateVideo "v1")
           (Spec.answers
              (Spec.respond 200 []
                 "{'id':'v2','status':'archived','created_at':'2024-01-01','embed_url':'https://e/v2'}"))
           [])
    = Return video
    /\ Spec.field video "status" = Str "archived"
    /\ Spec.field video "createdAt" = Str "2024-01-01"
    /\ Spec.field video "title" = Undefined
    /\ Spec.field video "embedUrl" = Undefined
    /\ Spec.field video "embed_url" = Undefined.
Proof.
  destruct (record_is_renamed
              {| Env.accessToken := Some "tok"; Env.baseUrl := None |}
              "tok" (DuplicateVideo "v1") duplicate_fields
              (Spec.respond 200 []
                 "{'id':'v2','status':'archived','created_at':'2024-01-01','embed_url':'https://e/v2'}")
              (Object [("id", Str "v2"); ("status", Str "archived");
                       ("created_at", Str "2024-01-01");
                       ("embed_url", Str "https://e/v2")])
              (Spec.answers
                 (Spec.respond 200 []
                    "{'id':'v2','status':'archived','created_at':'2024-01-01','embed_url':'https://e/v2'}"))
              [])
    as (Hresult & Hfield).
  - reflexivity.
  - discriminate.
  - reflexivity.
  - reflexivity.
  - discriminate.
  - reflexivity.
  - split; discriminate.
  - reflexivity.
  - eexists. split; [exact Hresult|].
    rewrite !Hfield. repeat split.
Defined.

Lemma items_mapped (fields : list (string * string)) (wire : list Value) :
  Forall Spec.readable wire ->
  mapC (pick fields) wire = Return (List.map (Spec.renamed fields) wire).
Proof.
  induction 1 as [|x wire Hx _ IH]; [reflexivity|].
  rewrite mapC_cons, (pick_readable fields x Hx), IH. reflexivity.
Qed.

Lemma fields_read (fields : list (string * string)) (k : string)
      (wire : list Value) :
  mapC (fun t => get t k) (List.map (Spec.renamed fields) wire)
  = Return (List.map (fun x => Spec.field (Spec.renamed fields x) k) wire).
Proof.
  induction wire as [|x wire IH]; [reflexivity|].
  simpl List.map. rewrite mapC_cons, IH. reflexivity.
Qed.

(** Where the collection of the response is read. *)
Ltac read_collection Hdata Hfield :=
  cbv [lift fst paginated];
  rewrite ?(get_readable _ _ Hdata), ?Hfield; cbv [andThen Array_map].

Lemma texts_renamed (wire : list Value) :
  List.map (fun x => Spec.field (Spec.renamed segment_fields x) "text") wire
  = List.map (fun seg => Spec.field seg "text") wire.
Proof.
  apply List.map_ext. intro x. rewrite field_renamed. reflexivity.
Qed.

(** X14. An operation that returns a collection (the five listings,
    listComments, listWorkspaces, getTranscript) maps the wire array item by
    item: the result holds as many items as the wire array, in the same
    order, each the wire item under the internal names of the operation's
    table.  For getTranscript this is so when the texts of the segments can
    be joined, as strings can: it joins them before it returns. *)
Theorem collection_is_mapped (credentials : Env.TenantCredentials)
        (token : string) (call : Call) (key : string)
        (table : list (string * string)) (r : Response) (data : Value)
        (wire : list Value) (net : Network) (log : list FetchCall) :
  Env.accessToken credentials = Some token ->
  token <> "" ->
  (forall c, net c = Fulfilled r) ->
  ok r = true ->
  status r <> 204 ->
  Json.parse (body r) = Some data ->
  Spec.readable data ->
  Spec.collection_of call = Some (key, table) ->
  Spec.field data key = Array wire ->
  Forall Spec.readable wire ->
  (forall videoId,
      call = GetTranscript videoId ->
      converts (Array (List.map (fun seg => Spec.field seg "text") wire))
      = true) ->
  exists result,
    fst (invoke (createLoomClient credentials) call net log) = Return result
    /\ Spec.items_of call result
       = Array (List.map (Spec.renamed table) wire).
Proof.
  intros Ht Hne Hnet Hok H204 Hparse Hdata Hcoll Hfield Hwire Hjoin.
  pose proof (answered_ok credentials token r net log Ht Hne Hnet data
                Hok H204 Hparse) as Hr.
  destruct call; try discriminate; injection Hcoll as <- <-;
    open_operation; rewrite Hr; read_collection Hdata Hfield;
    rewrite (items_mapped _ wire Hwire);
    rewrite ?fields_read, ?texts_renamed;
    try (unfold join; rewrite (Hjoin _ eq_refl));
    eexists; split; reflexivity.
Qed.

(** X14, instance: two comments, the second without an author. *)
Lemma collection_is_mapped_witness :
  fst (invoke
         (createLoomClient
            {| Env.accessToken := Some "tok"; Env.baseUrl := None |})
         (ListComments "v1")
         (Spec.answers
            (Spec.respond 200 []
               "{'comments':[{'id':'c1','created_at':'t1'},{'id':'c2'}]}"))
         [])
  = Return
      (Array
         [Spec.renamed comment_fields
            (Object [("id", Str "c1"); ("created_at", Str "t1")]);
          Spec.renamed comment_fields (Object [("id", Str "c2")])]).
Proof.
  destruct (collection_is_mapped
              {| Env.accessToken := Some "tok"; Env.baseUrl := None |}
              "tok" (ListComments "v1") "comments" comment_fields
              (Spec.respond 200 []
                 "{'comments':[{'id':'c1','created_at':'t1'},{'id':'c2'}]}")
              (Object
                 [("comments",
                    Array [Object [("id", Str "c1"); ("created_at", Str "t1")];
                           Object [("id", Str "c2")]])])
              [Object [("id", Str "c1"); ("created_at", Str "t1")];
               Object [("id", Str "c2")]]
              (Spec.answers
                 (Spec.respond 200 []
                    "{'comments':[{'id':'c1','created_at':'t1'},{'id':'c2'}]}"))
              [])
    as (result & Hresult & Hitems).
  - reflexivity.
  - discriminate.
  - reflexivity.
  - reflexivity.
  - discriminate.
  - reflexivity.
  - split; discriminate.
  - reflexivity.
  - reflexivity.
  - repeat constructor; discriminate.
  - discriminate.
  - rewrite Hresult. simpl in Hitems. rewrite Hitems. reflexivity.
Defined.

(** X15. When the response does not hold an array in the field of the
    collection (the field is missing, [null], or anything else), the
    operation throws a TypeError: a response without the collection is a
    failure, not an empty result. *)
Theorem collection_must_be_an_array (credentials : Env.TenantCredentials)
        (token : string) (call : Call) (key : string)
        (table : list (string * string)) (r : Response) (data : Value)
        (net : Network) (log : list FetchCall) :
  Env.accessToken credentials = Some token ->
  token <> "" ->
  (forall c, net c = Fulfilled r) ->
  ok r = true ->
  status r <> 204 ->
  Json.parse (body r) = Some data ->
  Spec.collection_of call = Some (key, table) ->
  (forall items, Spec.field data key <> Array items) ->
  exists text,
    fst (invoke (createLoomClient credentials) call net log)
    = Throw (TypeError text).
Proof.
  intros Ht Hne Hnet Hok H204 Hparse Hcoll Hfield.
  pose proof (answered_ok credentials token r net log Ht Hne Hnet data
                Hok H204 Hparse) as Hr.
  destruct call; try discriminate; injection Hcoll as <- <-;
    open_operation; rewrite Hr; cbv [lift fst paginated];
    (destruct data as [| |b|n|s|l|properties]; simpl;
     try (eexists; reflexivity));
    simpl in Hfield;
    (destruct (lookup _ properties) as [[| |b|n|s|l|ps]|]; simpl;
     try (eexists; reflexivity));
    exfalso; apply (Hfield l); reflexivity.
Qed.

(** X15, instance: a page of folders without the [folders] field. *)
Lemma collection_must_be_an_array_witness :
  exists text,
    fst (invoke
           (createLoomClient
              {| Env.accessToken := Some "tok"; Env.baseUrl := None |})
           (ListFolders None)
           (Spec.answers (Spec.respond 200 [] "{'next_cursor':null}")) [])
    = Throw (TypeError text).
Proof.
  apply (collection_must_be_an_array
           {| Env.accessToken := Some "tok"; Env.baseUrl := None |}
           "tok" (ListFolders None) "folders" folder_fields
           (Spec.respond 200 [] "{'next_cursor':null}")
           (Object [("next_cursor", Null)])
           (Spec.answers (Spec.respond 200 [] "{'next_cursor':null}")) []).
  - reflexivity.
  - discriminate.
  - reflexivity.
  - reflexivity.
  - discriminate.
  - reflexivity.
  - reflexivity.
  - discriminate.
Defined.

Lemma pick_unreadable (fields : list (string * string)) (src : Value) :
  fields <> [] ->
  src = Undefined \/ src = Null ->
  exists text, pick fields src = Throw (TypeError text).
Proof.
  intros Hfields Hsrc. destruct fields as [|f fields]; [congruence|].
  unfold pick. rewrite mapC_cons.
  destruct Hsrc as [-> | ->]; eexists; reflexivity.
Qed.

Lemma items_poisoned (fields : list (string * string)) (wire : list Value) :
  fields <> [] ->
  In Null wire ->
  exists text, mapC (pick fields) wire = Throw (TypeError text).
Proof.
  intros Hfields. induction wire as [|x wire IH]; intro Hin; [destruct Hin|].
  rewrite mapC_cons.
  destruct x as [| |b|n|s|l|ps];
    try (destruct (pick_unreadable fields _ Hfields (or_introl eq_refl))
           as (text & ->); exists text; reflexivity);
    try (destruct (pick_unreadable fields _ Hfields (or_intror eq_refl))
           as (text & ->); exists text; reflexivity);
    (destruct Hin as [Hx|Hin]; [discriminate|]);
    (rewrite pick_readable by (split; discriminate));
    destruct (IH Hin) as (text & ->); exists text; reflexivity.
Qed.

(** X16. One [null] among the items of the wire array makes the whole
    operation throw a TypeError: no item of the collection is returned,
    not even those that come before it. *)
Theorem null_item_fails_the_collection (credentials : Env.TenantCredentials)
        (token : string) (call : Call) (key : string)
        (table : list (string * string)) (r : Response) (data : Value)
        (wire : list Value) (net : Network) (log : list FetchCall) :
  Env.accessToken credentials = Some token ->
  token <> "" ->
  (forall c, net c = Fulfilled r) ->
  ok r = true ->
  status r <> 204 ->
  Json.parse (body r) = Some data ->
  Spec.readable data ->
  Spec.collection_of call = Some (key, table) ->
  Spec.field data key = Array wire ->
  In Null wire ->
  exists text,
    fst (invoke (createLoomClient credentials) call net log)
    = Throw (TypeError text).
Proof.
  intros Ht Hne Hnet Hok H204 Hparse Hdata Hcoll Hfield Hwire.
  pose proof (answered_ok credentials token r net log Ht Hne Hnet data
                Hok H204 Hparse) as Hr.
  destruct call; try discriminate; injection Hcoll as <- <-;
    open_operation; rewrite Hr; read_collection Hdata Hfield;
    match goal with
    | |- context [mapC (pick ?fields) wire] =>
        destruct (items_poisoned fields wire ltac:(discriminate) Hwire)
          as (text & ->)
    end;
    exists text; reflexivity.
Qed.

(** X16, instance: a page of spaces whose second item is [null]. *)
Lemma null_item_fails_the_collection_witness :
  exists text,
    fst (invoke
           (createLoomClient
              {| Env.accessToken := Some "tok"; Env.baseUrl := None |})
           (ListSpaces None)
           (Spec.answers (Spec.respond 200 [] "{'spaces':[{'id':'s1'},null]}"))
           [])
    = Throw (TypeError text).
Proof.
  apply (null_item_fails_the_collection
           {| Env.accessToken := Some "tok"; Env.baseUrl := None |}
           "tok" (ListSpaces None) "spaces" space_fields
           (Spec.respond 200 [] "{'spaces':[{'id':'s1'},null]}")
           (Object [("spaces", Array [Object [("id", Str "s1")]; Null])])
           [Object [("id", Str "s1")]; Null]
           (Spec.answers (Spec.respond 200 [] "{'spaces':[{'id':'s1'},null]}"))
           []).
  - reflexivity.
  - discriminate.
  - reflexivity.
  - reflexivity.
  - discriminate.
  - reflexivity.
  - split; discriminate.
  - reflexivity.
  - reflexivity.
  - right. left. reflexivity.
Defined.

(** ** Operations built from other operations *)

(** X17. moveVideoToFolder is a partial video update: it issues the
    request of updateVideo with the single field [folder_id], fails exactly
    when that update fails, with the same error, and otherwise returns
    [undefined] in place of the body of the response. *)
Theorem moveVideoToFolder_is_an_update (this : LoomClientImpl)
        (videoId folderId : string) (net : Network) (log : list FetchCall) :
  snd (invoke this (MoveVideoToFolder videoId folderId) net log)
  = snd (invoke this
           (UpdateVideo videoId (Object [("folder_id", Str folderId)]))
           net log)
  /\ fst (invoke this (MoveVideoToFolder videoId folderId) net log)
     = (_ <~ fst (invoke this
                    (UpdateVideo videoId (Object [("folder_id", Str folderId)]))
                    net log) ;;
        Return Undefined).
Proof.
  open_operation.
  destruct (request this _ _ net log) as [[data|e] log']; split; reflexivity.
Qed.

(** X18. getEmbedHtml is getVideo followed by local work: it issues the
    request of getVideo and no other, and throws what getVideo throws.
    When getVideo returns a video, getEmbedHtml returns a result that has
    the one field [html], a string, unless the embed URL of the video cannot
    be converted to a string (an object with a [toString] property of its
    own): then the template literal throws a TypeError. *)
Theorem getEmbedHtml_follows_getVideo (this : LoomClientImpl)
        (videoId : string) (params : option EmbedParams) (net : Network)
        (log : list FetchCall) :
  snd (invoke this (GetEmbedHtml videoId params) net log)
  = snd (invoke this (GetVideo videoId) net log)
  /\ match fst (invoke this (GetVideo videoId) net log) with
     | Throw e =>
         fst (invoke this (GetEmbedHtml videoId params) net log) = Throw e
     | Return video =>
         if converts (Spec.field video "embedUrl") then
           exists html,
             fst (invoke this (GetEmbedHtml videoId params) net log)
             = Return (Object [("html", Str html)])
         else
           exists text,
             fst (invoke this (GetEmbedHtml videoId params) net log)
             = Throw (TypeError text)
     end.
Proof.
  open_operation.
  destruct (request this _ _ net log) as [[data|e] log'];
    [|split; reflexivity].
  cbv [lift]. destruct (pick video_fields data) as [video|e] eqn:E;
    [|split; reflexivity].
  destruct (pick_Object _ _ _ E) as [props ->].
  cbn [get fst snd Spec.field]. unfold interpolate, or_else.
  destruct (lookup "embedUrl" props) as [known|]; cbn [ToBoolean converts];
    [|split; [reflexivity | eexists; reflexivity]].
  destruct (ToBoolean known) eqn:Etruthy.
  - destruct (converts known);
      (split; [reflexivity | eexists; reflexivity]).
  - assert (Hc : converts known = true).
    { destruct known as [| |b|n|s|l|ps]; try reflexivity; discriminate. }
    rewrite Hc. cbn [converts].
    split; [reflexivity | eexists; reflexivity].
Qed.

(** ** Paths and queries *)

(** X19. An identifier is placed in the path as it is, with no character
    escaped, so that an identifier that holds a slash addresses another
    endpoint: getVideo on an id followed by [/transcript], [/analytics] or
    [/comments] issues exactly the request of getTranscript,
    getVideoAnalytics or listComments on that id. *)
Theorem identifier_is_not_escaped (this : LoomClientImpl) (videoId : string)
        (net : Network) (log : list FetchCall) :
  snd (invoke this (GetVideo (videoId ++ "/transcript")) net log)
  = snd (invoke this (GetTranscript videoId) net log)
  /\ snd (invoke this (GetVideo (videoId ++ "/analytics")) net log)
     = snd (invoke this (GetVideoAnalytics videoId) net log)
  /\ snd (invoke this (GetVideo (videoId ++ "/comments")) net log)
     = snd (invoke this (ListComments videoId) net log).
Proof.
  open_operation.
  repeat split;
    destruct (request this _ _ net log) as [[data|e] log'];
    try reflexivity; cbv [lift ret]; split_matches; reflexivity.
Qed.

Lemma urlencode_byte_safe (c : ascii) :
  Spec.every Spec.form_safe (urlencode_byte c) = true.
Proof.
  destruct c as [b0 b1 b2 b3 b4 b5 b6 b7];
    destruct b0, b1, b2, b3, b4, b5, b6, b7; reflexivity.
Qed.

Lemma every_append (p : ascii -> bool) (a b : string) :
  Spec.every p (a ++ b) = (Spec.every p a && Spec.every p b)%bool.
Proof.
  induction a as [|c a IH]; simpl; [reflexivity|].
  rewrite IH. apply andb_assoc.
Qed.

Lemma urlencode_safe (s : string) :
  Spec.every Spec.form_safe (urlencode s) = true.
Proof.
  induction s as [|c s IH]; [reflexivity|].
  simpl urlencode. rewrite every_append, urlencode_byte_safe, IH. reflexivity.
Qed.

Lemma urldecode_byte (c : ascii) (rest : string) :
  Spec.urldecode (urlencode_byte c ++ rest) = String c (Spec.urldecode rest).
Proof.
  destruct c as [b0 b1 b2 b3 b4 b5 b6 b7];
    destruct b0, b1, b2, b3, b4, b5, b6, b7; reflexivity.
Qed.

Lemma urldecode_urlencode (s : string) : Spec.urldecode (urlencode s) = s.
Proof.
  induction s as [|c s IH]; [reflexivity|].
  simpl urlencode. rewrite urldecode_byte, IH. reflexivity.
Qed.

(** X20. The text of a search goes into the query string escaped: the
    request URL of searchVideos is the base URL, [/videos/search?q=], the
    urlencoded text, and then nothing or the pagination parameters behind an
    ampersand.  The encoded text is made of unreserved characters, plus and
    percent signs only, so that it cannot end the parameter or start
    another one, and it decodes to the text that was given. *)
Theorem search_query_is_escaped (this : LoomClientImpl)
        (token query : string) (params : option ListParams) (net : Network)
        (log : list FetchCall) :
  Env.accessToken (credentials this) = Some token ->
  token <> "" ->
  exists sent encoded more,
    snd (invoke this (SearchVideos query params) net log)
    = (log ++ [sent])%list
    /\ url sent = baseUrl this ++ "/videos/search?q=" ++ encoded ++ more
    /\ Spec.every Spec.form_safe encoded = true
    /\ Spec.urldecode encoded = query
    /\ (more = "" \/ exists parameters, more = String "&" parameters).
Proof.
  intros Ht Hne. unfold invoke, searchVideos.
  rewrite bind_lift_log, (request_log this _ _ net log token Ht Hne).
  unfold pagination, set_string, set_number, opt.
  destruct params as [[[n|] [c|]]|]; simpl;
    try destruct (number_truthy n); try destruct (string_truthy c); simpl;
    eexists; exists (urlencode query); eexists;
    (split; [reflexivity|]); simpl;
    (split; [reflexivity || (rewrite append_empty; reflexivity)|]);
    (split; [apply urlencode_safe|]);
    (split; [apply urldecode_urlencode|]);
    first [left; reflexivity | right; eexists; reflexivity].
Qed.

(** X20, instance: a text that holds an ampersand, an equals sign and a
    space. *)
Lemma search_query_is_escaped_witness :
  exists sent encoded more,
    snd (invoke
           (createLoomClient
              {| Env.accessToken := Some "tok"; Env.baseUrl := None |})
           (SearchVideos "a&b=c d" None) Spec.offline [])
    = [sent]
    /\ url sent
       = "https://api.loom.com/v1" ++ "/videos/search?q=" ++ encoded ++ more
    /\ Spec.every Spec.form_safe encoded = true
    /\ Spec.urldecode encoded = "a&b=c d"
    /\ (more = "" \/ exists parameters, more = String "&" parameters).
Proof.
  apply (search_query_is_escaped
           (createLoomClient
              {| Env.accessToken := Some "tok"; Env.baseUrl := None |})
           "tok" "a&b=c d" None Spec.offline []).
  - reflexivity.
  - discriminate.
Defined.

(** X21. The video URL of getOEmbed goes into the query string escaped,
    as the first parameter, and the sizes follow it only when they are
    truthy: the request URL is the base URL, [/oembed?url=], the urlencoded
    URL, then [&maxwidth=] and the width when the width is truthy, then
    [&maxheight=] and the height when the height is truthy, and nothing
    else.  So what follows the URL is empty or starts with an ampersand, and
    when neither size is given, or both are 0, nothing follows. *)
Theorem oembed_url_is_escaped (this : LoomClientImpl)
        (token target : string) (params : option OEmbedParams)
        (net : Network) (log : list FetchCall) :
  Env.accessToken (credentials this) = Some token ->
  token <> "" ->
  exists sent encoded more,
    snd (invoke this (GetOEmbed target params) net log)
    = (log ++ [sent])%list
    /\ url sent = baseUrl this ++ "/oembed?url=" ++ encoded ++ more
    /\ encoded = urlencode target
    /\ more = Spec.size_parameter "maxwidth" (opt maxWidth params)
              ++ Spec.size_parameter "maxheight" (opt maxHeight params)
    /\ Spec.every Spec.form_safe encoded = true
    /\ Spec.urldecode encoded = target
    /\ (more = "" \/ exists parameters, more = String "&" parameters)
    /\ (opt_number_truthy (opt maxWidth params) = false ->
        opt_number_truthy (opt maxHeight params) = false ->
        more = "").
Proof.
  intros Ht Hne. unfold invoke, getOEmbed.
  rewrite bind_lift_log, (request_log this _ _ net log token Ht Hne).
  unfold set_number, opt, Spec.size_parameter.
  destruct params as [[[w|] [h|]]|]; simpl;
    try destruct (number_truthy w); try destruct (number_truthy h); simpl;
    eexists; exists (urlencode target); eexists;
    (split; [reflexivity|]); simpl;
    (split; [reflexivity || (rewrite append_empty; reflexivity)|]);
    (split; [reflexivity|]);
    (split; [rewrite ?append_empty; reflexivity|]);
    (split; [apply urlencode_safe|]);
    (split; [apply urldecode_urlencode|]);
    (split; [first [left; reflexivity | right; eexists; reflexivity]|]);
    intros; try discriminate; reflexivity.
Qed.

(** X21, instance: a share URL, a width of 0 and a height of 360. *)
Lemma oembed_url_is_escaped_witness :
  exists sent,
    snd (invoke
           (createLoomClient
              {| Env.accessToken := Some "tok"; Env.baseUrl := None |})
           (GetOEmbed "https://www.loom.com/share/abc?t=1&x=2"
              (Some {| maxWidth := Some (Int 0);
                       maxHeight := Some (Int 360) |}))
           Spec.offline [])
    = [sent]
    /\ url sent
       = "https://api.loom.com/v1/oembed?url="
         ++ "https%3A%2F%2Fwww.loom.com%2Fshare%2Fabc%3Ft%3D1%26x%3D2"
         ++ "&maxheight=360".
Proof.
  destruct (oembed_url_is_escaped
              (createLoomClient
                 {| Env.accessToken := Some "tok"; Env.baseUrl := None |})
              "tok" "https://www.loom.com/share/abc?t=1&x=2"
              (Some {| maxWidth := Some (Int 0);
                       maxHeight := Some (Int 360) |})
              Spec.offline [])
    as (sent & encoded & more & Hs & Hurl & Hencoded & Hmore & _).
  - reflexivity.
  - discriminate.
  - exists sent. split; [exact Hs|].
    rewrite Hurl, Hencoded, Hmore. reflexivity.
Defined.

(** ** Methods *)

(** X22. The method of the request follows the kind of the operation:
    the operations that read (get, list, search, testConnection, and
    getEmbedHtml) leave the method to the default of [fetch], GET, and send
    no body; create, add and duplicate send POST, update and move send
    PATCH, delete and remove send DELETE, and a DELETE request has no
    body. *)
Theorem method_follows_the_operation (this : LoomClientImpl) (token : string)
        (call : Call) (net : Network) (log : list FetchCall) :
  Env.accessToken (credentials this) = Some token ->
  token <> "" ->
  exists sent,
    snd (invoke this call net log) = (log ++ [sent])%list
    /\ method sent = Spec.verb call
    /\ (Spec.verb call = None \/ Spec.verb call = Some "DELETE" ->
        request_body sent = None).
Proof.
  intros Ht Hne.
  assert (Hone : forall c, c <> TestConnection ->
            exists sent,
              snd (invoke this c net log) = (log ++ [sent])%list
              /\ method sent = Spec.verb c
              /\ (Spec.verb c = None \/ Spec.verb c = Some "DELETE" ->
                  request_body sent = None)).
  { intros c Hc.
    destruct c; try congruence; open_operation;
      match goal with
      | |- context [request this ?e ?o net log] =>
          pose proof (request_log this e o net log token Ht Hne) as Hl;
          exists (Spec.issued this e o token);
          destruct (request this e o net log) as [[data|e'] log'];
          simpl in Hl; subst log'
      end;
      (split; [cbv [lift ret]; split_matches; reflexivity|]);
      (split; [reflexivity|]);
      intros [H|H]; try discriminate H; reflexivity. }
  destruct call; try (apply Hone; discriminate).
  simpl invoke. rewrite testConnection_outcome. simpl fst. simpl snd.
  apply (Hone GetCurrentUser). discriminate.
Qed.

(** X22, instance: a deletion. *)
Lemma method_follows_the_operation_witness :
  exists sent,
    snd (invoke
           (createLoomClient
              {| Env.accessToken := Some "tok"; Env.baseUrl := None |})
           (RemoveVideoFromSpace "s1" "v1") Spec.offline [])
    = [sent]
    /\ method sent = Some "DELETE"
    /\ request_body sent = None.
Proof.
  destruct (method_follows_the_operation
              (createLoomClient
                 {| Env.accessToken := Some "tok"; Env.baseUrl := None |})
              "tok" (RemoveVideoFromSpace "s1" "v1") Spec.offline [])
    as (sent & Hs & Hm & Hb).
  - reflexivity.
  - discriminate.
  - exists sent. split; [exact Hs|]. split; [exact Hm|].
    apply Hb. right. reflexivity.
Defined.

(** ** Request bodies *)

Lemma string_body_char (c : ascii) (rest : string) :
  Json.string_body (Json.quote_char c ++ rest) None
  = Json.prepend (String c "") (Json.string_body rest None).
Proof.
  destruct c as [b0 b1 b2 b3 b4 b5 b6 b7];
    destruct b0, b1, b2, b3, b4, b5, b6, b7; reflexivity.
Qed.

(** Reading a string literal gives back the string that was quoted,
    whatever characters it holds. *)
Lemma string_body_quoted (s rest : string) :
  Json.string_body (Json.quote_chars s ++ String Json.dquote rest) None
  = Some (s, rest).
Proof.
  induction s as [|c s IH]; [reflexivity|].
  simpl Json.quote_chars. rewrite append_assoc, string_body_char, IH.
  reflexivity.
Qed.

Lemma quote_append (s rest : string) :
  Json.quote s ++ rest
  = String Json.dquote (Json.quote_chars s ++ String Json.dquote rest).
Proof. unfold Json.quote. simpl. rewrite append_assoc. reflexivity. Qed.


Lemma value_string (fuel : nat) (x : string) :
  Json.value (S fuel) (String Json.dquote x)
  = match Json.string_body x None with
    | Some (str, r) => Json.Read (Str str) r
    | None => Json.Malformed
    end.
Proof. reflexivity. Qed.

Lemma value_quoted (fuel : nat) (s rest : string) :
  Json.value (S fuel) (Json.quote s ++ rest) = Json.Read (Str s) rest.
Proof.
  rewrite quote_append, value_string, string_body_quoted. reflexivity.
Qed.

(** One member whose value is a string. *)
Lemma member_read (fuel : nat) (k v tail : string)
      (acc : list (string * Value)) :
  Json.members (S (S fuel)) (Json.quote k ++ ":" ++ Json.quote v ++ tail) acc
  = match Json.starts_with "," (Json.skip_ws tail),
          Json.starts_with "}" (Json.skip_ws tail) with
    | Some r, _ => Json.members (S fuel) r (assign k (Str v) acc)
    | None, Some r => Json.Read (Object (assign k (Str v) acc)) r
    | None, None => Json.Malformed
    end.
Proof.
  rewrite members_step, (quote_append k).
  change (Json.starts_with Json.dquote
            (Json.skip_ws (String Json.dquote ?x))) with (Some x).
  cbv beta iota. rewrite string_body_quoted.
  change (Json.starts_with ":" (Json.skip_ws (":" ++ ?x))) with (Some x).
  cbv beta iota. rewrite value_quoted. reflexivity.
Qed.

Lemma member_text_tail (k v tail : string) :
  (Json.quote k ++ ":" ++ Json.quote v) ++ tail
  = Json.quote k ++ ":" ++ Json.quote v ++ tail.
Proof. rewrite !append_assoc. reflexivity. Qed.

Lemma members_read (ps : list (string * string)) :
  forall (fuel : nat) (acc : list (string * Value)) (rest : string),
    ps <> [] ->
    (List.length ps < fuel)%nat ->
    Json.members fuel (Spec.members_text ps ++ "}" ++ rest) acc
    = Json.Read
        (Object (fold_left (fun a kv => assign (fst kv) (Str (snd kv)) a)
                   ps acc))
        rest.
Proof.
  induction ps as [|[k v] ps IH]; intros fuel acc rest Hne Hfuel;
    [congruence|].
  destruct fuel as [|[|fuel]]; simpl in Hfuel; try lia.
  destruct ps as [|kv ps].
  - change (Spec.members_text [(k, v)]) with (Json.quote k ++ ":" ++ Json.quote v).
    rewrite member_text_tail, member_read. reflexivity.
  - change (Spec.members_text ((k, v) :: kv :: ps))
      with ((Json.quote k ++ ":" ++ Json.quote v) ++ ","
            ++ Spec.members_text (kv :: ps)).
    rewrite (append_assoc (Json.quote k ++ ":" ++ Json.quote v)),
      member_text_tail, (append_assoc ","), member_read.
    change (Json.starts_with "," (Json.skip_ws ("," ++ ?x))) with (Some x).
    cbv beta iota.
    rewrite IH; [reflexivity | discriminate | simpl in *; lia].
Qed.

Lemma length_append (a b : string) :
  String.length (a ++ b) = (String.length a + String.length b)%nat.
Proof. induction a as [|c a IH]; simpl; [reflexivity|]. rewrite IH. reflexivity. Qed.

Lemma members_text_length (ps : list (string * string)) :
  (List.length ps <= String.length (Spec.members_text ps))%nat.
Proof.
  induction ps as [|[k v] ps IH]; [simpl; lia|].
  destruct ps as [|kv ps].
  - change (Spec.members_text [(k, v)]) with (Json.quote k ++ ":" ++ Json.quote v).
    rewrite length_append. simpl. lia.
  - change (Spec.members_text ((k, v) :: kv :: ps))
      with ((Json.quote k ++ ":" ++ Json.quote v) ++ ","
            ++ Spec.members_text (kv :: ps)).
    rewrite !length_append. simpl in *. lia.
Qed.

(** The text of an object whose values are strings parses to the object
    that assigning its members one after the other builds. *)
Lemma object_text_parsed (ps : list (string * string)) :
  Json.parse ("{" ++ Spec.members_text ps ++ "}")
  = Some (Object (fold_left (fun a kv => assign (fst kv) (Str (snd kv)) a)
                    ps [])).
Proof.
  destruct ps as [|kv ps]; [reflexivity|].
  unfold Json.parse, Json.fuel_for.
  remember (kv :: ps) as members eqn:Em.
  assert (Hlen : (List.length members
                  <= String.length ("{" ++ Spec.members_text members ++ "}"))%nat).
  { simpl. rewrite length_append. pose proof (members_text_length members).
    lia. }
  destruct (String.length ("{" ++ Spec.members_text members ++ "}")) as [|n] eqn:En;
    [discriminate|].
  replace (2 * S n + 2)%nat with (S (S (2 * n + 2))) by lia.
  rewrite value_step.
  change (Json.skip_ws ("{" ++ ?x)) with (String "{" x).
  cbv beta iota.
  change (Nat.eqb (Json.code "{") 123) with true. cbv beta iota.
  assert (Hq : exists x, Spec.members_text members = String Json.dquote x).
  { subst members. destruct kv as [k v]. destruct ps as [|kv' ps].
    - eexists. reflexivity.
    - eexists. reflexivity. }
  destruct Hq as (x & Hq).
  assert (Hskip : Json.skip_ws (Spec.members_text members ++ "}")
                  = Spec.members_text members ++ "}" ++ "").
  { rewrite Hq. reflexivity. }
  rewrite Hskip.
  assert (Hclose : Json.starts_with "}" (Spec.members_text members ++ "}" ++ "")
                   = None).
  { rewrite Hq. reflexivity. }
  rewrite Hclose.
  rewrite members_read; [reflexivity | subst; discriminate | lia].
Qed.

Lemma stringify_texts (ps : list (string * Value)) :
  Forall (fun kv => Spec.text_or_absent (snd kv) = true) ps ->
  Json.stringify (Object ps)
  = Some ("{" ++ Spec.members_text (Spec.texts ps) ++ "}").
Proof.
  intro Hps. simpl. unfold Spec.members_text. do 4 f_equal.
  induction Hps as [|[k v] ps Hv _ IH]; [reflexivity|].
  simpl. rewrite IH.
  destruct v; try discriminate; reflexivity.
Qed.

Lemma assign_new {A : Type} (k : string) (v : A) (acc : list (string * A)) :
  ~ In k (List.map fst acc) -> assign k v acc = (acc ++ [(k, v)])%list.
Proof.
  induction acc as [|[k' v'] acc IH]; intro Hk; [reflexivity|].
  simpl. destruct (String.eqb k k') eqn:E.
  - apply String.eqb_eq in E. exfalso. apply Hk. left. symmetry. exact E.
  - rewrite IH; [reflexivity|]. intro Hin. apply Hk. right. exact Hin.
Qed.

Lemma assign_all (ps : list (string * string)) :
  forall acc : list (string * Value),
    NoDup (List.map fst acc ++ List.map fst ps) ->
    fold_left (fun a kv => assign (fst kv) (Str (snd kv)) a) ps acc
    = (acc ++ List.map (fun kv => (fst kv, Str (snd kv))) ps)%list.
Proof.
  induction ps as [|[k v] ps IH]; intros acc Hnd; simpl.
  - rewrite app_nil_r. reflexivity.
  - rewrite assign_new.
    + rewrite IH.
      * rewrite <- app_assoc. reflexivity.
      * rewrite map_app. simpl. rewrite <- app_assoc. exact Hnd.
    + apply NoDup_remove_2 in Hnd. intro Hin. apply Hnd.
      apply in_or_app. left. exact Hin.
Qed.

Lemma texts_keys (ps : list (string * Value)) (k : string) :
  In k (List.map fst (Spec.texts ps)) -> In k (List.map fst ps).
Proof.
  induction ps as [|[k' v] ps IH]; simpl; [auto|].
  destruct v; simpl; intuition.
Qed.

Lemma texts_distinct (ps : list (string * Value)) :
  NoDup (List.map fst ps) -> NoDup (List.map fst (Spec.texts ps)).
Proof.
  induction ps as [|[k v] ps IH]; simpl; intro Hnd; [constructor|].
  inversion Hnd as [|x l Hk Hrest]; subst.
  destruct v; simpl; try (apply IH; exact Hrest).
  constructor; [|apply IH; exact Hrest].
  intro Hin. apply Hk. apply texts_keys. exact Hin.
Qed.

Lemma texts_defined (ps : list (string * Value)) :
  Forall (fun kv => Spec.text_or_absent (snd kv) = true) ps ->
  List.map (fun kv => (fst kv, Str (snd kv))) (Spec.texts ps)
  = Spec.defined ps.
Proof.
  induction 1 as [|[k v] ps Hv _ IH]; [reflexivity|].
  destruct v; try discriminate; simpl; rewrite <- IH; reflexivity.
Qed.

(** An object whose properties are strings, or absent, is written as a
    text that parses to the object of its strings. *)
Lemma text_object_round_trip (ps : list (string * Value)) :
  Forall (fun kv => Spec.text_or_absent (snd kv) = true) ps ->
  NoDup (List.map fst ps) ->
  exists text,
    Json.stringify (Object ps) = Some text
    /\ Json.parse text = Some (Object (Spec.defined ps)).
Proof.
  intros Hps Hnd. eexists. split; [apply stringify_texts; exact Hps|].
  rewrite object_text_parsed, assign_all.
  - simpl. rewrite texts_defined by exact Hps. reflexivity.
  - simpl. apply texts_distinct. exact Hnd.
Qed.

Lemma bind_ret_log {A B : Type} (m : M A) (b : B) (net : Network)
      (log : list FetchCall) :
  snd (bind m (fun _ => ret b) net log) = snd (m net log).
Proof.
  unfold bind, ret. destruct (m net log) as [[a|e] log']; reflexivity.
Qed.

(** X23. The body of an update is written so that it reads back: when
    the parameter object of updateVideo, createComment or updateFolder holds
    strings only, under distinct names, with some possibly absent, the body
    of the request is a JSON text that parses to the object of the strings
    given, whatever characters they hold (quotes, backslashes, control
    characters), and the absent ones are left out. *)
Theorem text_parameters_are_sent_intact (this : LoomClientImpl)
        (token id : string) (call : Call) (ps : list (string * Value))
        (net : Network) (log : list FetchCall) :
  Env.accessToken (credentials this) = Some token ->
  token <> "" ->
  Forall (fun kv => Spec.text_or_absent (snd kv) = true) ps ->
  NoDup (List.map fst ps) ->
  call = UpdateVideo id (Object ps) \/ call = CreateComment id (Object ps)
  \/ call = UpdateFolder id (Object ps) ->
  exists sent text,
    snd (invoke this call net log) = (log ++ [sent])%list
    /\ request_body sent = Some text
    /\ Json.parse text = Some (Object (Spec.defined ps)).
Proof.
  intros Ht Hne Hps Hnd Hcall.
  destruct (text_object_round_trip ps Hps Hnd) as (text & Hwrite & Hread).
  destruct Hcall as [-> | [-> | ->]]; unfold invoke.
  - unfold updateVideo. rewrite (request_log this _ _ net log token Ht Hne).
    eexists. exists text.
    split; [reflexivity|]. split; [exact Hwrite | exact Hread].
  - unfold createComment.
    rewrite bind_lift_log, (request_log this _ _ net log token Ht Hne).
    eexists. exists text.
    split; [reflexivity|]. split; [exact Hwrite | exact Hread].
  - unfold updateFolder.
    rewrite bind_lift_log, (request_log this _ _ net log token Ht Hne).
    eexists. exists text.
    split; [reflexivity|]. split; [exact Hwrite | exact Hread].
Qed.

(** X23, instance: the parameters that the update tool passes, with a
    title that holds quotes and a backslash, and no description. *)
Lemma text_parameters_are_sent_intact_witness :
  exists sent text,
    snd (invoke
           (createLoomClient
              {| Env.accessToken := Some "tok"; Env.baseUrl := None |})
           (UpdateVideo "v1"
              (Object [("title", Str (Json.wire "Q3 'final' C:\cut"));
                       ("description", Undefined);
                       ("privacy", Str "private")]))
           Spec.offline [])
    = [sent]
    /\ request_body sent = Some text
    /\ Json.parse text
       = Some (Object [("title", Str (Json.wire "Q3 'final' C:\cut"));
                       ("privacy", Str "private")]).
Proof.
  apply (text_parameters_are_sent_intact
           (createLoomClient
              {| Env.accessToken := Some "tok"; Env.baseUrl := None |})
           "tok" "v1"
           (UpdateVideo "v1"
              (Object [("title", Str (Json.wire "Q3 'final' C:\cut"));
                       ("description", Undefined);
                       ("privacy", Str "private")]))
           [("title", Str (Json.wire "Q3 'final' C:\cut"));
            ("description", Undefined);
            ("privacy", Str "private")]
           Spec.offline []).
  - reflexivity.
  - discriminate.
  - repeat constructor.
  - repeat constructor; simpl; intuition discriminate.
  - left. reflexivity.
Defined.

(** X24. The bodies that the client builds itself read back as the
    fields given: createFolder sends the name and, when a non-empty parent
    id is given, the parent id under [parent_id], and nothing else;
    addVideoToSpace sends the video id under [video_id]; moveVideoToFolder
    sends the folder id under [folder_id]; whatever characters the
    strings hold. *)
Theorem built_bodies_read_back (this : LoomClientImpl) (token : string)
        (net : Network) (log : list FetchCall) :
  Env.accessToken (credentials this) = Some token ->
  token <> "" ->
  (forall name parentId,
      exists sent text,
        snd (invoke this (CreateFolder name parentId) net log)
        = (log ++ [sent])%list
        /\ request_body sent = Some text
        /\ Json.parse text
           = Some (Object
                     (("name", Str name)
                        :: match parentId with
                           | Some p =>
                               if string_truthy p then [("parent_id", Str p)]
                               else []
                           | None => []
                           end)))
  /\ (forall spaceId videoId,
        exists sent text,
          snd (invoke this (AddVideoToSpace spaceId videoId) net log)
          = (log ++ [sent])%list
          /\ request_body sent = Some text
          /\ Json.parse text = Some (Object [("video_id", Str videoId)]))
  /\ (forall videoId folderId,
        exists sent text,
          snd (invoke this (MoveVideoToFolder videoId folderId) net log)
          = (log ++ [sent])%list
          /\ request_body sent = Some text
          /\ Json.parse text = Some (Object [("folder_id", Str folderId)])).
Proof.
  intros Ht Hne.
  assert (Hbody : forall ps : list (string * Value),
            Forall (fun kv => Spec.text_or_absent (snd kv) = true) ps ->
            NoDup (List.map fst ps) ->
            Spec.defined ps = ps ->
            exists text,
              Json.stringify (Object ps) = Some text
              /\ Json.parse text = Some (Object ps)).
  { intros ps Hps Hnd Hdef.
    destruct (text_object_round_trip ps Hps Hnd) as (text & Hw & Hr).
    exists text. rewrite Hdef in Hr. split; assumption. }
  split; [|split].
  - intros name parentId. unfold invoke, createFolder.
    rewrite bind_lift_log, (request_log this _ _ net log token Ht Hne).
    destruct parentId as [p|]; [destruct (string_truthy p)|]; simpl app;
      match goal with
      | |- context [with_body "POST" (Object ?ps)] =>
          destruct (Hbody ps) as (text & Hw & Hr);
          [repeat constructor
          | repeat constructor; simpl; intuition discriminate
          | reflexivity
          | eexists; exists text;
            split; [reflexivity|]; split; [exact Hw | exact Hr]]
      end.
  - intros spaceId videoId. unfold invoke, addVideoToSpace.
    rewrite bind_ret_log, (request_log this _ _ net log token Ht Hne).
    destruct (Hbody [("video_id", Str videoId)]) as (text & Hw & Hr);
      [repeat constructor
      | repeat constructor; simpl; intuition
      | reflexivity |].
    eexists; exists text.
    split; [reflexivity|]; split; [exact Hw | exact Hr].
  - intros videoId folderId. unfold invoke, moveVideoToFolder.
    rewrite bind_ret_log, (request_log this _ _ net log token Ht Hne).
    destruct (Hbody [("folder_id", Str folderId)]) as (text & Hw & Hr);
      [repeat constructor
      | repeat constructor; simpl; intuition
      | reflexivity |].
    eexists; exists text.
    split; [reflexivity|]; split; [exact Hw | exact Hr].
Qed.

(** X24, instance: a folder name with a quote and a backslash, and an
    empty parent id. *)
Lemma built_bodies_read_back_witness :
  exists sent text,
    snd (invoke
           (createLoomClient
              {| Env.accessToken := Some "tok"; Env.baseUrl := None |})
           (CreateFolder (Json.wire "Demos 'A' C:\B") (Some ""))
           Spec.offline [])
    = [sent]
    /\ request_body sent = Some text
    /\ Json.parse text
       = Some (Object [("name", Str (Json.wire "Demos 'A' C:\B"))]).
Proof.
  destruct (built_bodies_read_back
              (createLoomClient
                 {| Env.accessToken := Some "tok"; Env.baseUrl := None |})
              "tok" Spec.offline [])
    as (Hfolder & _ & _).
  - reflexivity.
  - discriminate.
  - exact (Hfolder (Json.wire "Demos 'A' C:\B") (Some "")).
Defined.

Lemma createRecordLink_sent (this : LoomClientImpl)
      (p : option RecordLinkParams) :
  createRecordLink this p = createRecordLink this (Some (Spec.sent_link p)).
Proof.
  unfold createRecordLink, Spec.sent_link, opt.
  destruct p as [[[t|] [f|] [n|]]|]; simpl;
    try destruct (string_truthy t) eqn:Et;
    try destruct (string_truthy f) eqn:Ef;
    try destruct (number_truthy n) eqn:En;
    simpl; rewrite ?Et, ?Ef, ?En; reflexivity.
Qed.

(** X25. createRecordLink leaves a falsy parameter out of the body: an
    empty title, an empty folder id and an expiry of 0 minutes (or NaN) are
    the same as no value.  The body of the POST request to [/record-links]
    is the JSON text of an object that has [title], [folder_id] and
    [expires_in_minutes], in this order, for the parameters that are truthy
    and no other field.  So two parameter objects that agree on their
    truthy values give the same request and the same outcome, and when
    nothing truthy is given the body is the empty object. *)
Theorem falsy_link_parameters_omitted (this : LoomClientImpl)
        (p p' : option RecordLinkParams) (net : Network)
        (log : list FetchCall) :
  Spec.sent_link p = Spec.sent_link p' ->
  invoke this (CreateRecordLink p) net log
  = invoke this (CreateRecordLink p') net log
  /\ (forall token,
        Env.accessToken (credentials this) = Some token ->
        token <> "" ->
        snd (invoke this (CreateRecordLink p) net log)
        = (log ++ [{| url := baseUrl this ++ "/record-links";
                      method := Some "POST";
                      request_headers := Spec.auth_headers token;
                      request_body :=
                        Json.stringify
                          (Object (Spec.link_fields (Spec.sent_link p))) |}])%list)
  /\ (opt_string_truthy (opt title p) = false ->
      title (Spec.sent_link p) = None)
  /\ (opt_string_truthy (opt folderId p) = false ->
      folderId (Spec.sent_link p) = None)
  /\ (opt_number_truthy (opt expiresInMinutes p) = false ->
      expiresInMinutes (Spec.sent_link p) = None)
  /\ (Spec.sent_link p
      = {| title := None; folderId := None; expiresInMinutes := None |} ->
      forall token,
        Env.accessToken (credentials this) = Some token ->
        token <> "" ->
        exists sent,
          snd (invoke this (CreateRecordLink p) net log)
          = (log ++ [sent])%list
          /\ request_body sent = Some "{}").
Proof.
  intro Hsame. simpl invoke. split; [|split; [|split; [|split; [|split]]]].
  - rewrite (createRecordLink_sent this p), (createRecordLink_sent this p'),
      Hsame.
    reflexivity.
  - intros token Ht Hne.
    unfold createRecordLink.
    rewrite bind_lift_log, (request_log this _ _ net log token Ht Hne).
    unfold Spec.issued, with_body, Spec.link_fields, Spec.sent_link, opt.
    cbn [init_method init_headers init_body].
    destruct p as [[[t|] [f|] [n|]]|]; cbn [title folderId expiresInMinutes];
      try destruct (string_truthy t);
      try destruct (string_truthy f);
      try destruct (number_truthy n);
      reflexivity.
  - unfold Spec.sent_link. cbn [title].
    destruct (opt title p) as [t|]; simpl; [|reflexivity].
    intros ->. reflexivity.
  - unfold Spec.sent_link. cbn [folderId].
    destruct (opt folderId p) as [f|]; simpl; [|reflexivity].
    intros ->. reflexivity.
  - unfold Spec.sent_link. cbn [expiresInMinutes].
    destruct (opt expiresInMinutes p) as [n|]; simpl; [|reflexivity].
    intros ->. reflexivity.
  - intros Hnone token Ht Hne.
    rewrite (createRecordLink_sent this p), Hnone.
    unfold createRecordLink.
    rewrite bind_lift_log, (request_log this _ _ net log token Ht Hne).
    eexists. split; reflexivity.
Qed.

(** X25, instance: a title beside an empty folder id and an expiry of 0
    minutes; the body has the title alone. *)
Lemma falsy_link_parameters_omitted_witness :
  invoke
    (createLoomClient {| Env.accessToken := Some "tok"; Env.baseUrl := None |})
    (CreateRecordLink
       (Some {| title := Some "Demo"; folderId := Some "";
                expiresInMinutes := Some (Int 0) |}))
    Spec.offline []
  = invoke
      (createLoomClient
         {| Env.accessToken := Some "tok"; Env.baseUrl := None |})
      (CreateRecordLink
         (Some {| title := Some "Demo"; folderId := None;
                  expiresInMinutes := None |}))
      Spec.offline []
  /\ snd (invoke
            (createLoomClient
               {| Env.accessToken := Some "tok"; Env.baseUrl := None |})
            (CreateRecordLink
               (Some {| title := Some "Demo"; folderId := Some "";
                        expiresInMinutes := Some (Int 0) |}))
            Spec.offline [])
     = [{| url := "https://api.loom.com/v1/record-links";
           method := Some "POST";
           request_headers := Spec.auth_headers "tok";
           request_body :=
             Json.stringify (Object [("title", Str "Demo")]) |}].
Proof.
  destruct (falsy_link_parameters_omitted
              (createLoomClient
                 {| Env.accessToken := Some "tok"; Env.baseUrl := None |})
              (Some {| title := Some "Demo"; folderId := Some "";
                       expiresInMinutes := Some (Int 0) |})
              (Some {| title := Some "Demo"; folderId := None;
                       expiresInMinutes := None |})
              Spec.offline [])
    as (Hsame & Hbody & _).
  - reflexivity.
  - split; [exact Hsame|].
    exact (Hbody "tok" eq_refl ltac:(discriminate)).
Defined.

(** ** The tools *)

(** Unfolds the handler of a tool down to its call of the client. *)
Ltac open_tool :=
  cbv [Tools.registerLoomTools Spec.operation invoke
       Tools.loom_get_current_user Tools.loom_list_videos Tools.loom_get_video
       Tools.loom_delete_video Tools.loom_search_videos
       Tools.loom_move_video_to_folder Tools.loom_duplicate_video
       Tools.loom_get_transcript Tools.loom_get_video_analytics
       Tools.loom_list_comments Tools.loom_create_comment
       Tools.loom_list_folders Tools.loom_create_folder Tools.loom_get_folder
       Tools.loom_update_folder Tools.loom_delete_folder
       Tools.loom_list_workspaces Tools.loom_get_workspace
       Tools.loom_list_spaces Tools.loom_get_space
       Tools.loom_list_space_videos Tools.loom_add_video_to_space
       Tools.loom_remove_video_from_space Tools.loom_get_oembed
       Tools.loom_get_embed_html Tools.loom_create_record_link
       Tools.caught try_catch].

(** What an operation returns is an object or an array, unless it is one
    of those that return nothing, or updateVideo. *)
Lemma invoke_returns_structure (this : LoomClientImpl) (call : Call)
      (net : Network) (log log' : list FetchCall) (v : Value) :
  Spec.returns_nothing call = false ->
  (forall videoId params, call <> UpdateVideo videoId params) ->
  invoke this call net log = (Return v, log') ->
  (exists ps, v = Object ps) \/ (exists l, v = Array l).
Proof.
  intros Hvoid Hupdate.
  destruct call; try discriminate;
    try (exfalso; eapply Hupdate; reflexivity);
    try (open_operation;
         destruct (request this _ _ net log) as [[data|e] l];
         [|discriminate];
         cbv [lift ret pick paginated andThen]; split_matches;
         intro H; inversion H; eauto).
  simpl invoke. rewrite testConnection_outcome.
  destruct (fst (getCurrentUser this net log)) as [user|e];
    [destruct (interpolate (Spec.field user "name"))|];
    intro H; inversion H; left; eexists; reflexivity.
Qed.

Lemma pretty_Object (ps : list (string * Value)) :
  exists text, Tools.pretty (Object ps) = Str text.
Proof.
  unfold Tools.pretty. cbn [Json.stringify_gap].
  match goal with
  | |- context [match ?l with [] => _ | _ :: _ => _ end] => destruct l
  end; eexists; reflexivity.
Qed.

Lemma pretty_Array (l : list Value) :
  exists text, Tools.pretty (Array l) = Str text.
Proof.
  unfold Tools.pretty. cbn [Json.stringify_gap].
  match goal with
  | |- context [match ?l with [] => _ | _ :: _ => _ end] => destruct l
  end; eexists; reflexivity.
Qed.

(** X26. No failure leaves a tool: the handler of every tool returns a
    result, whatever its operation does.  It calls one operation of the
    client and the requests issued are those of that operation; when the
    operation throws, the result is the failure result, marked [isError],
    whose text is [Error: ] followed by the formatted error; when it
    returns, the result is a text result without that mark, and its text is
    a string. *)
Theorem tool_never_throws (formatError : Thrown -> string)
        (client : LoomClientImpl) (tool : Tools.ToolCall) (net : Network)
        (log : list FetchCall) :
  exists result,
    Tools.registerLoomTools formatError client tool net log
    = (Return result, snd (invoke client (Spec.operation tool) net log))
    /\ match fst (invoke client (Spec.operation tool) net log) with
       | Throw e => result = Spec.failure (formatError e)
       | Return _ => exists text, result = Spec.success (Str text)
       end.
Proof.
  assert (Hshape : forall value log',
            invoke client (Spec.operation tool) net log = (Return value, log') ->
            Spec.returns_nothing (Spec.operation tool) = false ->
            exists text, Tools.pretty value = Str text).
  { intros value log' Hinvoke Hvoid.
    destruct (invoke_returns_structure client (Spec.operation tool) net log
                log' value Hvoid) as [[ps ->] | [l ->]].
    - destruct tool; discriminate.
    - exact Hinvoke.
    - apply pretty_Object.
    - apply pretty_Array. }
  destruct (invoke client (Spec.operation tool) net log) as [[value|e] log']
    eqn:Einvoke.
  - destruct tool; revert Einvoke; open_tool;
      unfold bind at 1; intro Einvoke; rewrite Einvoke;
      first [ destruct (Hshape value log' eq_refl eq_refl) as (text & Htext);
              rewrite Htext
            | match goal with
              | |- context [Tools.pretty (Object ?ps)] =>
                  destruct (pretty_Object ps) as (text & Htext); rewrite Htext
              end
            | idtac ];
      eexists; (split; [reflexivity|]); eexists; reflexivity.
  - destruct tool; revert Einvoke; open_tool; unfold bind at 1;
      intro Einvoke; rewrite Einvoke;
      eexists; split; reflexivity.
Qed.

Section Confirmations.

Variable formatError : Thrown -> string.
Variable credentials : Env.TenantCredentials.
Variable token : string.

Hypothesis has_token : Env.accessToken credentials = Some token.
Hypothesis token_nonempty : token <> "".

(** An ok response that is a 204 or has a JSON body makes [request]
    return. *)
Lemma request_answered (r : Response) (net : Network) (log : list FetchCall) :
  (forall c, net c = Fulfilled r) ->
  ok r = true ->
  status r = 204 \/ Json.parse (body r) <> None ->
  forall endpoint options,
    exists data,
      request (createLoomClient credentials) endpoint options net log
      = (Return data,
         (log ++ [Spec.issued (createLoomClient credentials) endpoint
                    options token])%list).
Proof.
  intros Hnet Hok Hbody endpoint options.
  destruct (Z.eq_dec (status r) 204) as [H204|H204].
  - exists Undefined.
    apply (answered_no_content credentials token r net log has_token
             token_nonempty Hnet H204).
  - destruct Hbody as [Hs|Hparse]; [contradiction|].
    destruct (Json.parse (body r)) as [data|] eqn:Ep; [|congruence].
    exists data.
    apply (answered_ok credentials token r net log has_token token_nonempty
             Hnet data Hok H204 Ep).
Qed.

End Confirmations.

(** X27. The five tools whose operation returns nothing (delete video,
    delete folder, add to and remove from a space, move to a folder) give
    one and the same success text for every ok response that is a 204 or
    has a JSON body: nothing of the response goes into the result. *)
Theorem confirmation_ignores_the_response (formatError : Thrown -> string)
        (credentials : Env.TenantCredentials) (token : string)
        (tool : Tools.ToolCall) (r r' : Response) (net net' : Network)
        (log log' : list FetchCall) :
  Env.accessToken credentials = Some token ->
  token <> "" ->
  (forall c, net c = Fulfilled r) ->
  (forall c, net' c = Fulfilled r') ->
  ok r = true ->
  status r = 204 \/ Json.parse (body r) <> None ->
  ok r' = true ->
  status r' = 204 \/ Json.parse (body r') <> None ->
  Spec.returns_nothing (Spec.operation tool) = true ->
  exists text,
    fst (Tools.registerLoomTools formatError (createLoomClient credentials)
           tool net log)
    = Return (Spec.success (Str text))
    /\ fst (Tools.registerLoomTools formatError
              (createLoomClient credentials) tool net' log')
       = Return (Spec.success (Str text)).
Proof.
  intros Ht Hne Hnet Hnet' Hok Hbody Hok' Hbody' Hvoid.
  pose proof (request_answered credentials token Ht Hne r net log
                Hnet Hok Hbody) as Hr.
  pose proof (request_answered credentials token Ht Hne r' net' log'
                Hnet' Hok' Hbody') as Hr'.
  destruct tool; try discriminate; open_tool; open_operation;
    match goal with
    | |- context [request _ ?e ?o net log] =>
        destruct (Hr e o) as (data & ->); destruct (Hr' e o) as (data' & ->)
    end;
    eexists; split; reflexivity.
Qed.

(** X27, instance: a deletion answered by 204, and by 200 with a record. *)
Lemma confirmation_ignores_the_response_witness :
  exists text,
    fst (Tools.registerLoomTools message
           (createLoomClient
              {| Env.accessToken := Some "tok"; Env.baseUrl := None |})
           (Tools.Loom_delete_video "v1")
           (Spec.answers (Spec.respond 204 [] "")) [])
    = Return (Spec.success (Str text))
    /\ fst (Tools.registerLoomTools message
              (createLoomClient
                 {| Env.accessToken := Some "tok"; Env.baseUrl := None |})
              (Tools.Loom_delete_video "v1")
              (Spec.answers (Spec.respond 200 [] "{'deleted':false}")) [])
       = Return (Spec.success (Str text)).
Proof.
  apply (confirmation_ignores_the_response message
           {| Env.accessToken := Some "tok"; Env.baseUrl := None |} "tok"
           (Tools.Loom_delete_video "v1")
           (Spec.respond 204 [] "") (Spec.respond 200 [] "{'deleted':false}")).
  - reflexivity.
  - discriminate.
  - reflexivity.
  - reflexivity.
  - reflexivity.
  - left. reflexivity.
  - reflexivity.
  - right. vm_compute. discriminate.
  - reflexivity.
Defined.

(** X28. A 204 response makes every tool other than those five return
    the failure result of a TypeError, the tools that create, update or
    duplicate included: their operation reads the fields of a record that
    is not there. *)
Theorem no_content_fails_the_other_tools (formatError : Thrown -> string)
        (credentials : Env.TenantCredentials) (token : string)
        (tool : Tools.ToolCall) (r : Response) (net : Network)
        (log : list FetchCall) :
  Env.accessToken credentials = Some token ->
  token <> "" ->
  (forall c, net c = Fulfilled r) ->
  status r = 204 ->
  Spec.returns_nothing (Spec.operation tool) = false ->
  exists text,
    fst (Tools.registerLoomTools formatError (createLoomClient credentials)
           tool net log)
    = Return (Spec.failure (formatError (TypeError text))).
Proof.
  intros Ht Hne Hnet Hs Hvoid.
  pose proof (answered_no_content credentials token r net log Ht Hne Hnet Hs)
    as Hr.
  destruct tool; try discriminate; open_tool; open_operation; rewrite Hr;
    eexists; reflexivity.
Qed.

(** X28, instance: the folder was created and the answer is 204. *)
Lemma no_content_fails_the_other_tools_witness :
  exists text,
    fst (Tools.registerLoomTools message
           (createLoomClient
              {| Env.accessToken := Some "tok"; Env.baseUrl := None |})
           (Tools.Loom_create_folder "Demos" None)
           (Spec.answers (Spec.respond 204 [] "")) [])
    = Return (Spec.failure (message (TypeError text))).
Proof.
  apply (no_content_fails_the_other_tools message
           {| Env.accessToken := Some "tok"; Env.baseUrl := None |} "tok"
           (Tools.Loom_create_folder "Demos" None) (Spec.respond 204 [] "")).
  - reflexivity.
  - discriminate.
  - reflexivity.
  - reflexivity.
  - reflexivity.
Defined.

(** ** Pagination that is sent *)

(** X29. A listing operation that is given a truthy page size and a
    non-empty cursor sends both, the page size first, as [per_page] and
    [next_cursor], each urlencoded, behind the first-page URL of the
    operation: after a question mark for the four list endpoints, after an
    ampersand for the search, whose text comes first. *)
Theorem pagination_is_sent (this : LoomClientImpl) (token : string)
        (call : Call) (size : number) (cursor : string) (net : Network)
        (log : list FetchCall) :
  Env.accessToken (credentials this) = Some token ->
  token <> "" ->
  is_listing call = true ->
  number_truthy size = true ->
  cursor <> "" ->
  exists sent,
    snd (invoke this
           (Spec.with_params call
              (Some {| perPage := Some size; nextCursor := Some cursor |}))
           net log)
    = (log ++ [sent])%list
    /\ url sent
       = baseUrl this
         ++ (Spec.first_page call
             ++ (match call with
                 | SearchVideos _ _ => "&"
                 | _ => "?"
                 end
                 ++ "per_page=" ++ urlencode (number_to_string size)
                 ++ "&next_cursor=" ++ urlencode cursor)).
Proof.
  intros Ht Hne Hlisting Hsize Hcursor.
  apply string_truthy_nonempty in Hcursor.
  destruct call; try discriminate; simpl Spec.with_params;
    unfold invoke, listVideos, listFolders, listSpaces, listSpaceVideos,
      searchVideos;
    rewrite bind_lift_log, (request_log this _ _ net log token Ht Hne);
    eexists; (split; [reflexivity|]);
    unfold pagination, set_number, set_string, opt, with_query;
    simpl; rewrite Hsize, Hcursor; simpl;
    rewrite ?append_assoc; simpl; rewrite ?append_assoc; reflexivity.
Qed.

(** X29, instance: the second page of the videos of a space. *)
Lemma pagination_is_sent_witness :
  List.map url
    (snd (invoke
            (createLoomClient
               {| Env.accessToken := Some "tok"; Env.baseUrl := None |})
            (ListSpaceVideos "s1"
               (Some {| perPage := Some (Int 50);
                        nextCursor := Some "a/b=" |}))
            Spec.offline []))
  = ["https://api.loom.com/v1/spaces/s1/videos?per_page=50&next_cursor=a%2Fb%3D"].
Proof.
  destruct (pagination_is_sent
              (createLoomClient
                 {| Env.accessToken := Some "tok"; Env.baseUrl := None |})
              "tok" (ListSpaceVideos "s1" None) (Int 50) "a/b=" Spec.offline [])
    as (sent & Hs & Hurl).
  - reflexivity.
  - discriminate.
  - reflexivity.
  - reflexivity.
  - discriminate.
  - simpl Spec.with_params in Hs. rewrite Hs. simpl List.map.
    rewrite Hurl. reflexivity.
Defined.
